(** * GSAP: the battery model and the model-based prognoser

    A shallow embedding of [framework/src/Battery.cpp] and of
    [framework/src/ModelBasedPrognoser.cpp].

    The C++ code computes on [double].  The embedding is written once, over
    an interface [Arith] of the arithmetic the code uses, and is read at two
    instances:

    - [float], the kernel's binary64 numbers, whose operations are the IEEE
      754 ones of a C++ [double] (rounding to nearest, infinities, signed
      zeros, NaN).  This is the program as it runs; it evaluates by
      [vm_compute].
    - the real numbers, the arithmetic the model's equations are written
      for, in which nothing is rounded.

    The functions of [<cmath>] ([pow], [log], [asinh]) and the [long double]
    format are not part of the repository: they are the interface [Libm],
    and every theorem holds for all of its implementations. *)

From Stdlib Require Import String ZArith NArith QArith List Bool Lia.
From Stdlib Require Import Floats.
From Stdlib Require Import Reals Qreals Lra.
Import ListNotations.

Set Warnings "-inexact-float,-abstract-large-number".

(* ================================================================== *)
(** * The arithmetic of [double] *)

(** The operations of [double] the two files use.  [of_Q] reads a literal
    of the source ([0.117215], [7e6], [22]): the value of type [D] nearest
    to that decimal. *)
Class Arith (D : Type) : Type := {
  of_Q : Q -> D;
  dadd : D -> D -> D;
  dsub : D -> D -> D;
  dmul : D -> D -> D;
  ddiv : D -> D -> D;
  dopp : D -> D;
  dleb : D -> D -> bool
}.

(** What the code takes from [<cmath>], and the [long double] arithmetic of
    the two overpotential lines of [Battery::stateEqn]: [widen] is the
    implicit conversion of a [double] operand, [narrow] is
    [static_cast<double>].  [asinh] is called on a [long double]; whether
    that call is the [long double] function or the [double] one between two
    conversions is the library's choice, and [asinh] here stands for
    either. *)
Class Libm (D : Type) : Type := {
  pow : D -> D -> D;
  log : D -> D;
  LD : Type;
  widen : D -> LD;
  narrow : LD -> D;
  ld_of_Q : Q -> LD;
  lmul : LD -> LD -> LD;
  ldiv : LD -> LD -> LD;
  asinh : LD -> LD
}.

Declare Scope dbl_scope.
Delimit Scope dbl_scope with dbl.
Notation "# q" := (of_Q q%Q) (at level 1, q at level 0, format "# q") : dbl_scope.
Infix "+" := dadd : dbl_scope.
Infix "-" := dsub : dbl_scope.
Infix "*" := dmul : dbl_scope.
Infix "/" := ddiv : dbl_scope.
Notation "- x" := (dopp x) : dbl_scope.
Infix "<=?" := dleb : dbl_scope.

(** ** Instance: IEEE 754 binary64 *)

(** An integer below 2^53 in magnitude is a [double]; the quotient of two
    such is rounded once, to the nearest [double], which is how a compiler
    reads a decimal literal. *)
Definition float_of_Z (z : Z) : float :=
  match z with
  | Z0 => PrimFloat.zero
  | Zpos _ => PrimFloat.of_uint63 (Uint63.of_Z z)
  | Zneg p => PrimFloat.opp (PrimFloat.of_uint63 (Uint63.of_Z (Zpos p)))
  end.

Definition float_of_Q (q : Q) : float :=
  PrimFloat.div (float_of_Z (Qnum q)) (float_of_Z (Zpos (Qden q))).

#[export] Instance float_arith : Arith float := {|
  of_Q := float_of_Q;
  dadd := PrimFloat.add;
  dsub := PrimFloat.sub;
  dmul := PrimFloat.mul;
  ddiv := PrimFloat.div;
  dopp := PrimFloat.opp;
  dleb := PrimFloat.leb
|}.

(** A stand-in for [<cmath>] in binary64, to run the model on examples:
    [log] by the series of the inverse hyperbolic tangent on the mantissa,
    [exp] by its power series after reduction by multiples of [ln 2],
    [pow] by repeated multiplication for an integer exponent, by [sqrt] for
    the exponent 1/2 and by [exp (y * log x)] otherwise; [long double] is
    taken to be [double], as on the platforms where the two coincide.  It
    approximates the library and is not the library: no theorem depends on
    it, each holds for every [Libm]. *)
Module Cmath.
Local Open Scope float_scope.

Definition ln2 : float := 0x1.62e42fefa39efp-1.

(** The integer a finite [double] holds, when it holds one. *)
Definition to_integer (x : float) : option Z :=
  match Prim2SF x with
  | S754_zero _ => Some 0%Z
  | S754_finite s m e =>
      let n := Z.shiftl (Zpos m) e in
      if (Z.shiftl n (- e) =? Zpos m)%Z then Some (if s then (- n)%Z else n)
      else None
  | _ => None
  end.

(** [1/(2j+1) + s2 * (1/(2j+3) + s2 * (...))], from the innermost term. *)
Fixpoint atanh_terms (j : nat) (s2 acc : float) : float :=
  match j with
  | O => acc
  | S j' => atanh_terms j' s2 (1 / float_of_Z (Z.of_nat (2 * j' + 1)) + s2 * acc)
  end.

Definition log (x : float) : float :=
  if is_nan x then nan
  else if x <? 0 then nan
  else if x =? 0 then neg_infinity
  else if is_infinity x then infinity
  else
    let (m, e) := FloatOps.Z.frexp x in
    let (m, e) := if m <? 0x1.6a09e667f3bcdp-1 then (m * 2, (e - 1)%Z) else (m, e) in
    let s := (m - 1) / (m + 1) in
    2 * s * atanh_terms 20 (s * s) (1 / 41) + float_of_Z e * ln2.

(** [1 + r/1 * (1 + r/2 * (...))], from the innermost term. *)
Fixpoint exp_terms (j : nat) (r acc : float) : float :=
  match j with
  | O => acc
  | S j' => exp_terms j' r (1 + r / float_of_Z (Z.of_nat j) * acc)
  end.

Definition exp (x : float) : float :=
  if is_nan x then nan
  else if 710 <? x then infinity
  else if x <? -746 then 0
  else
    let k := x / ln2 + 0x1.8p52 - 0x1.8p52 in
    let r := x - k * ln2 in
    match to_integer k with
    | Some n => FloatOps.Z.ldexp (exp_terms 30 r 1) n
    | None => nan
    end.

Fixpoint power (x : float) (n : nat) : float :=
  match n with
  | O => 1
  | S n' => x * power x n'
  end.

(** The natural number [y] holds, looked for from [n] (held by [fn]) over
    [count] numbers. *)
Fixpoint natural (count n : nat) (fn y : float) : option nat :=
  match count with
  | O => None
  | S count' => if y =? fn then Some n else natural count' (S n) (fn + 1) y
  end.

Definition pow (x y : float) : float :=
  match natural 64 0 0 y with
  | Some n => power x n
  | None =>
      match natural 64 0 0 (- y) with
      | Some n => 1 / power x n
      | None => if y =? 0.5 then PrimFloat.sqrt x else exp (y * log x)
      end
  end.

Definition asinh (x : float) : float :=
  let a := abs x in
  let r := log (a + PrimFloat.sqrt (a * a + 1)) in
  if x <? 0 then - r else r.

Definition libm : Libm float :=
  Build_Libm float pow log float (fun x => x) (fun x => x) float_of_Q
    PrimFloat.mul PrimFloat.div asinh.

End Cmath.

(** ** Instance: the real numbers *)

Definition Rleb (a b : R) : bool := if Rle_dec a b then true else false.

#[export] Instance real_arith : Arith R := {|
  of_Q := Q2R;
  dadd := Rplus;
  dsub := Rminus;
  dmul := Rmult;
  ddiv := Rdiv;
  dopp := Ropp;
  dleb := Rleb
|}.

(** The real functions behind [<cmath>]: [pow] with a natural exponent is
    the iterated product, otherwise [exp (y * ln x)]. *)
Definition Rpow (x y : R) : R :=
  let k := Z.to_nat (Int_part y) in
  if Req_dec_T y (INR k) then (x ^ k)%R else Rpower x y.

#[export] Instance real_libm : Libm R := {|
  pow := Rpow;
  log := ln;
  LD := R;
  widen := fun x => x;
  narrow := fun x => x;
  ld_of_Q := Q2R;
  lmul := Rmult;
  ldiv := Rdiv;
  asinh := arcsinh
|}.

(* ================================================================== *)
(** * [std::vector<double>] *)

Section Vectors.
Context {D : Type} {A : Arith D}.
Local Open Scope dbl_scope.

(** [std::vector<double> v(n)]: [n] zeros. *)
Definition vector (n : nat) : list D := repeat #0 n.

(** [v[i]] read.  Out of range the C++ behaviour is undefined; the callers
    size every vector by the model's cardinalities, and the theorems below
    state the sizes they rely on. *)
Definition vget (v : list D) (i : nat) : D := nth i v #0.

(** [v[i] = a]; a no-op out of range (undefined in C++, see [vget]). *)
Fixpoint vset (v : list D) (i : nat) (a : D) : list D :=
  match v, i with
  | [], _ => []
  | _ :: v', O => a :: v'
  | b :: v', S i' => b :: vset v' i' a
  end.

End Vectors.

(* ================================================================== *)
(** * [Battery.cpp] *)

Module Battery.

(** The model's cardinalities, [Battery::Battery()]. *)
Definition numStates : nat := 8.
Definition numInputs : nat := 1.
Definition numOutputs : nat := 2.
Definition numInputParameters : nat := 2.
Definition numPredictedOutputs : nat := 1.

(** [parameters]: the fields [Battery::setParameters] assigns and the
    equations read. *)
Record Parameters {D : Type} : Type := mkParameters {
  qMobile : D; xnMax : D; xnMin : D; xpMax : D; xpMin : D; qMax : D;
  Ro : D; R : D; F : D; alpha : D; Sn : D; Sp : D;
  kn : D; kp : D; Vol : D; VolSFraction : D; VolS : D; VolB : D;
  qpMin : D; qpMax : D; qpSMin : D; qpBMin : D; qpSMax : D; qpBMax : D;
  qnMin : D; qnMax : D; qnSMax : D; qnBMax : D; qnSMin : D; qnBMin : D;
  qSMax : D; qBMax : D; tDiffusion : D; to : D; tsn : D; tsp : D;
  U0p : D; Ap0 : D; Ap1 : D; Ap2 : D; Ap3 : D; Ap4 : D;
  Ap5 : D; Ap6 : D; Ap7 : D; Ap8 : D; Ap9 : D; Ap10 : D;
  Ap11 : D; Ap12 : D; U0n : D; An0 : D; An1 : D; An2 : D;
  An3 : D; An4 : D; An5 : D; An6 : D; An7 : D; An8 : D;
  An9 : D; An10 : D; An11 : D; An12 : D; VEOD : D
}.
Arguments Parameters : clear implicits.

(** [indices]: the positions of the named states, inputs and outputs.
    Their declaration is in [Battery.h]; the values are the ones the
    "Extract states" blocks of [stateEqn] and [outputEqn] use for the same
    names ([Tb = x[0]], ..., [qpS = x[7]]; [P = u[0]]; [z[0] = Tbm],
    [z[1] = Vm]). *)
Module indices.
Module states.
Definition Tb : nat := 0.
Definition Vo : nat := 1.
Definition Vsn : nat := 2.
Definition Vsp : nat := 3.
Definition qnB : nat := 4.
Definition qnS : nat := 5.
Definition qpB : nat := 6.
Definition qpS : nat := 7.
End states.
Module inputs.
Definition P : nat := 0.
End inputs.
Module outputs.
Definition Tbm : nat := 0.
Definition Vm : nat := 1.
End outputs.
End indices.

(** What a call leaves behind: it returns, or it throws. *)
Inductive exn : Type :=
| range_error (what : string).

Section Model.
Context {D : Type} {A : Arith D} {L : Libm D}.
Local Open Scope dbl_scope.

(** ** [Battery::setParameters] *)

Definition setParameters (qMobile : D) : Parameters D :=
  let xnMax := #0.6 in
  let xnMin := #0 in
  let xpMax := #1.0 in
  let xpMin := #0.4 in
  let qMax := qMobile / (xnMax - xnMin) in
  let Ro := #0.117215 in
  let R := #8.3144621 in
  let F := #96487 in
  let alpha := #0.5 in
  let Sn := #0.000437545 in
  let Sp := #0.00030962 in
  let kn := #2120.96 in
  let kp := #248898 in
  let Vol := #2e-5 in
  let VolSFraction := #0.1 in
  let VolS := VolSFraction * Vol in
  let VolB := Vol - VolS in
  let qpMin := qMax * xpMin in
  let qpMax := qMax * xpMax in
  let qpSMin := qpMin * VolS / Vol in
  let qpBMin := qpMin * VolB / Vol in
  let qpSMax := qpMax * VolS / Vol in
  let qpBMax := qpMax * VolB / Vol in
  let qnMin := qMax * xnMin in
  let qnMax := qMax * xnMax in
  let qnSMax := qnMax * VolS / Vol in
  let qnBMax := qnMax * VolB / Vol in
  let qnSMin := qnMin * VolS / Vol in
  let qnBMin := qnMin * VolB / Vol in
  let qSMax := qMax * VolS / Vol in
  let qBMax := qMax * VolB / Vol in
  let tDiffusion := #7e6 in
  let to := #6.08671 in
  let tsn := #1.00138e3 in
  let tsp := #46.4311 in
  let U0p := #4.03 in
  let Ap0 := #(-31593.7) in
  let Ap1 := #0.106747 in
  let Ap2 := #24606.4 in
  let Ap3 := #(-78561.9) in
  let Ap4 := #13317.9 in
  let Ap5 := #307387 in
  let Ap6 := #84916.1 in
  let Ap7 := #(-1.07469e+06) in
  let Ap8 := #2285.04 in
  let Ap9 := #990894 in
  let Ap10 := #283920 in
  let Ap11 := #(-161513) in
  let Ap12 := #(-469218) in
  let U0n := #0.01 in
  let An0 := #86.19 in
  let An1 := #0 in
  let An2 := #0 in
  let An3 := #0 in
  let An4 := #0 in
  let An5 := #0 in
  let An6 := #0 in
  let An7 := #0 in
  let An8 := #0 in
  let An9 := #0 in
  let An10 := #0 in
  let An11 := #0 in
  let An12 := #0 in
  let VEOD := #3.2 in
  {| qMobile := qMobile; xnMax := xnMax; xnMin := xnMin; xpMax := xpMax; xpMin := xpMin;
     qMax := qMax; Ro := Ro; R := R; F := F; alpha := alpha;
     Sn := Sn; Sp := Sp; kn := kn; kp := kp; Vol := Vol;
     VolSFraction := VolSFraction; VolS := VolS; VolB := VolB; qpMin := qpMin; qpMax := qpMax;
     qpSMin := qpSMin; qpBMin := qpBMin; qpSMax := qpSMax; qpBMax := qpBMax; qnMin := qnMin;
     qnMax := qnMax; qnSMax := qnSMax; qnBMax := qnBMax; qnSMin := qnSMin; qnBMin := qnBMin;
     qSMax := qSMax; qBMax := qBMax; tDiffusion := tDiffusion; to := to; tsn := tsn;
     tsp := tsp; U0p := U0p; Ap0 := Ap0; Ap1 := Ap1; Ap2 := Ap2;
     Ap3 := Ap3; Ap4 := Ap4; Ap5 := Ap5; Ap6 := Ap6; Ap7 := Ap7;
     Ap8 := Ap8; Ap9 := Ap9; Ap10 := Ap10; Ap11 := Ap11; Ap12 := Ap12;
     U0n := U0n; An0 := An0; An1 := An1; An2 := An2; An3 := An3;
     An4 := An4; An5 := An5; An6 := An6; An7 := An7; An8 := An8;
     An9 := An9; An10 := An10; An11 := An11; An12 := An12; VEOD := VEOD |}.

Variable parameters : Parameters D.

(** ** [Battery::stateEqn] *)

(** What the "Constraints" block computes and the update reads: the
    terminal voltage [V], the current [i] and the eight derivatives. *)
Record Constraints : Type := mkConstraints {
  c_V : D; c_i : D;
  Tbdot : D; Vodot : D; Vsndot : D; Vspdot : D;
  qnBdot : D; qnSdot : D; qpBdot : D; qpSdot : D
}.

(** The "Extract states", "Extract inputs" and "Constraints" blocks. *)
Definition constraints (x u : list D) : Constraints :=
  let Tb := vget x 0 in
  let Vo := vget x 1 in
  let Vsn := vget x 2 in
  let Vsp := vget x 3 in
  let qnB := vget x 4 in
  let qnS := vget x 5 in
  let qpB := vget x 6 in
  let qpS := vget x 7 in
  let P := vget u 0 in
  let Tbdot := #0 in
  let CpBulk := qpB / parameters.(VolB) in
  let CpSurface := qpS / parameters.(VolS) in
  let CnSurface := qnS / parameters.(VolS) in
  let xSn := qnS / parameters.(qSMax) in
  let xnS := qnS / parameters.(qSMax) in
  let Ven11 := parameters.(An11) * (- #22 * xnS * (- xnS + #1) * pow (#2 * xnS - #1) #10
      + pow (#2 * xnS - #1) #12) / parameters.(F) in
  let Ven1 := parameters.(An1) * (- #2 * xnS * (- xnS + #1)
      + pow (#2 * xnS - #1) #2) / parameters.(F) in
  let CnBulk := qnB / parameters.(VolB) in
  let Ven6 := parameters.(An6) * (- #12 * xnS * (- xnS + #1) * pow (#2 * xnS - #1) #5
      + pow (#2 * xnS - #1) #7) / parameters.(F) in
  let xpS := qpS / parameters.(qSMax) in
  let xSp := qpS / parameters.(qBMax) in
  let qdotDiffusionBSp := (CpBulk - CpSurface) / parameters.(tDiffusion) in
  let Ven8 := parameters.(An8) * (- #16 * xnS * (- xnS + #1) * pow (#2 * xnS - #1) #7
      + pow (#2 * xnS - #1) #9) / parameters.(F) in
  let Ven7 := parameters.(An7) * (- #14 * xnS * (- xnS + #1) * pow (#2 * xnS - #1) #6
      + pow (#2 * xnS - #1) #8) / parameters.(F) in
  let Ven9 := parameters.(An9) * (- #18 * xnS * (- xnS + #1) * pow (#2 * xnS - #1) #8
      + pow (#2 * xnS - #1) #10) / parameters.(F) in
  let Ven4 := parameters.(An4) * (- #8 * xnS * (- xnS + #1) * pow (#2 * xnS - #1) #3
      + pow (#2 * xnS - #1) #5) / parameters.(F) in
  let Ven3 := parameters.(An3) * (- #6 * xnS * (- xnS + #1) * pow (#2 * xnS - #1) #2
      + pow (#2 * xnS - #1) #4) / parameters.(F) in
  let Ven2 := parameters.(An2) * (- #4 * xnS * (- xnS + #1) * (#2 * xnS - #1)
      + pow (#2 * xnS - #1) #3) / parameters.(F) in
  let qdotDiffusionBSn := (CnBulk - CnSurface) / parameters.(tDiffusion) in
  let Ven5 := parameters.(An5) * (- #10 * xnS * (- xnS + #1) * pow (#2 * xnS - #1) #4
      + pow (#2 * xnS - #1) #6) / parameters.(F) in
  let Vep4 := parameters.(Ap4) * (- #8 * xpS * (- xpS + #1) * pow (#2 * xpS - #1) #3
      + pow (#2 * xpS - #1) #5) / parameters.(F) in
  let Vep6 := parameters.(Ap6) * (- #12 * xpS * (- xpS + #1) * pow (#2 * xpS - #1) #5
      + pow (#2 * xpS - #1) #7) / parameters.(F) in
  let Vep0 := parameters.(Ap0) * (#2 * xpS - #1) / parameters.(F) in
  let Vep3 := parameters.(Ap3) * (- #6 * xpS * (- xpS + #1) * pow (#2 * xpS - #1) #2
      + pow (#2 * xpS - #1) #4) / parameters.(F) in
  let Vep10 := parameters.(Ap10) * (- #20 * xpS * (- xpS + #1) * pow (#2 * xpS - #1) #9
      + pow (#2 * xpS - #1) #11) / parameters.(F) in
  let Vep12 := parameters.(Ap12) * (- #24 * xpS * (- xpS + #1) * pow (#2 * xpS - #1) #11
      + pow (#2 * xpS - #1) #13) / parameters.(F) in
  let Jn0 := parameters.(kn) * pow (xSn) (parameters.(alpha)) * pow (- xSn
      + #1) (parameters.(alpha)) in
  let Vep7 := parameters.(Ap7) * (- #14 * xpS * (- xpS + #1) * pow (#2 * xpS - #1) #6
      + pow (#2 * xpS - #1) #8) / parameters.(F) in
  let Vep2 := parameters.(Ap2) * (- #4 * xpS * (- xpS + #1) * (#2 * xpS - #1)
      + pow (#2 * xpS - #1) #3) / parameters.(F) in
  let Vep11 := parameters.(Ap11) * (- #22 * xpS * (- xpS + #1) * pow (#2 * xpS - #1) #10
      + pow (#2 * xpS - #1) #12) / parameters.(F) in
  let Ven0 := parameters.(An0) * (#2 * xnS - #1) / parameters.(F) in
  let Ven12 := parameters.(An12) * (- #24 * xnS * (- xnS + #1) * pow (#2 * xnS - #1) #11
      + pow (#2 * xnS - #1) #13) / parameters.(F) in
  let Ven10 := parameters.(An10) * (- #20 * xnS * (- xnS + #1) * pow (#2 * xnS - #1) #9
      + pow (#2 * xnS - #1) #11) / parameters.(F) in
  let Vep9 := parameters.(Ap9) * (- #18 * xpS * (- xpS + #1) * pow (#2 * xpS - #1) #8
      + pow (#2 * xpS - #1) #10) / parameters.(F) in
  let Vep5 := parameters.(Ap5) * (- #10 * xpS * (- xpS + #1) * pow (#2 * xpS - #1) #4
      + pow (#2 * xpS - #1) #6) / parameters.(F) in
  let Vep8 := parameters.(Ap8) * (- #16 * xpS * (- xpS + #1) * pow (#2 * xpS - #1) #7
      + pow (#2 * xpS - #1) #9) / parameters.(F) in
  let Vep1 := parameters.(Ap1) * (- #2 * xpS * (- xpS + #1)
      + pow (#2 * xpS - #1) #2) / parameters.(F) in
  let Jp0 := parameters.(kp) * pow (xSp) (parameters.(alpha)) * pow (- xSp
      + #1) (parameters.(alpha)) in
  let Ven := parameters.(U0n) + Ven0 + Ven1 + Ven10 + Ven11 + Ven12 + Ven2 + Ven3 + Ven4
      + Ven5 + Ven6 + Ven7 + Ven8 + Ven9 + parameters.(R) * Tb * log ((- xnS
      + #1) / xnS) / parameters.(F) in
  let Vep := parameters.(U0p) + Vep0 + Vep1 + Vep10 + Vep11 + Vep12 + Vep2 + Vep3 + Vep4
      + Vep5 + Vep6 + Vep7 + Vep8 + Vep9 + parameters.(R) * Tb * log ((- xpS
      + #1) / xpS) / parameters.(F) in
  let V := - Ven + Vep - Vo - Vsn - Vsp in
  let i := P / V in
  let qnSdot := - i + qdotDiffusionBSn in
  let Jn := i / parameters.(Sn) in
  let VoNominal := parameters.(Ro) * i in
  let Jp := i / parameters.(Sp) in
  let qnBdot := - qdotDiffusionBSn in
  let qpBdot := - qdotDiffusionBSp in
  let qpSdot := i + qdotDiffusionBSp in
  let Vodot := (- Vo + VoNominal) / parameters.(to) in
  let VsnNominal :=
    narrow (ldiv (lmul (widen (parameters.(R) * Tb))
                       (asinh (ldiv (lmul (ldiv (ld_of_Q 1.0) (ld_of_Q 2.0)) (widen Jn))
                                    (widen Jn0))))
                 (widen (parameters.(F) * parameters.(alpha)))) in
  let VspNominal :=
    narrow (ldiv (lmul (widen (parameters.(R) * Tb))
                       (asinh (ldiv (lmul (ldiv (ld_of_Q 1.0) (ld_of_Q 2.0)) (widen Jp))
                                    (widen Jp0))))
                 (widen (parameters.(F) * parameters.(alpha)))) in
  let Vsndot := (- Vsn + VsnNominal) / parameters.(tsn) in
  let Vspdot := (- Vsp + VspNominal) / parameters.(tsp) in
  mkConstraints V i Tbdot Vodot Vsndot Vspdot qnBdot qnSdot qpBdot qpSdot.

(** "Update state" and "Add process noise". *)
Definition stateEqn (t : D) (x u n : list D) (dt : D) : list D :=
  let Tb := vget x 0 in
  let Vo := vget x 1 in
  let Vsn := vget x 2 in
  let Vsp := vget x 3 in
  let qnB := vget x 4 in
  let qnS := vget x 5 in
  let qpB := vget x 6 in
  let qpS := vget x 7 in
  let c := constraints x u in
  let x := vset x 0 (Tb + c.(Tbdot) * dt) in
  let x := vset x 1 (Vo + c.(Vodot) * dt) in
  let x := vset x 2 (Vsn + c.(Vsndot) * dt) in
  let x := vset x 3 (Vsp + c.(Vspdot) * dt) in
  let x := vset x 4 (qnB + c.(qnBdot) * dt) in
  let x := vset x 5 (qnS + c.(qnSdot) * dt) in
  let x := vset x 6 (qpB + c.(qpBdot) * dt) in
  let x := vset x 7 (qpS + c.(qpSdot) * dt) in
  let x := vset x 0 (vget x 0 + dt * vget n 0) in
  let x := vset x 1 (vget x 1 + dt * vget n 1) in
  let x := vset x 2 (vget x 2 + dt * vget n 2) in
  let x := vset x 3 (vget x 3 + dt * vget n 3) in
  let x := vset x 4 (vget x 4 + dt * vget n 4) in
  let x := vset x 5 (vget x 5 + dt * vget n 5) in
  let x := vset x 6 (vget x 6 + dt * vget n 6) in
  let x := vset x 7 (vget x 7 + dt * vget n 7) in
  x.

(** ** [Battery::outputEqn] *)

Definition outputEqn (t : D) (x u n z : list D) : list D :=
  let Tb := vget x 0 in
  let Vo := vget x 1 in
  let Vsn := vget x 2 in
  let Vsp := vget x 3 in
  let qnS := vget x 5 in
  let qpS := vget x 7 in
  let xnS := qnS / parameters.(qSMax) in
  let Tbm := Tb - #273.15 in
  let Ven11 := parameters.(An11) * (- #22 * xnS * (- xnS + #1) * pow (#2 * xnS - #1) #10
      + pow (#2 * xnS - #1) #12) / parameters.(F) in
  let xpS := qpS / parameters.(qSMax) in
  let Vep6 := parameters.(Ap6) * (- #12 * xpS * (- xpS + #1) * pow (#2 * xpS - #1) #5
      + pow (#2 * xpS - #1) #7) / parameters.(F) in
  let Ven5 := parameters.(An5) * (- #10 * xnS * (- xnS + #1) * pow (#2 * xnS - #1) #4
      + pow (#2 * xnS - #1) #6) / parameters.(F) in
  let Ven7 := parameters.(An7) * (- #14 * xnS * (- xnS + #1) * pow (#2 * xnS - #1) #6
      + pow (#2 * xnS - #1) #8) / parameters.(F) in
  let Vep4 := parameters.(Ap4) * (- #8 * xpS * (- xpS + #1) * pow (#2 * xpS - #1) #3
      + pow (#2 * xpS - #1) #5) / parameters.(F) in
  let Ven9 := parameters.(An9) * (- #18 * xnS * (- xnS + #1) * pow (#2 * xnS - #1) #8
      + pow (#2 * xnS - #1) #10) / parameters.(F) in
  let Ven3 := parameters.(An3) * (- #6 * xnS * (- xnS + #1) * pow (#2 * xnS - #1) #2
      + pow (#2 * xnS - #1) #4) / parameters.(F) in
  let Vep7 := parameters.(Ap7) * (- #14 * xpS * (- xpS + #1) * pow (#2 * xpS - #1) #6
      + pow (#2 * xpS - #1) #8) / parameters.(F) in
  let Vep11 := parameters.(Ap11) * (- #22 * xpS * (- xpS + #1) * pow (#2 * xpS - #1) #10
      + pow (#2 * xpS - #1) #12) / parameters.(F) in
  let Ven12 := parameters.(An12) * (- #24 * xnS * (- xnS + #1) * pow (#2 * xnS - #1) #11
      + pow (#2 * xnS - #1) #13) / parameters.(F) in
  let Vep9 := parameters.(Ap9) * (- #18 * xpS * (- xpS + #1) * pow (#2 * xpS - #1) #8
      + pow (#2 * xpS - #1) #10) / parameters.(F) in
  let Vep5 := parameters.(Ap5) * (- #10 * xpS * (- xpS + #1) * pow (#2 * xpS - #1) #4
      + pow (#2 * xpS - #1) #6) / parameters.(F) in
  let Ven1 := parameters.(An1) * (- #2 * xnS * (- xnS + #1)
      + pow (#2 * xnS - #1) #2) / parameters.(F) in
  let Vep8 := parameters.(Ap8) * (- #16 * xpS * (- xpS + #1) * pow (#2 * xpS - #1) #7
      + pow (#2 * xpS - #1) #9) / parameters.(F) in
  let Ven6 := parameters.(An6) * (- #12 * xnS * (- xnS + #1) * pow (#2 * xnS - #1) #5
      + pow (#2 * xnS - #1) #7) / parameters.(F) in
  let Ven8 := parameters.(An8) * (- #16 * xnS * (- xnS + #1) * pow (#2 * xnS - #1) #7
      + pow (#2 * xnS - #1) #9) / parameters.(F) in
  let Vep3 := parameters.(Ap3) * (- #6 * xpS * (- xpS + #1) * pow (#2 * xpS - #1) #2
      + pow (#2 * xpS - #1) #4) / parameters.(F) in
  let Vep10 := parameters.(Ap10) * (- #20 * xpS * (- xpS + #1) * pow (#2 * xpS - #1) #9
      + pow (#2 * xpS - #1) #11) / parameters.(F) in
  let Vep12 := parameters.(Ap12) * (- #24 * xpS * (- xpS + #1) * pow (#2 * xpS - #1) #11
      + pow (#2 * xpS - #1) #13) / parameters.(F) in
  let Ven4 := parameters.(An4) * (- #8 * xnS * (- xnS + #1) * pow (#2 * xnS - #1) #3
      + pow (#2 * xnS - #1) #5) / parameters.(F) in
  let Ven2 := parameters.(An2) * (- #4 * xnS * (- xnS + #1) * (#2 * xnS - #1)
      + pow (#2 * xnS - #1) #3) / parameters.(F) in
  let Vep2 := parameters.(Ap2) * (- #4 * xpS * (- xpS + #1) * (#2 * xpS - #1)
      + pow (#2 * xpS - #1) #3) / parameters.(F) in
  let Ven0 := parameters.(An0) * (#2 * xnS - #1) / parameters.(F) in
  let Ven10 := parameters.(An10) * (- #20 * xnS * (- xnS + #1) * pow (#2 * xnS - #1) #9
      + pow (#2 * xnS - #1) #11) / parameters.(F) in
  let Vep1 := parameters.(Ap1) * (- #2 * xpS * (- xpS + #1)
      + pow (#2 * xpS - #1) #2) / parameters.(F) in
  let Vep0 := parameters.(Ap0) * (#2 * xpS - #1) / parameters.(F) in
  let Ven := parameters.(U0n) + Ven0 + Ven1 + Ven10 + Ven11 + Ven12 + Ven2 + Ven3 + Ven4
      + Ven5 + Ven6 + Ven7 + Ven8 + Ven9 + parameters.(R) * Tb * log ((- xnS
      + #1) / xnS) / parameters.(F) in
  let Vep := parameters.(U0p) + Vep0 + Vep1 + Vep10 + Vep11 + Vep12 + Vep2 + Vep3 + Vep4
      + Vep5 + Vep6 + Vep7 + Vep8 + Vep9 + parameters.(R) * Tb * log ((- xpS
      + #1) / xpS) / parameters.(F) in
  let V := - Ven + Vep - Vo - Vsn - Vsp in
  let Vm := V in
  let z := vset z 0 Tbm in
  let z := vset z 1 Vm in
  let z := vset z 0 (vget z 0 + vget n 0) in
  let z := vset z 1 (vget z 1 + vget n 1) in
  z.

(** ** [Battery::thresholdEqn] *)

Definition thresholdEqn (t : D) (x u : list D) : bool :=
  let z := vector 2 in
  let zeroNoise := vector 8 in
  let z := outputEqn t x u zeroNoise z in
  vget z 1 <=? parameters.(VEOD).

(** ** [Battery::inputEqn] *)

(** [unsigned int i]: 32 bits, [i += 2] wraps. *)
Definition UINT_MODULUS : N := 2 ^ 32.

(** The [for] loop, from index [i] with the time accumulated so far.  Each
    turn either returns or adds 2 to [i], so [fuel] counts the turns left;
    [None] when they run out. *)
Fixpoint inputEqn_loop (fuel : nat) (t : D) (inputParameters : list D)
    (i : N) (elapsedTime : D) (u : list D) : option (list D) :=
  match fuel with
  | O => None
  | S fuel' =>
      if (i <? N.of_nat (length inputParameters))%N then
        let elapsedTime :=
          elapsedTime + vget inputParameters (N.to_nat ((i + 1) mod UINT_MODULUS)) in
        if t <=? elapsedTime then
          Some (vset u 0 (vget inputParameters (N.to_nat i)))
        else
          inputEqn_loop fuel' t inputParameters ((i + 2) mod UINT_MODULUS) elapsedTime u
      else
        Some (vset u 0 (vget inputParameters (length inputParameters - 2)))
  end.

(** [inl e]: the call throws [e], and [u] is as it was.  [inr None]: the
    loop is still running after [fuel] turns.  [inr (Some u')]: the call
    returns, with [u'] for [u]. *)
Definition inputEqn (fuel : nat) (t : D) (inputParameters u : list D)
    : exn + option (list D) :=
  if ((length inputParameters <? 2)%nat
      || negb (Nat.eqb (length inputParameters mod 2) 0))%bool
  then inl (range_error "Battery::inputEqn - Incorrect number of input parameters")
  else inr (inputEqn_loop fuel t inputParameters 0%N #0 u).

(** ** [Battery::predictedOutputEqn] *)

Definition predictedOutputEqn (t : D) (x u z : list D) : list D :=
  let qnS := vget x indices.states.qnS in
  let qnB := vget x indices.states.qnB in
  let SOC := (qnS + qnB) / parameters.(qnMax) in
  vset z 0 SOC.

(** ** [Battery::initialize] *)

(** The [while] loop that fills [xp] and [xn]: [fuel] bounds its turns,
    [None] when they run out. *)
Fixpoint initialize_sweep (fuel : nat) (xi : D) (xp xn : list D)
    : option (list D * list D) :=
  match fuel with
  | O => None
  | S fuel' =>
      if xi <=? #1.0 then
        initialize_sweep fuel' (xi + #0.0001) (xp ++ [xi]) (xn ++ [#1 - xi])
      else Some (xp, xn)
  end.

(** The voltage the body of the [for] loop predicts for the pair
    [xpS = xp[i]], [xnS = xn[i]]. *)
Definition initialize_V (Tb Vo xpS xnS : D) : D :=
  let Vep0 := parameters.(Ap0) * (#2 * xpS - #1) / parameters.(F) in
  let Vep1 := parameters.(Ap1) * (- #2 * xpS * (- xpS + #1)
      + pow (#2 * xpS - #1) #2) / parameters.(F) in
  let Vep2 := parameters.(Ap2) * (- #4 * xpS * (- xpS + #1) * (#2 * xpS - #1)
      + pow (#2 * xpS - #1) #3) / parameters.(F) in
  let Vep3 := parameters.(Ap3) * (- #6 * xpS * (- xpS + #1) * pow (#2 * xpS - #1) #2
      + pow (#2 * xpS - #1) #4) / parameters.(F) in
  let Vep4 := parameters.(Ap4) * (- #8 * xpS * (- xpS + #1) * pow (#2 * xpS - #1) #3
      + pow (#2 * xpS - #1) #5) / parameters.(F) in
  let Vep5 := parameters.(Ap5) * (- #10 * xpS * (- xpS + #1) * pow (#2 * xpS - #1) #4
      + pow (#2 * xpS - #1) #6) / parameters.(F) in
  let Vep6 := parameters.(Ap6) * (- #12 * xpS * (- xpS + #1) * pow (#2 * xpS - #1) #5
      + pow (#2 * xpS - #1) #7) / parameters.(F) in
  let Vep7 := parameters.(Ap7) * (- #14 * xpS * (- xpS + #1) * pow (#2 * xpS - #1) #6
      + pow (#2 * xpS - #1) #8) / parameters.(F) in
  let Vep8 := parameters.(Ap8) * (- #16 * xpS * (- xpS + #1) * pow (#2 * xpS - #1) #7
      + pow (#2 * xpS - #1) #9) / parameters.(F) in
  let Vep9 := parameters.(Ap9) * (- #18 * xpS * (- xpS + #1) * pow (#2 * xpS - #1) #8
      + pow (#2 * xpS - #1) #10) / parameters.(F) in
  let Vep10 := parameters.(Ap10) * (- #20 * xpS * (- xpS + #1) * pow (#2 * xpS - #1) #9
      + pow (#2 * xpS - #1) #11) / parameters.(F) in
  let Vep11 := parameters.(Ap11) * (- #22 * xpS * (- xpS + #1) * pow (#2 * xpS - #1) #10
      + pow (#2 * xpS - #1) #12) / parameters.(F) in
  let Vep12 := parameters.(Ap12) * (- #24 * xpS * (- xpS + #1) * pow (#2 * xpS - #1) #11
      + pow (#2 * xpS - #1) #13) / parameters.(F) in
  let Vep := parameters.(U0p) + Vep0 + Vep1 + Vep10 + Vep11 + Vep12 + Vep2 + Vep3 + Vep4
      + Vep5 + Vep6 + Vep7 + Vep8 + Vep9 + parameters.(R) * Tb * log ((- xpS
      + #1) / xpS) / parameters.(F) in
  let Ven0 := parameters.(An0) * (#2 * xnS - #1) / parameters.(F) in
  let Ven1 := parameters.(An1) * (- #2 * xnS * (- xnS + #1)
      + pow (#2 * xnS - #1) #2) / parameters.(F) in
  let Ven2 := parameters.(An2) * (- #4 * xnS * (- xnS + #1) * (#2 * xnS - #1)
      + pow (#2 * xnS - #1) #3) / parameters.(F) in
  let Ven3 := parameters.(An3) * (- #6 * xnS * (- xnS + #1) * pow (#2 * xnS - #1) #2
      + pow (#2 * xnS - #1) #4) / parameters.(F) in
  let Ven4 := parameters.(An4) * (- #8 * xnS * (- xnS + #1) * pow (#2 * xnS - #1) #3
      + pow (#2 * xnS - #1) #5) / parameters.(F) in
  let Ven5 := parameters.(An5) * (- #10 * xnS * (- xnS + #1) * pow (#2 * xnS - #1) #4
      + pow (#2 * xnS - #1) #6) / parameters.(F) in
  let Ven6 := parameters.(An6) * (- #12 * xnS * (- xnS + #1) * pow (#2 * xnS - #1) #5
      + pow (#2 * xnS - #1) #7) / parameters.(F) in
  let Ven7 := parameters.(An7) * (- #14 * xnS * (- xnS + #1) * pow (#2 * xnS - #1) #6
      + pow (#2 * xnS - #1) #8) / parameters.(F) in
  let Ven8 := parameters.(An8) * (- #16 * xnS * (- xnS + #1) * pow (#2 * xnS - #1) #7
      + pow (#2 * xnS - #1) #9) / parameters.(F) in
  let Ven9 := parameters.(An9) * (- #18 * xnS * (- xnS + #1) * pow (#2 * xnS - #1) #8
      + pow (#2 * xnS - #1) #10) / parameters.(F) in
  let Ven10 := parameters.(An10) * (- #20 * xnS * (- xnS + #1) * pow (#2 * xnS - #1) #9
      + pow (#2 * xnS - #1) #11) / parameters.(F) in
  let Ven11 := parameters.(An11) * (- #22 * xnS * (- xnS + #1) * pow (#2 * xnS - #1) #10
      + pow (#2 * xnS - #1) #12) / parameters.(F) in
  let Ven12 := parameters.(An12) * (- #24 * xnS * (- xnS + #1) * pow (#2 * xnS - #1) #11
      + pow (#2 * xnS - #1) #13) / parameters.(F) in
  let Ven := parameters.(U0n) + Ven0 + Ven1 + Ven10 + Ven11 + Ven12 + Ven2 + Ven3 + Ven4
      + Ven5 + Ven6 + Ven7 + Ven8 + Ven9 + parameters.(R) * Tb * log ((- xnS
      + #1) / xnS) / parameters.(F) in
  let Ve := Vep - Ven in
  let V := Ve - Vo in
  V.

(** The [for] loop, from index [i], with [count] turns to go
    ([xp.size() - i]); [break] is the early return. *)
Fixpoint initialize_search (count : nat) (Tb Vo voltage : D) (xp xn : list D)
    (i : nat) (xpo xno : D) : D * D :=
  match count with
  | O => (xpo, xno)
  | S count' =>
      let xpS := vget xp i in
      let xnS := vget xn i in
      let V := initialize_V Tb Vo xpS xnS in
      if V <=? voltage then (vget xp i, vget xn i)
      else initialize_search count' Tb Vo voltage xp xn (S i) xpo xno
  end.

Definition initialize (fuel : nat) (x u z : list D) : option (list D) :=
  match initialize_sweep fuel #0.4 [] [] with
  | None => None
  | Some (xp, xn) =>
      let xpo := #0.4 in
      let xno := #0.6 in
      let Tb := vget z indices.outputs.Tbm + #273.15 in
      let voltage := vget z indices.outputs.Vm in
      let current := vget u indices.inputs.P / voltage in
      let Vo := current * parameters.(Ro) in
      let '(xpo, xno) :=
        initialize_search (length xp) Tb Vo voltage xp xn 0 xpo xno in
      let qpS0 := parameters.(qMax) * xpo * parameters.(VolS) / parameters.(Vol) in
      let qnS0 := parameters.(qMax) * xno * parameters.(VolS) / parameters.(Vol) in
      let qpB0 := qpS0 * parameters.(VolB) / parameters.(VolS) in
      let qnB0 := qnS0 * parameters.(VolB) / parameters.(VolS) in
      let x := vset x indices.states.Tb Tb in
      let x := vset x indices.states.Vo Vo in
      let x := vset x indices.states.Vsn #0 in
      let x := vset x indices.states.Vsp #0 in
      let x := vset x indices.states.qnB qnB0 in
      let x := vset x indices.states.qnS qnS0 in
      let x := vset x indices.states.qpB qpB0 in
      let x := vset x indices.states.qpS qpS0 in
      Some x
  end.

End Model.

(** ** [Battery::Battery] *)

Section Construction.
Context {D : Type} {A : Arith D}.
Local Open Scope dbl_scope.

(** The members the constructors assign: the cardinalities, the default
    time step and the parameters. *)
Record Members : Type := mkMembers {
  m_numStates : nat;
  m_numInputs : nat;
  m_numOutputs : nat;
  m_numInputParameters : nat;
  m_numPredictedOutputs : nat;
  m_dt : D;
  m_parameters : Parameters D
}.

Definition set_parameters (this : Members) (p : Parameters D) : Members :=
  {| m_numStates := this.(m_numStates); m_numInputs := this.(m_numInputs);
     m_numOutputs := this.(m_numOutputs);
     m_numInputParameters := this.(m_numInputParameters);
     m_numPredictedOutputs := this.(m_numPredictedOutputs);
     m_dt := this.(m_dt); m_parameters := p |}.

(** [parameters.Ro = value] and [parameters.VEOD = value]: every other
    field stays. *)
Definition set_Ro (p : Parameters D) (value : D) : Parameters D :=
  {| qMobile := p.(qMobile); xnMax := p.(xnMax); xnMin := p.(xnMin);
     xpMax := p.(xpMax); xpMin := p.(xpMin); qMax := p.(qMax); Ro := value; R := p.(R);
     F := p.(F); alpha := p.(alpha); Sn := p.(Sn); Sp := p.(Sp); kn := p.(kn);
     kp := p.(kp); Vol := p.(Vol); VolSFraction := p.(VolSFraction); VolS := p.(VolS);
     VolB := p.(VolB); qpMin := p.(qpMin); qpMax := p.(qpMax); qpSMin := p.(qpSMin);
     qpBMin := p.(qpBMin); qpSMax := p.(qpSMax); qpBMax := p.(qpBMax);
     qnMin := p.(qnMin); qnMax := p.(qnMax); qnSMax := p.(qnSMax);
     qnBMax := p.(qnBMax); qnSMin := p.(qnSMin); qnBMin := p.(qnBMin);
     qSMax := p.(qSMax); qBMax := p.(qBMax); tDiffusion := p.(tDiffusion);
     to := p.(to); tsn := p.(tsn); tsp := p.(tsp); U0p := p.(U0p); Ap0 := p.(Ap0);
     Ap1 := p.(Ap1); Ap2 := p.(Ap2); Ap3 := p.(Ap3); Ap4 := p.(Ap4); Ap5 := p.(Ap5);
     Ap6 := p.(Ap6); Ap7 := p.(Ap7); Ap8 := p.(Ap8); Ap9 := p.(Ap9); Ap10 := p.(Ap10);
     Ap11 := p.(Ap11); Ap12 := p.(Ap12); U0n := p.(U0n); An0 := p.(An0);
     An1 := p.(An1); An2 := p.(An2); An3 := p.(An3); An4 := p.(An4); An5 := p.(An5);
     An6 := p.(An6); An7 := p.(An7); An8 := p.(An8); An9 := p.(An9); An10 := p.(An10);
     An11 := p.(An11); An12 := p.(An12); VEOD := p.(VEOD) |}.

Definition set_VEOD (p : Parameters D) (value : D) : Parameters D :=
  {| qMobile := p.(qMobile); xnMax := p.(xnMax); xnMin := p.(xnMin);
     xpMax := p.(xpMax); xpMin := p.(xpMin); qMax := p.(qMax); Ro := p.(Ro);
     R := p.(R); F := p.(F); alpha := p.(alpha); Sn := p.(Sn); Sp := p.(Sp);
     kn := p.(kn); kp := p.(kp); Vol := p.(Vol); VolSFraction := p.(VolSFraction);
     VolS := p.(VolS); VolB := p.(VolB); qpMin := p.(qpMin); qpMax := p.(qpMax);
     qpSMin := p.(qpSMin); qpBMin := p.(qpBMin); qpSMax := p.(qpSMax);
     qpBMax := p.(qpBMax); qnMin := p.(qnMin); qnMax := p.(qnMax);
     qnSMax := p.(qnSMax); qnBMax := p.(qnBMax); qnSMin := p.(qnSMin);
     qnBMin := p.(qnBMin); qSMax := p.(qSMax); qBMax := p.(qBMax);
     tDiffusion := p.(tDiffusion); to := p.(to); tsn := p.(tsn); tsp := p.(tsp);
     U0p := p.(U0p); Ap0 := p.(Ap0); Ap1 := p.(Ap1); Ap2 := p.(Ap2); Ap3 := p.(Ap3);
     Ap4 := p.(Ap4); Ap5 := p.(Ap5); Ap6 := p.(Ap6); Ap7 := p.(Ap7); Ap8 := p.(Ap8);
     Ap9 := p.(Ap9); Ap10 := p.(Ap10); Ap11 := p.(Ap11); Ap12 := p.(Ap12);
     U0n := p.(U0n); An0 := p.(An0); An1 := p.(An1); An2 := p.(An2); An3 := p.(An3);
     An4 := p.(An4); An5 := p.(An5); An6 := p.(An6); An7 := p.(An7); An8 := p.(An8);
     An9 := p.(An9); An10 := p.(An10); An11 := p.(An11); An12 := p.(An12);
     VEOD := value |}.

(** The default argument of [setParameters], declared in [Battery.h]. *)
Variable qMobile_default : D.

(** [Battery::Battery()]. *)
Definition Battery : Members :=
  {| m_numStates := 8; m_numInputs := 1; m_numOutputs := 2;
     m_numInputParameters := 2; m_numPredictedOutputs := 1;
     m_dt := #1;
     m_parameters := setParameters qMobile_default |}.

(** Configuration keys. *)
Definition QMOBILE_KEY : string := "Battery.qMobile".
Definition RO_KEY : string := "Battery.Ro".
Definition VEOD_KEY : string := "Battery.VEOD".

(** What the constructor can throw: the exceptions of [std::stod] and of
    [at] on a key that is not there. *)
Inductive exception : Type :=
| invalid_argument
| out_of_range.

(** [ConfigMap], declared in [ConfigMap.h]: a map from keys to lists of
    strings.  [includes] tells whether a key is there and [at] gives its
    list, throwing when it is not. *)
Definition ConfigMap : Type := string -> option (list string).

Definition includes (configMap : ConfigMap) (key : string) : bool :=
  match configMap key with
  | Some _ => true
  | None => false
  end.

Definition ConfigMap_at (configMap : ConfigMap) (key : string)
    : exception + list string :=
  match configMap key with
  | Some values => inr values
  | None => inl out_of_range
  end.

(** [std::stod]: the number a string starts with, or an exception. *)
Variable stod : string -> exception + D.

(** A call that throws ends the constructor. *)
Definition bind {X Y : Type} (m : exception + X) (k : X -> exception + Y)
    : exception + Y :=
  match m with
  | inl e => inl e
  | inr x => k x
  end.

Local Notation "x <- m ;; k" := (bind m (fun x => k))
  (at level 61, m at next level, right associativity).

(** [configMap.at(key)[0]] converted by [std::stod].  On an empty list the
    index is out of range (undefined in C++); it reads the empty string
    here. *)
Definition stod_at (configMap : ConfigMap) (key : string) : exception + D :=
  values <- ConfigMap_at configMap key ;;
  stod (nth 0 values ""%string).

(** [Battery::Battery(const ConfigMap &)]: the default constructor, then
    the three keys in the order of the source. *)
Definition Battery_ConfigMap (configMap : ConfigMap) : exception + Members :=
  let this := Battery in
  this <- (if includes configMap QMOBILE_KEY then
             qMobile <- stod_at configMap QMOBILE_KEY ;;
             inr (set_parameters this (setParameters qMobile))
           else inr this) ;;
  this <- (if includes configMap RO_KEY then
             value <- stod_at configMap RO_KEY ;;
             inr (set_parameters this (set_Ro this.(m_parameters) value))
           else inr this) ;;
  this <- (if includes configMap VEOD_KEY then
             value <- stod_at configMap VEOD_KEY ;;
             inr (set_parameters this (set_VEOD this.(m_parameters) value))
           else inr this) ;;
  inr this.

End Construction.

End Battery.

(* ================================================================== *)
(** * [ModelBasedPrognoser.cpp] *)

Module ModelBasedPrognoser.

Section Prognoser.
Context {D : Type} {A : Arith D}.
Local Open Scope dbl_scope.

(** The collaborators of the prognoser are declared outside the two files:
    the communication manager with its time stamps, the model, the observer
    and the predictor behind their abstract classes, the state estimate
    ([std::vector<UData>]) and the results ([ProgData]).  They are the
    parameters of this section. *)
Context {Time UDataVector ProgData Observer Predictor : Type}.
Variable time_to_double : Time -> D.

(** [comm.getValue(name)]: a value with the time it was taken. *)
Record Datum : Type := mkDatum { value : D; getTime : Time }.
Definition CommManager : Type := string -> Datum.

(** [PrognosticsModel]: what [step] calls on [model]. *)
Record PrognosticsModel : Type := mkModel {
  getNumStates : nat;
  getNumInputs : nat;
  getNumOutputs : nat;
  model_initialize : list D -> list D -> list D -> list D
}.

(** [Observer] and [Predictor]: what [step] calls on them, as functions of
    the object's state. *)
Record ObserverClass : Type := mkObserverClass {
  observer_initialize : D -> list D -> list D -> Observer -> Observer;
  observer_step : D -> list D -> list D -> Observer -> Observer;
  observer_getStateEstimate : Observer -> UDataVector
}.
Record PredictorClass : Type := mkPredictorClass {
  predictor_predict : D -> UDataVector -> ProgData -> Predictor -> Predictor * ProgData
}.

Variable model : PrognosticsModel.
Variable observerClass : ObserverClass.
Variable predictorClass : PredictorClass.

(** The calls [step] makes on its collaborators, in order. *)
Inductive call : Type :=
| call_model_initialize (u z : list D)
| call_observer_initialize (t : D) (x u : list D)
| call_observer_step (t : D) (u z : list D)
| call_observer_getStateEstimate
| call_predictor_predict (t : D) (stateEst : UDataVector).

(** The calls that estimate or predict: [observer->step] and
    [predictor->predict]. *)
Definition estimates_or_predicts (c : call) : bool :=
  match c with
  | call_observer_step _ _ _ => true
  | call_predictor_predict _ _ => true
  | _ => false
  end.

(** The members [step] reads and writes, with the history of its calls.
    The constructor sets [initialized] to [false] and leaves [lastTime]
    unset. *)
Record prognoser : Type := mkPrognoser {
  inputs : list string;
  outputs : list string;
  initialized : bool;
  lastTime : D;
  observer : Observer;
  predictor : Predictor;
  results : ProgData;
  history : list call
}.

(** [for (i = 0; i < n; i++) v[i] = comm.getValue(names[i]);] *)
Fixpoint fill (comm : CommManager) (names : list string) (count i : nat)
    (v : list D) : list D :=
  match count with
  | O => v
  | S count' =>
      fill comm names count' (S i) (vset v i (comm (nth i names ""%string)).(value))
  end.

(** The time of the sample, in seconds from [initialTime]. *)
Definition seconds (comm : CommManager) (p : prognoser) : D :=
  time_to_double (comm (nth 0 p.(outputs) ""%string)).(getTime) / #1.0e3.

(** [static double initialTime]: set by the first call of [step] in the
    process, [None] before it. *)
Definition initialTime_after (initialTime : option D) (comm : CommManager)
    (p : prognoser) : D :=
  match initialTime with
  | Some t0 => t0
  | None => seconds comm p
  end.

Definition newT (initialTime : option D) (comm : CommManager) (p : prognoser) : D :=
  seconds comm p - initialTime_after initialTime comm p.

(** [ModelBasedPrognoser::step]. *)
Definition step (initialTime : option D) (comm : CommManager) (p : prognoser)
    : option D * prognoser :=
  let initialTime := initialTime_after initialTime comm p in
  let newT := seconds comm p - initialTime in
  let u := vector model.(getNumInputs) in
  let z := vector model.(getNumOutputs) in
  let u := fill comm p.(inputs) model.(getNumInputs) 0 u in
  let z := fill comm p.(outputs) model.(getNumOutputs) 0 z in
  if negb p.(initialized) then
    let x := vector model.(getNumStates) in
    let x := model.(model_initialize) x u z in
    (Some initialTime,
     {| inputs := p.(inputs); outputs := p.(outputs);
        initialized := true;
        lastTime := newT;
        observer := observerClass.(observer_initialize) newT x u p.(observer);
        predictor := p.(predictor);
        results := p.(results);
        history := p.(history)
                   ++ [call_model_initialize u z; call_observer_initialize newT x u] |})
  else if newT <=? p.(lastTime) then
    (Some initialTime, p)
  else
    let observer' := observerClass.(observer_step) newT u z p.(observer) in
    let stateEst := observerClass.(observer_getStateEstimate) observer' in
    let '(predictor', results') :=
      predictorClass.(predictor_predict) newT stateEst p.(results) p.(predictor) in
    (Some initialTime,
     {| inputs := p.(inputs); outputs := p.(outputs);
        initialized := true;
        lastTime := newT;
        observer := observer';
        predictor := predictor';
        results := results';
        history := p.(history)
                   ++ [call_observer_step newT u z; call_observer_getStateEstimate;
                       call_predictor_predict newT stateEst] |}).

(** A sequence of calls of [step], one per sample: the prognoser after
    each call. *)
Fixpoint steps (initialTime : option D) (comms : list CommManager) (p : prognoser)
    : list prognoser :=
  match comms with
  | [] => []
  | comm :: comms' =>
      let '(initialTime', p') := step initialTime comm p in
      p' :: steps initialTime' comms' p'
  end.

(** The times the samples of a sequence of calls carry, as [step] computes
    them. *)
Fixpoint newTs (initialTime : option D) (comms : list CommManager) (p : prognoser)
    : list D :=
  match comms with
  | [] => []
  | comm :: comms' =>
      let '(initialTime', p') := step initialTime comm p in
      newT initialTime comm p :: newTs initialTime' comms' p'
  end.

End Prognoser.

End ModelBasedPrognoser.

(* ================================================================== *)
(** * The words of the specification *)

(** ** The load profile of [inputEqn] *)

Section Profile.
Context {D : Type} {A : Arith D}.
Local Open Scope dbl_scope.

(** The profile as the specification reads it: consecutive
    (magnitude, duration) pairs. *)
Fixpoint pairs (inputParameters : list D) : list (D * D) :=
  match inputParameters with
  | magnitude :: duration :: rest => (magnitude, duration) :: pairs rest
  | _ => []
  end.

(** Each magnitude with the cumulative end time of its segment, the
    durations added from left to right starting from [elapsed]. *)
Fixpoint cumulative (elapsed : D) (segments : list (D * D)) : list (D * D) :=
  match segments with
  | [] => []
  | (magnitude, duration) :: rest =>
      (magnitude, elapsed + duration) :: cumulative (elapsed + duration) rest
  end.

(** The sum of all durations, added in the same order. *)
Definition total_duration (inputParameters : list D) : D :=
  fold_left (fun elapsed segment => elapsed + snd segment) (pairs inputParameters) #0.

(** The first segment whose cumulative end time is [>= t]. *)
Definition first_reached (t : D) (inputParameters : list D) : option (D * D) :=
  find (fun segment => t <=? snd segment) (cumulative #0 (pairs inputParameters)).

Definition last_magnitude (inputParameters : list D) : D :=
  fst (last (pairs inputParameters) (#0, #0)).

(** The loop of [inputEqn], read on the part of the profile it has not
    visited. *)
Fixpoint select (t elapsed : D) (rest : list D) (otherwise : D) : D :=
  match rest with
  | magnitude :: duration :: rest' =>
      if t <=? elapsed + duration then magnitude
      else select t (elapsed + duration) rest' otherwise
  | _ => otherwise
  end.

End Profile.

(** ** The grid search of [initialize] *)

Section GridSearch.
Context {D : Type} {A : Arith D} {L : Libm D}.
Variable parameters : Battery.Parameters D.
Local Open Scope dbl_scope.

(** The candidates of a sweep that starts at [xi]: [xi], [xi + 0.0001],
    ... as long as the candidate is [<= 1.0]; the one after the last is
    not. *)
Fixpoint sweep_from (xi : D) (candidates : list D) : Prop :=
  match candidates with
  | [] => (xi <=? #1.0) = false
  | first :: rest =>
      first = xi /\ (xi <=? #1.0) = true /\ sweep_from (xi + #0.0001) rest
  end.

(** A state vector derived from the mole fractions [xpo], [xno]: zero
    overpotential lags, surface charges [qMax * x * VolS / Vol], bulk
    charges [qS * VolB / VolS]. *)
Definition derived_from (xpo xno : D) (x : list D) : Prop :=
  vget x Battery.indices.states.Vsn = #0
  /\ vget x Battery.indices.states.Vsp = #0
  /\ vget x Battery.indices.states.qpS
     = parameters.(Battery.qMax) * xpo * parameters.(Battery.VolS)
       / parameters.(Battery.Vol)
  /\ vget x Battery.indices.states.qnS
     = parameters.(Battery.qMax) * xno * parameters.(Battery.VolS)
       / parameters.(Battery.Vol)
  /\ vget x Battery.indices.states.qpB
     = vget x Battery.indices.states.qpS * parameters.(Battery.VolB)
       / parameters.(Battery.VolS)
  /\ vget x Battery.indices.states.qnB
     = vget x Battery.indices.states.qnS * parameters.(Battery.VolB)
       / parameters.(Battery.VolS).

(** The temperature, the observed voltage and the ohmic drop [initialize]
    computes from the observation. *)
Definition observed_Tb (z : list D) : D :=
  vget z Battery.indices.outputs.Tbm + #273.15.
Definition observed_voltage (z : list D) : D :=
  vget z Battery.indices.outputs.Vm.
Definition ohmic_drop (u z : list D) : D :=
  vget u Battery.indices.inputs.P / observed_voltage z * parameters.(Battery.Ro).

(** The voltage predicted for candidate [k] of the sweep. *)
Definition predicted (u z xp xn : list D) (k : nat) : D :=
  Battery.initialize_V parameters (observed_Tb z) (ohmic_drop u z)
    (vget xp k) (vget xn k).

End GridSearch.

(** ** Time in the prognoser *)

Section Order.
Context {D : Type} {A : Arith D}.
Local Open Scope dbl_scope.

(** A number compares with itself; in binary64 everything does but NaN. *)
Definition is_number (a : D) : Prop := (a <=? a) = true.

(** A sequence in which no element is followed by a smaller one. *)
Fixpoint nondecreasing (l : list D) : Prop :=
  match l with
  | a :: (b :: _) as rest => (a <=? b) = true /\ nondecreasing rest
  | _ => True
  end.

End Order.

(** Numbers are totally ordered by [<=]. *)
Class TotalOrder (D : Type) {A : Arith D} : Prop := {
  leb_total : forall a b : D,
    is_number a -> is_number b -> dleb a b = false -> dleb b a = true
}.

(** ** Runs of the prognoser *)

Section Runs.
Import ModelBasedPrognoser.
Context {D : Type} {A : Arith D}.
Context {Time UDataVector ProgData Observer Predictor : Type}.
Variable time_to_double : Time -> D.
Variable model : @PrognosticsModel D.
Variable observerClass : @ObserverClass D UDataVector Observer.
Variable predictorClass : @PredictorClass D UDataVector ProgData Predictor.
Local Open Scope dbl_scope.

(** The static [initialTime] and the prognoser after a sequence of calls
    of [step], one per sample. *)
Fixpoint run (initialTime : option D) (comms : list (@CommManager D Time))
    (p : @prognoser D UDataVector ProgData Observer Predictor)
    : option D * @prognoser D UDataVector ProgData Observer Predictor :=
  match comms with
  | [] => (initialTime, p)
  | comm :: comms' =>
      let '(initialTime', p') :=
        step time_to_double model observerClass predictorClass initialTime comm p in
      run initialTime' comms' p'
  end.

(** The times the observer has been given, at its initialization and at
    its steps, in the order of the calls. *)
Fixpoint observer_times (h : list (@call D UDataVector)) : list D :=
  match h with
  | [] => []
  | call_observer_initialize t _ _ :: rest => t :: observer_times rest
  | call_observer_step t _ _ :: rest => t :: observer_times rest
  | _ :: rest => observer_times rest
  end.

(** A sequence of times none of which is [<=] the one before it. *)
Fixpoint advancing (l : list D) : Prop :=
  match l with
  | a :: (b :: _) as rest => (b <=? a) = false /\ advancing rest
  | _ => True
  end.

(** A history made of rounds: [observer->step] at a time [t], then
    [observer->getStateEstimate], then [predictor->predict] at the same
    [t]. *)
Fixpoint rounds (h : list (@call D UDataVector)) : Prop :=
  match h with
  | [] => True
  | call_observer_step t _ _ :: call_observer_getStateEstimate
      :: call_predictor_predict t' _ :: rest => t' = t /\ rounds rest
  | _ => False
  end.

End Runs.

(** ** The configuration of a battery *)

Section Configuration.
Context {D : Type} {A : Arith D}.
Variable stod : string -> Battery.exception + D.

(** What a configuration says of a key: the number its first string reads
    as (or the exception [std::stod] throws on it) when the key is there,
    the default when it is not. *)
Definition configured (configMap : Battery.ConfigMap) (key : string) (default : D)
    : Battery.exception + D :=
  match configMap key with
  | Some values => stod (nth 0 values ""%string)
  | None => inr default
  end.

End Configuration.

(** ** Unchanged components, in binary64 *)

(** A component is unchanged when it holds the value it held: the same
    [double], or a zero for a zero (the two zeros are equal as numbers and
    differ in sign). *)
Definition unchanged (before after : float) : Prop :=
  before = after \/ (is_zero before = true /\ is_zero after = true).

(** The eight derivatives are finite: none is an infinity or NaN. *)
Definition finite_derivatives (c : @Battery.Constraints float) : bool :=
  is_finite c.(Battery.Tbdot) && is_finite c.(Battery.Vodot)
  && is_finite c.(Battery.Vsndot) && is_finite c.(Battery.Vspdot)
  && is_finite c.(Battery.qnBdot) && is_finite c.(Battery.qnSdot)
  && is_finite c.(Battery.qpBdot) && is_finite c.(Battery.qpSdot).

(** ** A battery and a state, in binary64 *)

(** The battery [setParameters] describes for a mobile charge of 7600 C. *)
Definition battery : Battery.Parameters float :=
  Eval vm_compute in Battery.setParameters (D := float) 7600%float.

(** A state on the discharge curve: 20 degrees Celsius, no voltage drops,
    surface mole fractions 700 / qSMax = 0.55 and 600 / qSMax = 0.47. *)
Definition x_example : list float :=
  [293.15; 0; 0; 0; 6000; 700; 5000; 600]%float.

(** The vectors [xp], [xn] the sweep of [initialize] fills in binary64. *)
Definition binary64_sweep : list float * list float :=
  Eval vm_compute in
    match Battery.initialize_sweep (A := float_arith) 6002 0.4%float [] [] with
    | Some vectors => vectors
    | None => ([], [])
    end.

(** [sweep_from], decided: in binary64 the candidates can be compared. *)
Fixpoint sweep_fromb (xi : float) (candidates : list float) : bool :=
  match candidates with
  | [] => negb (PrimFloat.leb xi (float_of_Q 1.0))
  | first :: rest =>
      PrimFloat.Leibniz.eqb first xi && PrimFloat.leb xi (float_of_Q 1.0)
      && sweep_fromb (PrimFloat.add xi (float_of_Q 0.0001)) rest
  end.

(** The candidates of the sweep in real arithmetic: [n] of them, from
    [xi] in steps of 0.0001. *)
Fixpoint real_candidates (n : nat) (xi : R) : list R :=
  match n with
  | O => []
  | S n' => xi :: real_candidates n' (xi + 0.0001)%R
  end.

(** [f] holds of every index below [k]. *)
Definition all_below (f : nat -> bool) (k : nat) : bool := forallb f (seq 0 k).

(** ** The sweep and the state of charge, in binary64 *)

(** Each candidate is below the next. *)
Fixpoint strictly_increasing (l : list float) : bool :=
  match l with
  | a :: (b :: _) as rest => PrimFloat.ltb a b && strictly_increasing rest
  | _ => true
  end.

(** The state of charge [predictedOutputEqn] reports for the state
    [initialize] derives from the negative mole fraction [xno]. *)
Definition derived_SOC (parameters : Battery.Parameters float) (xno : float) : float :=
  let qnS0 := (parameters.(Battery.qMax) * xno * parameters.(Battery.VolS)
               / parameters.(Battery.Vol))%float in
  let qnB0 := (qnS0 * parameters.(Battery.VolB) / parameters.(Battery.VolS))%float in
  ((qnS0 + qnB0) / parameters.(Battery.qnMax))%float.

(** ** The battery behind the [PrognosticsModel] interface *)

Section BatteryModel.
Context {D : Type} {A : Arith D} {L : Libm D}.

(** The model a prognoser holds when it is a battery: the getters of the
    base class return the cardinalities the constructor has set, and
    [initialize] is [Battery::initialize], its sweep bounded by [fuel] (the
    vector is left as it was when the fuel runs out). *)
Definition Battery_model (this : @Battery.Members D) (fuel : nat)
    : @ModelBasedPrognoser.PrognosticsModel D :=
  ModelBasedPrognoser.mkModel
    this.(Battery.m_numStates) this.(Battery.m_numInputs) this.(Battery.m_numOutputs)
    (fun x u z =>
       match Battery.initialize this.(Battery.m_parameters) fuel x u z with
       | Some x' => x'
       | None => x
       end).

End BatteryModel.

(** ** A prognoser to run, in binary64 *)

Module Example.
Import ModelBasedPrognoser.
Local Open Scope float_scope.

(** Time stamps in milliseconds. *)
Definition Time : Type := Z.

(** The battery model behind the [PrognosticsModel] interface. *)
Definition model : @PrognosticsModel float :=
  mkModel Battery.numStates Battery.numInputs Battery.numOutputs
    (fun x u z =>
       match Battery.initialize (L := Cmath.libm) battery 6002 x u z with
       | Some x' => x'
       | None => x
       end).

(** An observer that keeps the state it was initialized with, and a
    predictor that stores the estimate it is given. *)
Definition observerClass : @ObserverClass float (list float) (list float) :=
  mkObserverClass (fun t x u o => x) (fun t u z o => o) (fun o => o).
Definition predictorClass : @PredictorClass float (list float) (list float) unit :=
  mkPredictorClass (fun t stateEst results p => (p, stateEst)).

(** The bus at the time [ms]: 8 W, 20 degrees Celsius, 3.9 V. *)
Definition comm_at (ms : Time) : @CommManager float Time :=
  fun name =>
    mkDatum (if String.eqb name "power" then 8
             else if String.eqb name "temperature" then 20
             else 3.9)
            ms.

(** A prognoser as constructed, and one that has taken samples up to the
    relative time 5 s. *)
Definition constructed : @prognoser float (list float) (list float) (list float) unit :=
  mkPrognoser ["power"%string] ["temperature"%string; "voltage"%string]
    false 0 [] tt [] [].
Definition running : @prognoser float (list float) (list float) (list float) unit :=
  mkPrognoser ["power"%string] ["temperature"%string; "voltage"%string]
    true 5 x_example tt [] [].

End Example.

(* ================================================================== *)
(** * Vectors: reading after writing *)

(** A state vector of length 8, component by component. *)
Ltac eight_components x Hx :=
  destruct x as [|? [|? [|? [|? [|? [|? [|? [|? [|? ?]]]]]]]]];
  simpl in Hx; try discriminate Hx.

Section VectorFacts.
Context {D : Type} {A : Arith D}.

Lemma vset_length (v : list D) i a : length (vset v i a) = length v.
Proof.
  revert i; induction v as [|b v IH]; intros [|i]; simpl; auto.
Qed.

Lemma vget_vset_same (v : list D) i a :
  (i < length v)%nat -> vget (vset v i a) i = a.
Proof.
  unfold vget. revert i; induction v as [|b v IH]; intros [|i] Hi;
    simpl in *; try lia; auto.
  apply IH; lia.
Qed.

Lemma vget_vset_other (v : list D) i j a :
  i <> j -> vget (vset v i a) j = vget v j.
Proof.
  unfold vget. revert i j; induction v as [|b v IH]; intros [|i] [|j] Hij;
    simpl; auto; try congruence.
Qed.

Lemma vget_app_right (pre rest : list D) k :
  vget (pre ++ rest) (length pre + k) = vget rest k.
Proof.
  unfold vget. rewrite app_nth2 by lia. f_equal. lia.
Qed.

Lemma Forall2_vget (P : D -> D -> Prop) (l l' : list D) :
  Forall2 P l l' -> forall k, (k < length l)%nat -> P (vget l k) (vget l' k).
Proof.
  unfold vget. induction 1 as [|a b l l' Hab Hrest IH]; intros [|k] Hk;
    simpl in *; try lia; auto.
  apply IH. lia.
Qed.

Lemma vget_vector (n k : nat) : vget (vector (A := A) n) k = of_Q 0.
Proof.
  unfold vget, vector. revert k. induction n as [|n IH]; intros [|k]; simpl; auto.
Qed.

Lemma vector_length n : length (vector (A := A) n) = n.
Proof. apply repeat_length. Qed.

(** Induction on a list two elements at a time. *)
Lemma list_pair_ind (P : list D -> Prop) :
  P [] -> (forall a, P [a]) -> (forall a b l, P l -> P (a :: b :: l)) ->
  forall l, P l.
Proof.
  intros Hnil Hone Hpair. fix IH 1.
  intros [|a [|b l]].
  - exact Hnil.
  - apply Hone.
  - apply Hpair. apply IH.
Qed.

End VectorFacts.

(* ================================================================== *)
(** * [Battery::inputEqn] *)

Section InputEqn.
Context {D : Type} {A : Arith D}.
Local Open Scope dbl_scope.

Lemma select_find (t : D) (rest : list D) : forall elapsed otherwise,
  select t elapsed rest otherwise =
  match find (fun segment => t <=? snd segment) (cumulative elapsed (pairs rest)) with
  | Some segment => fst segment
  | None => otherwise
  end.
Proof.
  induction rest as [|magnitude|magnitude duration rest' IH] using list_pair_ind;
    intros elapsed otherwise; simpl; auto.
  destruct (t <=? elapsed + duration); auto.
Qed.

(** [inputParameters[size - 2]] is the magnitude of the last pair. *)
Lemma last_magnitude_index (l : list D) :
  (2 <= length l)%nat -> Nat.even (length l) = true ->
  vget l (length l - 2) = last_magnitude l.
Proof.
  unfold last_magnitude.
  induction l as [|a|a b l' IH] using list_pair_ind; simpl; intros Hlen Hev;
    try lia.
  destruct l' as [|c [|d l'']]; simpl in *; try discriminate; auto.
  rewrite <- IH; auto; try lia.
  replace (length l'' - 0)%nat with (length l'') by lia.
  reflexivity.
Qed.

Lemma even_mod_2 (n : nat) : Nat.even n = Nat.eqb (n mod 2) 0.
Proof.
  induction n as [n IH] using (well_founded_induction PeanoNat.Nat.lt_wf_0).
  destruct n as [|[|n]]; auto.
  replace (S (S n)) with (n + 1 * 2)%nat at 2 by lia.
  rewrite PeanoNat.Nat.Div0.mod_add, <- IH by lia.
  reflexivity.
Qed.

(** With fewer than 2^32 parameters the index never wraps, and the loop
    visits the pairs in order: from an even index it returns the magnitude
    [select] picks among the pairs not yet visited. *)
Lemma inputEqn_loop_select (t : D) (inputParameters u : list D) :
  (N.of_nat (length inputParameters) < Battery.UINT_MODULUS)%N ->
  forall fuel rest pre elapsed,
  inputParameters = pre ++ rest ->
  Nat.even (length rest) = true ->
  (length rest < 2 * fuel)%nat ->
  Battery.inputEqn_loop fuel t inputParameters (N.of_nat (length pre)) elapsed u
  = Some (vset u 0 (select t elapsed rest
                      (vget inputParameters (length inputParameters - 2)))).
Proof.
  change Battery.UINT_MODULUS with 4294967296%N. intros Hsize.
  induction fuel as [|fuel IH]; intros rest pre elapsed Hip Hev Hfuel; [lia|].
  assert (Hlen : length inputParameters = (length pre + length rest)%nat)
    by (rewrite Hip, length_app; reflexivity).
  cbn [Battery.inputEqn_loop].
  change Battery.UINT_MODULUS with 4294967296%N.
  destruct rest as [|magnitude [|duration rest']]; simpl in Hev; try discriminate.
  - replace (N.of_nat (length pre) <? N.of_nat (length inputParameters))%N
      with false by (symmetry; apply N.ltb_ge; simpl in Hlen; lia).
    reflexivity.
  - simpl in Hlen.
    replace (N.of_nat (length pre) <? N.of_nat (length inputParameters))%N
      with true by (symmetry; apply N.ltb_lt; lia).
    rewrite !N.mod_small by lia.
    replace (N.to_nat (N.of_nat (length pre) + 1)) with (length pre + 1)%nat by lia.
    rewrite Nnat.Nat2N.id.
    assert (Hm : vget inputParameters (length pre) = magnitude).
    { replace (length pre) with (length pre + 0)%nat by lia.
      rewrite Hip, vget_app_right. reflexivity. }
    assert (Hd : vget inputParameters (length pre + 1) = duration).
    { rewrite Hip, vget_app_right. reflexivity. }
    rewrite Hm, Hd. cbn [select].
    destruct (t <=? elapsed + duration); [reflexivity|].
    replace (N.of_nat (length pre) + 2)%N
      with (N.of_nat (length (pre ++ [magnitude; duration])))
      by (rewrite length_app; simpl; lia).
    apply IH; auto.
    + rewrite <- app_assoc. exact Hip.
    + simpl in Hfuel. lia.
Qed.

Lemma inputEqn_valid_length (fuel : nat) (t : D) (inputParameters u : list D) :
  (2 <= length inputParameters)%nat ->
  Nat.even (length inputParameters) = true ->
  Battery.inputEqn fuel t inputParameters u
  = inr (Battery.inputEqn_loop fuel t inputParameters 0%N #0 u).
Proof.
  intros Hlen Hev. unfold Battery.inputEqn.
  rewrite <- even_mod_2, Hev.
  replace (length inputParameters <? 2)%nat with false
    by (symmetry; apply PeanoNat.Nat.ltb_ge; exact Hlen).
  reflexivity.
Qed.

(** C5.  [inputEqn] throws its range error, and gives no [u] back, when
    the parameter list has fewer than two elements or an odd number of
    them; on a list of even length >= 2 it throws nothing, and (the list
    being shorter than 2^32, so that the 32-bit index does not wrap) it
    returns once the loop has had one turn per pair and one more. *)
Theorem inputEqn_throws_iff_malformed (fuel : nat) (t : D)
    (inputParameters u : list D) :
  ((length inputParameters < 2)%nat \/ Nat.odd (length inputParameters) = true ->
   Battery.inputEqn fuel t inputParameters u
   = inl (Battery.range_error
            "Battery::inputEqn - Incorrect number of input parameters"))
  /\
  ((2 <= length inputParameters)%nat ->
   Nat.even (length inputParameters) = true ->
   (forall e, Battery.inputEqn fuel t inputParameters u <> inl e)
   /\
   ((N.of_nat (length inputParameters) < Battery.UINT_MODULUS)%N ->
    (length inputParameters < 2 * fuel)%nat ->
    exists u', Battery.inputEqn fuel t inputParameters u = inr (Some u')
               /\ length u' = length u)).
Proof.
  split.
  - intros Hbad. unfold Battery.inputEqn.
    rewrite <- even_mod_2.
    destruct Hbad as [Hshort | Hodd].
    + replace (length inputParameters <? 2)%nat with true
        by (symmetry; apply PeanoNat.Nat.ltb_lt; exact Hshort).
      reflexivity.
    + rewrite <- PeanoNat.Nat.negb_odd, Hodd, orb_true_r. reflexivity.
  - intros Hlen Hev. rewrite inputEqn_valid_length by assumption. split.
    + intros e; discriminate.
    + intros Hsize Hfuel.
      rewrite (inputEqn_loop_select t inputParameters u Hsize fuel
                 inputParameters [] #0 eq_refl Hev Hfuel).
      eexists; split; [reflexivity | apply vset_length].
Qed.

(** C3, as amended.  On a list of even length >= 2 (shorter than 2^32,
    with one loop turn per pair and one more) [inputEqn] returns, with
    [u[0]] the magnitude of the first pair whose cumulative duration sum is
    [>= t], the comparison being inclusive; and when no pair's cumulative
    sum is [>= t], the magnitude of the last pair.  The rest of [u] is as
    it was. *)
Theorem inputEqn_selects_first_reached (fuel : nat) (t : D)
    (inputParameters u : list D) :
  (2 <= length inputParameters)%nat ->
  Nat.even (length inputParameters) = true ->
  (N.of_nat (length inputParameters) < Battery.UINT_MODULUS)%N ->
  (length inputParameters < 2 * fuel)%nat ->
  (1 <= length u)%nat ->
  exists u',
    Battery.inputEqn fuel t inputParameters u = inr (Some u')
    /\ (forall magnitude reached,
          first_reached t inputParameters = Some (magnitude, reached) ->
          vget u' 0 = magnitude /\ (t <=? reached) = true)
    /\ (first_reached t inputParameters = None ->
        vget u' 0 = last_magnitude inputParameters
        /\ Forall (fun segment => (t <=? snd segment) = false)
                  (cumulative #0 (pairs inputParameters)))
    /\ (forall k, k <> 0%nat -> vget u' k = vget u k).
Proof.
  intros Hlen Hev Hsize Hfuel Hu.
  rewrite inputEqn_valid_length by assumption.
  rewrite (inputEqn_loop_select t inputParameters u Hsize fuel
             inputParameters [] #0 eq_refl Hev Hfuel).
  eexists; split; [reflexivity|].
  rewrite vget_vset_same by lia.
  rewrite select_find, last_magnitude_index by assumption.
  unfold first_reached.
  destruct (find (fun segment => t <=? snd segment)
              (cumulative #0 (pairs inputParameters))) as [segment|] eqn:Hfind.
  - split; [|split].
    + intros magnitude reached Heq. injection Heq as Heq; subst segment.
      split; [reflexivity|]. apply find_some in Hfind. apply Hfind.
    + discriminate.
    + intros k Hk. apply vget_vset_other. auto.
  - split; [|split].
    + discriminate.
    + intros _. split; [reflexivity|].
      apply Forall_forall. intros segment Hin.
      apply (find_none _ _ Hfind segment Hin).
    + intros k Hk. apply vget_vset_other. auto.
Qed.

End InputEqn.

(** ** [inputEqn] on concrete profiles, in binary64 *)

Section InputEqnExamples.
Local Open Scope float_scope.

Lemma inputEqn_throws_iff_malformed_witness :
  Battery.inputEqn 3 7 [1; 10; 2] [0]
  = inl (Battery.range_error
           "Battery::inputEqn - Incorrect number of input parameters")
  /\ (exists u', Battery.inputEqn 3 7 [1; 10; 2; 5] [0] = inr (Some u')
                 /\ length u' = 1%nat).
Proof.
  split.
  - apply (proj1 (inputEqn_throws_iff_malformed 3 7 [1; 10; 2] [0])).
    right. reflexivity.
  - destruct (proj2 (inputEqn_throws_iff_malformed 3 7 [1; 10; 2; 5] [0]))
      as [_ Hreturns].
    + simpl; lia.
    + reflexivity.
    + apply Hreturns.
      * reflexivity.
      * simpl; lia.
Defined.

(** At [t = 10], the end of the first segment, the first magnitude is
    selected. *)
Lemma inputEqn_selects_first_reached_witness :
  exists u',
    Battery.inputEqn 3 10 [1; 10; 2; 5] [0] = inr (Some u')
    /\ (forall magnitude reached,
          first_reached 10 [1; 10; 2; 5] = Some (magnitude, reached) ->
          vget u' 0 = magnitude /\ (10 <=? reached) = true)
    /\ (first_reached 10 [1; 10; 2; 5] = None ->
        vget u' 0 = last_magnitude [1; 10; 2; 5]
        /\ Forall (fun segment => (10 <=? snd segment) = false)
                  (cumulative (of_Q 0) (pairs [1; 10; 2; 5])))
    /\ (forall k, k <> 0%nat -> vget u' k = vget [0] k).
Proof.
  refine (inputEqn_selects_first_reached 3 10 [1; 10; 2; 5] [0] _ _ _ _ _).
  - simpl; lia.
  - reflexivity.
  - reflexivity.
  - simpl; lia.
  - simpl; lia.
Defined.

(** C3, as stated, fails on a profile with a negative duration: with the
    pairs (1, 10) and (2, -5) the durations sum to 5, and [t = 7] exceeds
    that sum; but the first cumulative sum, 10, is [>= 7], and [inputEqn]
    sets [u[0]] to 1, not to the last magnitude 2. *)
Lemma inputEqn_last_pair_counterexample :
  total_duration [1; 10; 2; -5] = 5
  /\ (7 <=? 5) = false /\ (5 <? 7) = true
  /\ Battery.inputEqn 3 7 [1; 10; 2; -5] [0] = inr (Some [1])
  /\ last_magnitude [1; 10; 2; -5] = 2
  /\ (1 =? 2) = false.
Proof. repeat split; vm_compute; reflexivity. Qed.

End InputEqnExamples.

(* ================================================================== *)
(** * [Battery::thresholdEqn] *)

Section ThresholdEqn.
Context {D : Type} {A : Arith D} {L : Libm D}.
Variable parameters : Battery.Parameters D.
Local Open Scope dbl_scope.

(** The voltage [outputEqn] reports is the terminal voltage [V] of
    [stateEqn], plus the noise. *)
Lemma outputEqn_Vm (t : D) (x u u' n z : list D) :
  (2 <= length z)%nat ->
  vget (Battery.outputEqn parameters t x u n z) Battery.indices.outputs.Vm
  = Battery.c_V (Battery.constraints parameters x u') + vget n 1.
Proof.
  intros Hz. destruct z as [|z0 [|z1 z]]; simpl in Hz; try lia.
  reflexivity.
Qed.

(** C4.  [thresholdEqn] is true exactly when the voltage [z[1]] that
    [outputEqn] computes with zero noise is [<=] [parameters.VEOD], the
    bound included; that voltage is the terminal voltage plus the zero
    noise; and the state decides only through it: two calls for which
    [outputEqn] gives the same [z[1]] give the same answer. *)
Theorem thresholdEqn_compares_output_voltage (t : D) (x u : list D) :
  let Vm := vget (Battery.outputEqn parameters t x u (vector 8) (vector 2))
                 Battery.indices.outputs.Vm in
  (Battery.thresholdEqn parameters t x u = true
   <-> (Vm <=? parameters.(Battery.VEOD)) = true)
  /\ Vm = Battery.c_V (Battery.constraints parameters x u) + #0
  /\ (forall t' x' u',
        vget (Battery.outputEqn parameters t' x' u' (vector 8) (vector 2))
             Battery.indices.outputs.Vm = Vm ->
        Battery.thresholdEqn parameters t' x' u'
        = Battery.thresholdEqn parameters t x u).
Proof.
  intros Vm. split; [|split].
  - unfold Battery.thresholdEqn. fold Vm. tauto.
  - unfold Vm. rewrite (outputEqn_Vm t x u u) by (rewrite vector_length; lia).
    reflexivity.
  - intros t' x' u' Hsame. unfold Battery.thresholdEqn.
    change (vget (Battery.outputEqn parameters t x u (vector 8) (vector 2)) 1)
      with Vm.
    change Battery.indices.outputs.Vm with 1%nat in Hsame.
    rewrite Hsame. reflexivity.
Qed.

End ThresholdEqn.

(* ================================================================== *)
(** * [Battery::initialize] *)

Section Initialize.
Context {D : Type} {A : Arith D} {L : Libm D}.
Variable parameters : Battery.Parameters D.
Local Open Scope dbl_scope.

(** More fuel does not change what a sweep returns. *)
Lemma initialize_sweep_fuel (fuel extra : nat) : forall xi xp xn result,
  Battery.initialize_sweep fuel xi xp xn = Some result ->
  Battery.initialize_sweep (fuel + extra) xi xp xn = Some result.
Proof.
  induction fuel as [|fuel IH]; intros xi xp xn result; simpl; [discriminate|].
  destruct (xi <=? #1.0); auto.
Qed.

(** What a sweep that returns has pushed. *)
Lemma initialize_sweep_spec (fuel : nat) : forall xi xp0 xn0 xp xn,
  Battery.initialize_sweep fuel xi xp0 xn0 = Some (xp, xn) ->
  exists candidates,
    xp = xp0 ++ candidates
    /\ xn = xn0 ++ map (fun xi => #1 - xi) candidates
    /\ sweep_from xi candidates.
Proof.
  induction fuel as [|fuel IH]; intros xi xp0 xn0 xp xn; simpl; [discriminate|].
  destruct (xi <=? #1.0) eqn:Hle.
  - intros Hsweep. destruct (IH _ _ _ _ _ Hsweep) as (rest & Hxp & Hxn & Hrest).
    exists (xi :: rest). rewrite <- !app_assoc in *. simpl in *. auto.
  - intros Hsweep. injection Hsweep as <- <-.
    exists []. rewrite !app_nil_r. simpl. auto.
Qed.

(** Conversely, the sweep returns the candidates of [sweep_from], with
    one turn per candidate and one more. *)
Lemma initialize_sweep_complete (candidates : list D) : forall xi xp0 xn0,
  sweep_from xi candidates ->
  Battery.initialize_sweep (S (length candidates)) xi xp0 xn0
  = Some (xp0 ++ candidates, xn0 ++ map (fun xi => #1 - xi) candidates).
Proof.
  induction candidates as [|first rest IH]; intros xi xp0 xn0 Hfrom.
  - simpl in *. rewrite Hfrom, !app_nil_r. reflexivity.
  - destruct Hfrom as (-> & Hle & Hrest).
    change (Battery.initialize_sweep (S (length (xi :: rest))) xi xp0 xn0)
      with (if xi <=? #1.0
            then Battery.initialize_sweep (S (length rest)) (xi + #0.0001)
                   (xp0 ++ [xi]) (xn0 ++ [#1 - xi])
            else Some (xp0, xn0)).
    rewrite Hle, (IH _ _ _ Hrest), <- !app_assoc. reflexivity.
Qed.

(** The search stops at the first candidate whose predicted voltage is
    [<=] the observed one. *)
Lemma initialize_search_first (Tb Vo voltage : D) (xp xn : list D) (xpo xno : D)
    (k : nat) : forall count i,
  (i <= k < i + count)%nat ->
  (Battery.initialize_V parameters Tb Vo (vget xp k) (vget xn k) <=? voltage) = true ->
  (forall j, (i <= j < k)%nat ->
     (Battery.initialize_V parameters Tb Vo (vget xp j) (vget xn j) <=? voltage)
     = false) ->
  Battery.initialize_search parameters count Tb Vo voltage xp xn i xpo xno
  = (vget xp k, vget xn k).
Proof.
  induction count as [|count IH]; intros i Hk Hfound Hbefore; [lia|].
  cbn [Battery.initialize_search]. cbv zeta.
  destruct (PeanoNat.Nat.eq_dec i k) as [->|Hne].
  - rewrite Hfound. reflexivity.
  - rewrite Hbefore by lia. apply IH; auto; try lia.
    intros j Hj. apply Hbefore. lia.
Qed.

(** When no candidate qualifies the search leaves [xpo], [xno] as they
    were. *)
Lemma initialize_search_none (Tb Vo voltage : D) (xp xn : list D) (xpo xno : D) :
  forall count i,
  (forall j, (i <= j < i + count)%nat ->
     (Battery.initialize_V parameters Tb Vo (vget xp j) (vget xn j) <=? voltage)
     = false) ->
  Battery.initialize_search parameters count Tb Vo voltage xp xn i xpo xno
  = (xpo, xno).
Proof.
  induction count as [|count IH]; intros i Hnone; [reflexivity|].
  cbn [Battery.initialize_search]. cbv zeta.
  rewrite Hnone by lia. apply IH. intros j Hj. apply Hnone. lia.
Qed.

(** The search returns the initial pair or a pair of the sweep. *)
Lemma initialize_search_range (Tb Vo voltage : D) (xp xn : list D) (xpo xno : D) :
  forall count i,
  Battery.initialize_search parameters count Tb Vo voltage xp xn i xpo xno
  = (xpo, xno)
  \/ exists k, (i <= k < i + count)%nat
       /\ Battery.initialize_search parameters count Tb Vo voltage xp xn i xpo xno
          = (vget xp k, vget xn k).
Proof.
  induction count as [|count IH]; intros i; [left; reflexivity|].
  cbn [Battery.initialize_search]. cbv zeta.
  destruct (Battery.initialize_V parameters Tb Vo (vget xp i) (vget xn i) <=? voltage).
  - right. exists i. split; [lia | reflexivity].
  - destruct (IH (S i)) as [Hdefault | (k & Hk & Hfound)]; [left; exact Hdefault|].
    right. exists k. split; [lia | exact Hfound].
Qed.

(** The state [initialize] writes once the search has settled on [xpo],
    [xno]. *)
Lemma initialize_returns (fuel : nat) (x u z xp xn : list D) :
  Battery.initialize_sweep fuel #0.4 [] [] = Some (xp, xn) ->
  length x = 8%nat ->
  forall xpo xno,
  Battery.initialize_search parameters (length xp) (observed_Tb z)
    (ohmic_drop parameters u z) (observed_voltage z) xp xn 0 #0.4 #0.6 = (xpo, xno) ->
  exists x',
    Battery.initialize parameters fuel x u z = Some x'
    /\ length x' = 8%nat
    /\ vget x' Battery.indices.states.Tb = observed_Tb z
    /\ vget x' Battery.indices.states.Vo = ohmic_drop parameters u z
    /\ derived_from parameters xpo xno x'.
Proof.
  intros Hsweep Hx xpo xno Hsearch.
  unfold Battery.initialize. rewrite Hsweep.
  unfold observed_Tb, ohmic_drop, observed_voltage in Hsearch.
  rewrite Hsearch.
  eight_components x Hx.
  eexists. split; [reflexivity|].
  unfold derived_from. repeat split.
Qed.

(** In any arithmetic, once the sweep has returned [xp] and [xn]: what the
    candidates are, the state for the first candidate that passes the
    test, and the state when none does. *)
Lemma initialize_grid_search (fuel : nat) (x u z xp xn : list D) :
  length x = 8%nat ->
  Battery.initialize_sweep fuel #0.4 [] [] = Some (xp, xn) ->
  sweep_from #0.4 xp
  /\ xn = map (fun xi => #1 - xi) xp
  /\ (forall k,
        (k < length xp)%nat ->
        (predicted parameters u z xp xn k <=? observed_voltage z) = true ->
        (forall j, (j < k)%nat ->
           (predicted parameters u z xp xn j <=? observed_voltage z) = false) ->
        exists x',
          Battery.initialize parameters fuel x u z = Some x'
          /\ vget x' Battery.indices.states.Tb = observed_Tb z
          /\ vget x' Battery.indices.states.Vo = ohmic_drop parameters u z
          /\ derived_from parameters (vget xp k) (vget xn k) x')
  /\ ((forall k, (k < length xp)%nat ->
         (predicted parameters u z xp xn k <=? observed_voltage z) = false) ->
      exists x',
        Battery.initialize parameters fuel x u z = Some x'
        /\ vget x' Battery.indices.states.Tb = observed_Tb z
        /\ vget x' Battery.indices.states.Vo = ohmic_drop parameters u z
        /\ derived_from parameters #0.4 #0.6 x').
Proof.
  intros Hx Hsweep.
  destruct (initialize_sweep_spec _ _ _ _ _ _ Hsweep)
    as (candidates & Hxp & Hxn & Hfrom).
  simpl in Hxp, Hxn. subst xp xn.
  split; [exact Hfrom|]. split; [reflexivity|]. split.
  - intros k Hk Hfound Hbefore.
    destruct (initialize_returns fuel x u z _ _ Hsweep Hx
                (vget candidates k)
                (vget (map (fun xi => #1 - xi) candidates) k))
      as (x' & Hinit & _ & HTb & HVo & Hderived).
    + apply initialize_search_first; auto; try lia.
      intros j Hj. apply Hbefore. lia.
    + exists x'. auto.
  - intros Hnone.
    destruct (initialize_returns fuel x u z _ _ Hsweep Hx #0.4 #0.6)
      as (x' & Hinit & _ & HTb & HVo & Hderived).
    + apply initialize_search_none. intros j Hj. apply Hnone. lia.
    + exists x'. auto.
Qed.

(** In any arithmetic, once the sweep has returned [xp] and [xn]: the
    state [initialize] writes, component by component. *)
Lemma initialize_derived_state (fuel : nat) (x u z xp xn : list D) :
  length x = 8%nat ->
  Battery.initialize_sweep fuel #0.4 [] [] = Some (xp, xn) ->
  exists x' xpo xno,
    Battery.initialize parameters fuel x u z = Some x'
    /\ ((xpo = #0.4 /\ xno = #0.6)
        \/ exists k, (k < length xp)%nat /\ xpo = vget xp k /\ xno = vget xn k)
    /\ vget x' Battery.indices.states.Vsn = #0
    /\ vget x' Battery.indices.states.Vsp = #0
    /\ vget x' Battery.indices.states.qpS
       = parameters.(Battery.qMax) * xpo * parameters.(Battery.VolS)
         / parameters.(Battery.Vol)
    /\ vget x' Battery.indices.states.qnS
       = parameters.(Battery.qMax) * xno * parameters.(Battery.VolS)
         / parameters.(Battery.Vol)
    /\ vget x' Battery.indices.states.qpB
       = vget x' Battery.indices.states.qpS * parameters.(Battery.VolB)
         / parameters.(Battery.VolS)
    /\ vget x' Battery.indices.states.qnB
       = vget x' Battery.indices.states.qnS * parameters.(Battery.VolB)
         / parameters.(Battery.VolS).
Proof.
  intros Hx Hsweep.
  destruct (Battery.initialize_search parameters (length xp) (observed_Tb z)
              (ohmic_drop parameters u z) (observed_voltage z) xp xn 0 #0.4 #0.6)
    as [xpo xno] eqn:Hsearch.
  destruct (initialize_returns fuel x u z xp xn Hsweep Hx xpo xno Hsearch)
    as (x' & Hinit & _ & _ & _ & Hderived).
  exists x', xpo, xno. split; [exact Hinit|]. split; [|exact Hderived].
  destruct (initialize_search_range (observed_Tb z)
              (ohmic_drop parameters u z) (observed_voltage z) xp xn #0.4 #0.6
              (length xp) 0) as [Hdefault | (k & Hk & Hfound)].
  - left. rewrite Hsearch in Hdefault. injection Hdefault as -> ->. auto.
  - right. exists k. rewrite Hsearch in Hfound. injection Hfound as -> ->.
    split; [lia | auto].
Qed.

End Initialize.

(* ================================================================== *)
(** * [ModelBasedPrognoser::step] *)

Section PrognoserStep.
Import ModelBasedPrognoser.
Context {D : Type} {A : Arith D} {O : TotalOrder D}.
Context {Time UDataVector ProgData Observer Predictor : Type}.
Variable time_to_double : Time -> D.
Local Open Scope dbl_scope.

Variable model : @PrognosticsModel D.
Variable observerClass : @ObserverClass D UDataVector Observer.
Variable predictorClass : @PredictorClass D UDataVector ProgData Predictor.

Local Abbreviation prognoser :=
  (@ModelBasedPrognoser.prognoser D UDataVector ProgData Observer Predictor).
Local Abbreviation CommManager := (@ModelBasedPrognoser.CommManager D Time).
Local Abbreviation newT :=
  (@ModelBasedPrognoser.newT D A Time UDataVector ProgData Observer Predictor
     time_to_double).
Local Abbreviation step :=
  (ModelBasedPrognoser.step time_to_double model observerClass predictorClass).
Local Abbreviation steps :=
  (ModelBasedPrognoser.steps time_to_double model observerClass predictorClass).
Local Abbreviation newTs :=
  (ModelBasedPrognoser.newTs time_to_double model observerClass predictorClass).

(** C6.  The first call of [step] (the flag [initialized] is false)
    computes the relative time [t] and the vectors [u], [z], calls
    [model->initialize] for [x0] and [observer->initialize(t, x0, u)], sets
    [initialized] and records [lastTime = t]; these two calls are all it
    makes: neither [observer->step] nor [predictor->predict], and the
    predictor and the results are as they were. *)
Theorem step_first_call_only_initializes (initialTime : option D)
    (comm : CommManager) (p : prognoser) :
  initialized p = false ->
  let t := newT initialTime comm p in
  let u := fill comm (inputs p) (getNumInputs model) 0 (vector (getNumInputs model)) in
  let z := fill comm (outputs p) (getNumOutputs model) 0 (vector (getNumOutputs model)) in
  let x0 := model_initialize model (vector (getNumStates model)) u z in
  let p' := snd (step initialTime comm p) in
  initialized p' = true
  /\ lastTime p' = t
  /\ history p' = history p ++ [call_model_initialize u z;
                                call_observer_initialize t x0 u]
  /\ existsb estimates_or_predicts
       (skipn (length (history p)) (history p')) = false
  /\ observer p' = observer_initialize observerClass t x0 u (observer p)
  /\ predictor p' = predictor p
  /\ results p' = results p.
Proof.
  intros Hfirst t u z x0 p'.
  assert (Hp' : p' = {| inputs := inputs p; outputs := outputs p;
                        initialized := true; lastTime := t;
                        observer := observer_initialize observerClass t x0 u
                                      (observer p);
                        predictor := predictor p; results := results p;
                        history := history p
                                   ++ [call_model_initialize u z;
                                       call_observer_initialize t x0 u] |}).
  { unfold p', ModelBasedPrognoser.step. rewrite Hfirst. reflexivity. }
  rewrite Hp'. cbn [initialized lastTime history observer predictor results].
  repeat split.
  rewrite skipn_app, skipn_all, PeanoNat.Nat.sub_diag. reflexivity.
Qed.

(** A stale sample changes nothing. *)
Lemma step_stale (initialTime : option D) (comm : CommManager) (p : prognoser) :
  initialized p = true ->
  (newT initialTime comm p <=? lastTime p) = true ->
  snd (step initialTime comm p) = p.
Proof.
  intros Hinit Hstale. unfold ModelBasedPrognoser.step.
  rewrite Hinit. cbn [negb].
  change (seconds time_to_double comm p
          - initialTime_after time_to_double initialTime comm p)
    with (newT initialTime comm p).
  rewrite Hstale. reflexivity.
Qed.

(** One call on an initialized prognoser: [lastTime] stays, or becomes the
    time of the sample, which is then not [<=] the old [lastTime]. *)
Lemma step_lastTime (initialTime : option D) (comm : CommManager)
    (p : prognoser) :
  initialized p = true ->
  initialized (snd (step initialTime comm p)) = true
  /\ ((newT initialTime comm p <=? lastTime p) = true
      /\ lastTime (snd (step initialTime comm p)) = lastTime p
      \/ (newT initialTime comm p <=? lastTime p) = false
         /\ lastTime (snd (step initialTime comm p)) = newT initialTime comm p).
Proof.
  intros Hinit.
  destruct (newT initialTime comm p <=? lastTime p) eqn:Hcmp.
  - rewrite step_stale by assumption. auto.
  - unfold ModelBasedPrognoser.step. rewrite Hinit. cbn [negb].
    change (seconds time_to_double comm p
            - initialTime_after time_to_double initialTime comm p)
      with (newT initialTime comm p).
    rewrite Hcmp.
    destruct (predictor_predict predictorClass _ _ _ _) as [predictor' results'].
    cbn. auto.
Qed.

Lemma steps_nondecreasing (comms : list CommManager) :
  forall (initialTime : option D) (p : prognoser),
  initialized p = true ->
  is_number (lastTime p) ->
  Forall is_number (newTs initialTime comms p) ->
  nondecreasing (lastTime p :: map lastTime (steps initialTime comms p)).
Proof.
  induction comms as [|comm comms IH]; intros initialTime p Hinit Hlast Htimes.
  - exact I.
  - cbn [ModelBasedPrognoser.steps ModelBasedPrognoser.newTs] in *.
    destruct (step initialTime comm p) as [initialTime' p'] eqn:Hstep.
    inversion Htimes as [|t ts Ht Hts]; subst.
    destruct (step_lastTime initialTime comm p Hinit) as [Hinit' Hcases].
    rewrite Hstep in Hinit', Hcases. cbn [snd] in Hinit', Hcases.
    cbn [map]. 
    assert (Hstepwise : (lastTime p <=? lastTime p') = true /\ is_number (lastTime p')).
    { destruct Hcases as [[_ Hsame] | [Hlt Hnew]].
      - rewrite Hsame. split; assumption.
      - rewrite Hnew. split; [apply leb_total; assumption | assumption]. }
    destruct Hstepwise as [Hle Hnum].
    specialize (IH initialTime' p' Hinit' Hnum Hts).
    split; [exact Hle | exact IH].
Qed.

(** C2.  On an initialized prognoser a call of [step] whose relative time
    [t] is [<= lastTime] changes nothing: no call is made on the observer
    or the predictor, and [lastTime], with every other member, is as it
    was.  A call leaves [lastTime] as it was or moves it to a time [t] that
    is not [<=] it.  Consequently along every sequence of calls whose
    sample times are numbers the successive values of [lastTime] never
    decrease. *)
Theorem step_skips_stale_samples (initialTime : option D) (p : prognoser) :
  initialized p = true ->
  (forall comm,
     (newT initialTime comm p <=? lastTime p) = true ->
     snd (step initialTime comm p) = p)
  /\ (forall comm,
        lastTime (snd (step initialTime comm p)) = lastTime p
        \/ ((newT initialTime comm p <=? lastTime p) = false
            /\ lastTime (snd (step initialTime comm p)) = newT initialTime comm p))
  /\ (forall comms,
        is_number (lastTime p) ->
        Forall is_number (newTs initialTime comms p) ->
        nondecreasing (lastTime p :: map lastTime (steps initialTime comms p))).
Proof.
  intros Hinit. split; [|split].
  - intros comm. apply step_stale. exact Hinit.
  - intros comm.
    destruct (step_lastTime initialTime comm p Hinit) as [_ [[_ Hsame] | Hmoved]];
      auto.
  - intros comms. apply steps_nondecreasing. exact Hinit.
Qed.

End PrognoserStep.

(* ================================================================== *)
(** * Binary64: comparisons, zeros and infinities *)

Section Binary64.
Local Open Scope float_scope.

(** [of_Q] reads the literals of the two files as the compiler does: each
    is the [double] nearest to the decimal. *)
Lemma literals_binary64 :
  of_Q 0.4 = 0.4 /\ of_Q 0.6 = 0.6 /\ of_Q 1.0 = 1 /\ of_Q 0.0001 = 0.0001
  /\ of_Q 273.15 = 273.15 /\ of_Q 1.0e3 = 1000
  /\ of_Q 0.117215 = 0.117215 /\ of_Q 8.3144621 = 8.3144621
  /\ of_Q 96487 = 96487 /\ of_Q 0.000437545 = 0.000437545
  /\ of_Q 0.00030962 = 0.00030962 /\ of_Q 2120.96 = 2120.96
  /\ of_Q 2e-5 = 2e-5 /\ of_Q 7e6 = 7e6 /\ of_Q 6.08671 = 6.08671
  /\ of_Q 1.00138e3 = 1.00138e3 /\ of_Q 46.4311 = 46.4311
  /\ of_Q (-31593.7) = -31593.7 /\ of_Q (-1.07469e+06) = -1.07469e+06
  /\ of_Q 3.2 = 3.2.
Proof. repeat split; reflexivity. Qed.

Lemma SFcompare_antisym (x y : spec_float) :
  SFcompare y x = option_map CompOpp (SFcompare x y).
Proof.
  destruct x as [sx|sx| |sx mx ex], y as [sy|sy| |sy my ey]; simpl;
    try reflexivity;
    try (destruct sx; reflexivity); try (destruct sy; reflexivity);
    try (destruct sx, sy; reflexivity).
  destruct sx, sy; simpl; try reflexivity;
    rewrite (Z.compare_antisym ex ey); destruct (ex ?= ey)%Z; simpl;
    try reflexivity;
    fold (Pos.compare mx my); fold (Pos.compare my mx);
    rewrite (Pos.compare_antisym mx my); destruct (mx ?= my)%positive;
    reflexivity.
Qed.

Lemma SFcompare_refl (x : spec_float) :
  x <> S754_nan -> SFcompare x x = Some Eq.
Proof.
  destruct x as [sx|sx| |sx mx ex]; simpl; intros Hx; try congruence.
  - destruct sx; reflexivity.
  - destruct sx; rewrite Z.compare_refl; fold (Pos.compare mx mx);
      rewrite Pos.compare_refl; reflexivity.
Qed.

Lemma is_number_not_nan (a : float) : is_number a -> Prim2SF a <> S754_nan.
Proof.
  unfold is_number. cbn [dleb float_arith]. rewrite leb_spec. unfold SFleb.
  intros Hle Hnan. rewrite Hnan in Hle. discriminate.
Qed.

(** Nothing is [<=] NaN. *)
Lemma leb_nan_r (a : float) : (a <=? nan) = false.
Proof.
  rewrite leb_spec. unfold SFleb.
  change (Prim2SF nan) with S754_nan.
  destruct (Prim2SF a); reflexivity.
Qed.

#[export] Instance float_total_order : TotalOrder float.
Proof.
  constructor. intros a b Ha Hb. cbn [dleb float_arith].
  rewrite !leb_spec. unfold SFleb.
  rewrite (SFcompare_antisym (Prim2SF a) (Prim2SF b)).
  apply is_number_not_nan in Ha, Hb.
  destruct (Prim2SF a) as [sa|sa| |sa ma ea] eqn:Ea,
           (Prim2SF b) as [sb|sb| |sb mb eb] eqn:Eb; try congruence;
    destruct (SFcompare _ _) as [[ | | ]|] eqn:Hcmp; simpl;
    try reflexivity; try discriminate.
  all: simpl in Hcmp; try discriminate.
  all: destruct sa; try discriminate; destruct sb; discriminate.
Qed.

Lemma is_zero_spec (a : float) :
  is_zero a = true <-> exists s, Prim2SF a = S754_zero s.
Proof.
  unfold is_zero. rewrite FloatAxioms.eqb_spec. unfold SFeqb.
  change (Prim2SF zero) with (S754_zero false).
  destruct (Prim2SF a) as [s|s| |s m e]; simpl; split;
    try discriminate; try (intros [s' Hs]; discriminate); eauto;
    destruct s; try discriminate; intros [s' Hs]; discriminate.
Qed.

Lemma is_finite_spec (a : float) :
  is_finite a = true ->
  (exists s, Prim2SF a = S754_zero s)
  \/ (exists s m e, Prim2SF a = S754_finite s m e).
Proof.
  unfold is_finite, is_nan, is_infinity.
  rewrite !FloatAxioms.eqb_spec, abs_spec. unfold SFeqb.
  change (Prim2SF infinity) with (S754_infinity false).
  destruct (Prim2SF a) as [s|s| |s m e]; simpl; try discriminate.
  - intros _. left. eauto.
  - destruct s; discriminate.
  - intros _. right. eauto.
Qed.

Lemma is_zero_finite (a : float) : is_zero a = true -> is_finite a = true.
Proof.
  intros Hz. apply is_zero_spec in Hz as [s Hs].
  unfold is_finite, is_nan, is_infinity.
  rewrite !FloatAxioms.eqb_spec, abs_spec, Hs. reflexivity.
Qed.

(** A finite number times a zero is a zero. *)
Lemma mul_finite_zero (a b : float) :
  is_finite a = true -> is_zero b = true -> is_zero (a * b) = true.
Proof.
  intros Ha Hb. apply is_zero_spec in Hb as [sb Hb]. apply is_zero_spec.
  rewrite mul_spec, Hb.
  destruct (is_finite_spec a Ha) as [[sa ->] | (sa & ma & ea & ->)];
    simpl; eauto.
Qed.

Lemma mul_zero_finite (a b : float) :
  is_zero a = true -> is_finite b = true -> is_zero (a * b) = true.
Proof.
  intros Ha Hb. apply is_zero_spec in Ha as [sa Ha]. apply is_zero_spec.
  rewrite mul_spec, Ha.
  destruct (is_finite_spec b Hb) as [[sb ->] | (sb & mb & eb & ->)];
    simpl; eauto.
Qed.

(** Adding a zero leaves a [double] unchanged. *)
Lemma add_zero_unchanged (a z : float) :
  is_zero z = true -> unchanged a (a + z).
Proof.
  intros Hz. apply is_zero_spec in Hz as [sz Hz]. unfold unchanged.
  destruct (Prim2SF a) as [sa|sa| |sa ma ea] eqn:Ha.
  - right. split; apply is_zero_spec; [eauto|].
    rewrite add_spec, Ha, Hz. destruct sa, sz; simpl; eauto.
  - left. apply Prim2SF_inj. rewrite add_spec, Ha, Hz. reflexivity.
  - left. apply Prim2SF_inj. rewrite add_spec, Ha, Hz. reflexivity.
  - left. apply Prim2SF_inj. rewrite add_spec, Ha, Hz. reflexivity.
Qed.

Lemma unchanged_add_zero (a b z : float) :
  unchanged a b -> is_zero z = true -> unchanged a (b + z).
Proof.
  intros [<- | [Ha Hb]] Hz; [apply add_zero_unchanged; exact Hz|].
  right. split; [exact Ha|].
  destruct (add_zero_unchanged b z Hz) as [<- | [_ Hbz]]; assumption.
Qed.

(** [x + d * dt + dt * n] when both products are zeros. *)
Lemma update_unchanged (a d dt n : float) :
  is_zero (d * dt) = true -> is_zero (dt * n) = true ->
  unchanged a (a + d * dt + dt * n).
Proof.
  intros Hd Hn. apply unchanged_add_zero; [|exact Hn].
  apply add_zero_unchanged. exact Hd.
Qed.

(** Two [double]s that compare different are different. *)
Lemma eqb_false_neq (a b : float) : (a =? b) = false -> (a =? a) = true -> a <> b.
Proof. intros Hab Haa Heq. rewrite <- Heq, Haa in Hab. discriminate. Qed.

Lemma eqb_false_neq_r (a b : float) :
  (a =? b) = false -> (b =? b) = true -> a <> b.
Proof. intros Hab Hbb Heq. rewrite Heq, Hbb in Hab. discriminate. Qed.

(** Zero divided by anything is a zero or NaN. *)
Lemma div_zero_cases (v : float) :
  0 / v = 0 \/ 0 / v = -0 \/ 0 / v = nan.
Proof.
  assert (H : Prim2SF (0 / v) = S754_zero false \/ Prim2SF (0 / v) = S754_zero true
              \/ Prim2SF (0 / v) = S754_nan).
  { rewrite div_spec. change (Prim2SF 0) with (S754_zero false).
    destruct (Prim2SF v) as [[|]|[|]| |[|] m e]; simpl; auto. }
  destruct H as [H | [H | H]]; [left | right; left | right; right];
    apply Prim2SF_inj; rewrite H; reflexivity.
Qed.

(** An infinity divided by anything is an infinity or NaN. *)
Lemma div_infinity_cases (v : float) :
  infinity / v = infinity \/ infinity / v = neg_infinity \/ infinity / v = nan.
Proof.
  assert (H : Prim2SF (infinity / v) = S754_infinity false
              \/ Prim2SF (infinity / v) = S754_infinity true
              \/ Prim2SF (infinity / v) = S754_nan).
  { rewrite div_spec. change (Prim2SF infinity) with (S754_infinity false).
    destruct (Prim2SF v) as [[|]|[|]| |[|] m e]; simpl; auto. }
  destruct H as [H | [H | H]]; [left | right; left | right; right];
    apply Prim2SF_inj; rewrite H; reflexivity.
Qed.

End Binary64.

(* ================================================================== *)
(** * The real numbers: comparisons *)

Section RealOrder.

#[export] Instance real_total_order : TotalOrder R.
Proof.
  constructor. intros a b _ _. cbn [dleb real_arith]. unfold Rleb.
  destruct (Rle_dec a b), (Rle_dec b a); auto; try discriminate.
  lra.
Qed.

End RealOrder.

(* ================================================================== *)
(** * [Battery::stateEqn] *)

Section StateEqn.
Context {D : Type} {A : Arith D} {L : Libm D}.
Variable parameters : Battery.Parameters D.
Local Open Scope dbl_scope.

(** The derivative of the bulk temperature is the constant zero. *)
Lemma constraints_Tbdot (x u : list D) :
  Battery.Tbdot (Battery.constraints parameters x u) = #0.
Proof. reflexivity. Qed.

(** The four charge derivatives: diffusion moves charge between bulk and
    surface of one electrode, the current [i] leaves the negative surface
    and enters the positive one. *)
Lemma constraints_charges (x u : list D) :
  let c := Battery.constraints parameters x u in
  let qdotDiffusionBSn :=
    (vget x 4 / parameters.(Battery.VolB) - vget x 5 / parameters.(Battery.VolS))
    / parameters.(Battery.tDiffusion) in
  let qdotDiffusionBSp :=
    (vget x 6 / parameters.(Battery.VolB) - vget x 7 / parameters.(Battery.VolS))
    / parameters.(Battery.tDiffusion) in
  Battery.c_i c = vget u 0 / Battery.c_V c
  /\ Battery.qnBdot c = - qdotDiffusionBSn
  /\ Battery.qnSdot c = - Battery.c_i c + qdotDiffusionBSn
  /\ Battery.qpBdot c = - qdotDiffusionBSp
  /\ Battery.qpSdot c = Battery.c_i c + qdotDiffusionBSp.
Proof. repeat split. Qed.

(** One step, component by component: the old value, plus the derivative
    times [dt], plus [dt] times the noise. *)
Lemma stateEqn_update (t : D) (x u n : list D) (dt : D) :
  length x = 8%nat ->
  let c := Battery.constraints parameters x u in
  Battery.stateEqn parameters t x u n dt
  = [ vget x 0 + Battery.Tbdot c * dt + dt * vget n 0;
      vget x 1 + Battery.Vodot c * dt + dt * vget n 1;
      vget x 2 + Battery.Vsndot c * dt + dt * vget n 2;
      vget x 3 + Battery.Vspdot c * dt + dt * vget n 3;
      vget x 4 + Battery.qnBdot c * dt + dt * vget n 4;
      vget x 5 + Battery.qnSdot c * dt + dt * vget n 5;
      vget x 6 + Battery.qpBdot c * dt + dt * vget n 6;
      vget x 7 + Battery.qpSdot c * dt + dt * vget n 7 ].
Proof.
  intros Hx c.
  eight_components x Hx.
  reflexivity.
Qed.

End StateEqn.

(** ** In binary64 *)

Section StateEqnBinary64.
Context {L : Libm float}.
Variable parameters : Battery.Parameters float.
Local Open Scope float_scope.

(** C10, as amended.  The new [x[0]] is computed from the old [x[0]],
    [dt] and [n[0]] alone, as [x[0] + 0 * dt + dt * n[0]]: no other
    component, input or noise enters it.  For every finite timestep [dt]
    and zero noise [n[0]] it is the old [x[0]] (zero for zero). *)
Theorem stateEqn_keeps_Tb (t : float) (x u n : list float) (dt : float) :
  length x = 8%nat ->
  vget (Battery.stateEqn parameters t x u n dt) 0
  = vget x 0 + 0 * dt + dt * vget n 0
  /\ (is_finite dt = true ->
      is_zero (vget n 0) = true ->
      unchanged (vget x 0) (vget (Battery.stateEqn parameters t x u n dt) 0)).
Proof.
  intros Hx. rewrite (stateEqn_update parameters t x u n dt Hx).
  cbn [vget nth]. rewrite constraints_Tbdot.
  split; [reflexivity|].
  intros Hdt Hn. apply update_unchanged.
  - apply mul_zero_finite; [reflexivity | exact Hdt].
  - apply mul_finite_zero; assumption.
Qed.

(** C7, as amended.  With [dt] zero and zero process noise, a call of
    [stateEqn] at which the eight derivatives are finite leaves each of
    the eight components unchanged (zero for zero). *)
Theorem stateEqn_zero_dt_identity (t : float) (x u n : list float) (dt : float) :
  length x = 8%nat ->
  is_zero dt = true ->
  (forall k, is_zero (vget n k) = true) ->
  finite_derivatives (Battery.constraints parameters x u) = true ->
  Forall2 unchanged x (Battery.stateEqn parameters t x u n dt).
Proof.
  intros Hx Hdt Hn Hfinite.
  rewrite (stateEqn_update parameters t x u n dt Hx).
  unfold finite_derivatives in Hfinite.
  repeat (apply andb_prop in Hfinite as [Hfinite ?]).
  assert (Hnoise : forall k, is_zero (dt * vget n k) = true).
  { intros k. apply mul_finite_zero; [apply is_zero_finite; exact Hdt | apply Hn]. }
  eight_components x Hx.
  cbn [vget nth].
  repeat (apply Forall2_cons;
          [apply update_unchanged;
           [apply mul_finite_zero; assumption | apply Hnoise]|]).
  apply Forall2_nil.
Qed.

End StateEqnBinary64.

(** ** In real arithmetic *)

Section StateEqnReal.
Context {L : Libm R}.
Variable parameters : Battery.Parameters R.
Local Open Scope R_scope.

(** C9, as amended.  In real arithmetic one step of [stateEqn] with zero
    noise on the four charge components preserves the total charge
    [x[4] + x[5] + x[6] + x[7]] exactly, for every state, input and
    timestep: within each electrode the bulk and surface derivatives sum to
    the current taken from it ([-i] at the negative electrode, [+i] at the
    positive one), and the two cancel. *)
Theorem stateEqn_conserves_charge (t : R) (x u n : list R) (dt : R) :
  length x = 8%nat ->
  vget n 4 = 0 -> vget n 5 = 0 -> vget n 6 = 0 -> vget n 7 = 0 ->
  let c := Battery.constraints parameters x u in
  let x' := Battery.stateEqn parameters t x u n dt in
  Battery.qnBdot c + Battery.qnSdot c = - Battery.c_i c
  /\ Battery.qpBdot c + Battery.qpSdot c = Battery.c_i c
  /\ vget x' 4 + vget x' 5 + vget x' 6 + vget x' 7
     = vget x 4 + vget x 5 + vget x 6 + vget x 7.
Proof.
  intros Hx Hn4 Hn5 Hn6 Hn7 c x'.
  unfold x'. rewrite (stateEqn_update parameters t x u n dt Hx).
  fold c. cbn [vget nth].
  change (nth 4 n (of_Q 0)) with (vget n 4).
  change (nth 5 n (of_Q 0)) with (vget n 5).
  change (nth 6 n (of_Q 0)) with (vget n 6).
  change (nth 7 n (of_Q 0)) with (vget n 7).
  rewrite Hn4, Hn5, Hn6, Hn7.
  destruct (constraints_charges parameters x u) as (_ & HnB & HnS & HpB & HpS).
  fold c in HnB, HnS, HpB, HpS. rewrite HnB, HnS, HpB, HpS.
  cbn [dadd dsub dmul ddiv dopp real_arith].
  repeat split; ring.
Qed.

End StateEqnReal.

(** ** [stateEqn] on concrete states, in binary64 *)

Section StateEqnExamples.
Local Open Scope float_scope.

(** C10, as stated, fails at an infinite timestep: [0 * dt] is then NaN,
    and so is the new [x[0]], whatever the library computes. *)
Lemma stateEqn_keeps_Tb_counterexample :
  is_zero (vget (vector 8) 0) = true
  /\ ~ (exists L : Libm float,
          unchanged (vget x_example 0)
            (vget (Battery.stateEqn (L := L) battery 0 x_example [8] (vector 8)
                     infinity) 0)).
Proof.
  split; [reflexivity|]. intros [L Hunchanged].
  rewrite (stateEqn_update battery 0 x_example [8] (vector 8) infinity eq_refl)
    in Hunchanged.
  cbn [vget nth] in Hunchanged. rewrite constraints_Tbdot in Hunchanged.
  vm_compute in Hunchanged.
  destruct Hunchanged as [Heq | [Hzero _]]; [|discriminate].
  revert Heq. apply eqb_false_neq; reflexivity.
Qed.

(** C9, as stated, fails in binary64: the four new charges are rounded one
    by one, and their sum is not the old sum.  With no load ([P = 0]) a
    step of one second takes the total charge of [x_example] from 12300 to
    12300.000000000002, whatever the library computes (to NaN, should the
    terminal voltage it computes be zero or NaN). *)
Lemma stateEqn_conserves_charge_counterexample :
  vget x_example 4 + vget x_example 5 + vget x_example 6 + vget x_example 7
  = 12300
  /\ ~ (exists L : Libm float,
          let x' := Battery.stateEqn (L := L) battery 0 x_example [0] (vector 8) 1 in
          vget x' 4 + vget x' 5 + vget x' 6 + vget x' 7 = 12300).
Proof.
  split; [reflexivity|]. intros [L Hsum]. cbv zeta in Hsum.
  rewrite (stateEqn_update battery 0 x_example [0] (vector 8) 1 eq_refl) in Hsum.
  cbn [vget nth] in Hsum.
  destruct (constraints_charges battery x_example [0])
    as (Hi & HnB & HnS & HpB & HpS).
  rewrite HnB, HnS, HpB, HpS, Hi in Hsum. clear Hi HnB HnS HpB HpS.
  cbn [vget nth dadd dsub dmul ddiv dopp float_arith] in Hsum.
  destruct (div_zero_cases
              (Battery.c_V (Battery.constraints battery x_example [0])))
    as [Hi | [Hi | Hi]];
    rewrite Hi in Hsum; vm_compute in Hsum;
    revert Hsum; apply eqb_false_neq_r; reflexivity.
Qed.

(** C7, as stated, fails at an infinite input power: the current is then an
    infinity or NaN, the derivative of the surface charge [x[5]] with it,
    and its product with [dt = 0] is NaN.  The state is within the claim's
    domain: the surface mole fractions are 0.55 and 0.47, and the terminal
    voltage computed with the library [Cmath.libm] is not zero. *)
Lemma stateEqn_zero_dt_counterexample :
  (let xnS := vget x_example 5 / Battery.qSMax battery in
   let xpS := vget x_example 7 / Battery.qSMax battery in
   (0 <? xnS) && (xnS <? 1) && (0 <? xpS) && (xpS <? 1) = true)
  /\ (Battery.c_V (Battery.constraints (L := Cmath.libm) battery x_example [infinity])
      =? 0) = false
  /\ ~ (exists L : Libm float,
          Forall2 unchanged x_example
            (Battery.stateEqn (L := L) battery 0 x_example [infinity] (vector 8) 0)).
Proof.
  split; [vm_compute; reflexivity|]. split; [vm_compute; reflexivity|].
  intros [L Hunchanged].
  assert (H5 := Forall2_vget (A := float_arith) unchanged _ _ Hunchanged 5%nat
                  ltac:(simpl; lia)).
  clear Hunchanged.
  rewrite (stateEqn_update battery 0 x_example [infinity] (vector 8) 0 eq_refl)
    in H5.
  cbn [vget nth] in H5.
  destruct (constraints_charges battery x_example [infinity])
    as (Hi & _ & HnS & _ & _).
  rewrite HnS, Hi in H5. clear Hi HnS.
  cbn [vget nth dadd dsub dmul ddiv dopp float_arith] in H5.
  destruct (div_infinity_cases
              (Battery.c_V (Battery.constraints battery x_example [infinity])))
    as [Hi | [Hi | Hi]];
    rewrite Hi in H5; vm_compute in H5;
    (destruct H5 as [Heq | [Hzero _]]; [|discriminate]);
    revert Heq; apply eqb_false_neq; reflexivity.
Qed.

End StateEqnExamples.

(** ** [initialize] in real arithmetic *)

Section InitializeReal.
Local Open Scope R_scope.

Lemma real_candidates_length (n : nat) : forall xi,
  length (real_candidates n xi) = n.
Proof. induction n as [|n IH]; intros xi; simpl; auto. Qed.

Lemma real_candidates_sweep (n : nat) : forall xi,
  1 < xi + INR n * 0.0001 ->
  xi + (INR n - 1) * 0.0001 <= 1 ->
  sweep_from xi (real_candidates n xi).
Proof.
  induction n as [|n IH]; intros xi Hover Hunder.
  - cbn [real_candidates sweep_from dleb real_arith of_Q]. unfold Rleb, Q2R.
    simpl in *. destruct (Rle_dec _ _) as [Hle|]; [lra | reflexivity].
  - rewrite S_INR in Hover, Hunder.
    assert (Hn := pos_INR n).
    cbn [real_candidates sweep_from dleb dadd real_arith of_Q].
    split; [reflexivity|]. split.
    + unfold Rleb, Q2R. simpl.
      destruct (Rle_dec _ _) as [|Hgt]; [reflexivity | lra].
    + replace (xi + Q2R 0.0001) with (xi + 0.0001) by (unfold Q2R; simpl; lra).
      apply IH; lra.
Qed.

(** In real arithmetic the sweep has 6001 candidates, from 0.4 to 1.0
    itself, and returns with fuel for 6002 turns. *)
Lemma initialize_sweep_real (fuel : nat) :
  (6002 <= fuel)%nat ->
  exists xp xn,
    Battery.initialize_sweep (A := real_arith) fuel (of_Q 0.4) [] [] = Some (xp, xn).
Proof.
  intros Hfuel.
  assert (Hfrom : sweep_from (of_Q 0.4) (real_candidates 6001 (of_Q 0.4))).
  { apply real_candidates_sweep; rewrite INR_IZR_INZ;
      change (Z.of_nat 6001) with 6001%Z;
      cbn [of_Q real_arith]; unfold Q2R; simpl; lra. }
  assert (Hsucc : S 6001 = 6002%nat) by reflexivity.
  exists (real_candidates 6001 (of_Q 0.4)),
         (map (fun xi => (of_Q 1 - xi)%dbl) (real_candidates 6001 (of_Q 0.4))).
  replace fuel
    with (S (length (real_candidates 6001 (of_Q 0.4))) + (fuel - 6002))%nat
    by (rewrite real_candidates_length; lia).
  apply initialize_sweep_fuel.
  exact (initialize_sweep_complete (real_candidates 6001 (of_Q 0.4)) _ [] [] Hfrom).
Qed.

End InitializeReal.

(** ** [initialize] in binary64 *)

Section InitializeBinary64.
Local Open Scope float_scope.

Lemma all_below_spec (f : nat -> bool) (k : nat) :
  all_below f k = true -> forall j, (j < k)%nat -> f j = true.
Proof.
  unfold all_below. rewrite forallb_forall. intros Hall j Hj.
  apply Hall, in_seq. lia.
Qed.

Lemma sweep_fromb_spec (candidates : list float) : forall xi,
  sweep_fromb xi candidates = true -> sweep_from xi candidates.
Proof.
  induction candidates as [|first rest IH]; intros xi; simpl.
  - intros H. apply negb_true_iff in H. exact H.
  - intros H. apply andb_prop in H as [H Hrest]. apply andb_prop in H as [Heq Hle].
    apply Leibniz.eqb_spec in Heq. auto.
Qed.

(** The sweep returns after 6001 turns: fuel for 6002 is enough.  It goes
    from 0.4 to 0.99999999999993394, the sum of 0.4 and 6000 rounded steps;
    the next candidate, 1.000099999999934, is above 1.0. *)
Lemma initialize_sweep_binary64 (fuel : nat) :
  (6002 <= fuel)%nat ->
  Battery.initialize_sweep fuel (of_Q 0.4) [] [] = Some binary64_sweep
  /\ length (fst binary64_sweep) = 6001%nat
  /\ length (snd binary64_sweep) = 6001%nat
  /\ vget (fst binary64_sweep) 0 = 0.4
  /\ vget (snd binary64_sweep) 0 = 0.6
  /\ vget (fst binary64_sweep) 6000 = 0.99999999999993394
  /\ vget (snd binary64_sweep) 6000 = 6.6058269965196814e-14.
Proof.
  intros Hfuel.
  assert (Hlen : length (fst binary64_sweep) = 6001%nat)
    by (vm_compute; reflexivity).
  split; [|repeat split; vm_compute; reflexivity].
  assert (Hfrom : sweep_from (of_Q 0.4) (fst binary64_sweep))
    by (apply sweep_fromb_spec; vm_compute; reflexivity).
  assert (Hxn : snd binary64_sweep
                = map (fun xi => (of_Q 1 - xi)%dbl) (fst binary64_sweep))
    by (vm_compute; reflexivity).
  assert (Hsucc : S 6001 = 6002%nat) by reflexivity.
  replace fuel with (S (length (fst binary64_sweep)) + (fuel - 6002))%nat
    by (rewrite Hlen; lia).
  apply initialize_sweep_fuel.
  rewrite (initialize_sweep_complete (fst binary64_sweep) _ [] [] Hfrom).
  cbn [app]. rewrite <- Hxn. destruct binary64_sweep; reflexivity.
Qed.

(** [initialize] returns, whatever the observation and the library. *)
Lemma initialize_binary64_returns {L : Libm float}
    (parameters : Battery.Parameters float) (fuel : nat) (x u z : list float) :
  (6002 <= fuel)%nat -> length x = 8%nat ->
  exists x', Battery.initialize parameters fuel x u z = Some x'
             /\ length x' = 8%nat.
Proof.
  intros Hfuel Hx.
  destruct (initialize_sweep_binary64 fuel Hfuel) as [Hsweep _].
  destruct binary64_sweep as [xp xn].
  destruct (Battery.initialize_search parameters (length xp) (observed_Tb z)
              (ohmic_drop parameters u z) (observed_voltage z) xp xn 0
              (of_Q 0.4) (of_Q 0.6)) as [xpo xno] eqn:Hsearch.
  destruct (initialize_returns parameters fuel x u z xp xn Hsweep Hx xpo xno Hsearch)
    as (x' & Hinit & Hlen & _).
  eauto.
Qed.

(** When no candidate of the sweep passes the test, the state is derived
    from the initial values 0.4 and 0.6. *)
Lemma initialize_binary64_fallback {L : Libm float}
    (parameters : Battery.Parameters float) (fuel : nat) (x u z : list float) :
  (6002 <= fuel)%nat -> length x = 8%nat ->
  (forall k, (predicted parameters u z (fst binary64_sweep) (snd binary64_sweep) k
              <=? observed_voltage z) = false) ->
  exists x', Battery.initialize parameters fuel x u z = Some x'
             /\ derived_from parameters (of_Q 0.4) (of_Q 0.6) x'.
Proof.
  intros Hfuel Hx.
  destruct (initialize_sweep_binary64 fuel Hfuel) as [Hsweep _].
  destruct binary64_sweep as [xp xn]. cbn [fst snd]. intros Hnone.
  destruct (initialize_returns parameters fuel x u z xp xn Hsweep Hx
              (of_Q 0.4) (of_Q 0.6))
    as (x' & Hinit & _ & _ & _ & Hderived).
  - apply initialize_search_none. intros j _. apply Hnone.
  - eauto.
Qed.

(** With [Cmath.libm], at rest and 20 degrees Celsius, every voltage the
    sweep predicts is above 1 V. *)
Lemma predicted_above_1V (k : nat) :
  (predicted (L := Cmath.libm) battery [0] [20; 1]
     (fst binary64_sweep) (snd binary64_sweep) k <=? 1) = false.
Proof.
  destruct (initialize_sweep_binary64 6002 (le_n _)) as (_ & Hlenp & Hlenn & _).
  destruct (Compare_dec.le_lt_dec 6001 k) as [Hout | Hin].
  - unfold predicted, vget.
    rewrite (nth_overflow (fst binary64_sweep)) by (rewrite Hlenp; exact Hout).
    rewrite (nth_overflow (snd binary64_sweep)) by (rewrite Hlenn; exact Hout).
    vm_compute. reflexivity.
  - apply negb_true_iff.
    apply (all_below_spec
             (fun j => negb (predicted (L := Cmath.libm) battery [0] [20; 1]
                               (fst binary64_sweep) (snd binary64_sweep) j <=? 1))
             6001); [|exact Hin].
    vm_cast_no_check (eq_refl true).
Qed.

(** A state derived from 0.4, 0.6 is not derived from the last candidate
    of the sweep. *)
Lemma derived_from_first_not_last (x' : list float) :
  derived_from battery (of_Q 0.4) (of_Q 0.6) x' ->
  ~ derived_from battery 0.99999999999993394 6.6058269965196814e-14 x'.
Proof.
  intros (_ & _ & HqpS & _) (_ & _ & HqpS' & _).
  rewrite HqpS in HqpS'. vm_compute in HqpS'.
  revert HqpS'. apply eqb_false_neq; reflexivity.
Qed.

(** C1, as stated, fails where no candidate passes the test: the state
    is then derived from the initial values [xpo = 0.4], [xno = 0.6], not
    from the last candidate scanned, [xp = 0.99999999999993394] with
    [xn = 6.6058269965196814e-14].  First, with the library [Cmath.libm]:
    at rest ([P = 0]) the lowest voltage the sweep predicts is 1.3657 V, so
    an observed 1 V passes no test, and the state is the fully charged one.
    Second, for every library: an observed voltage that is NaN passes no
    test. *)
Lemma initialize_fallback_counterexample :
  (vget (fst binary64_sweep) 6000 = 0.99999999999993394
   /\ vget (snd binary64_sweep) 6000 = 6.6058269965196814e-14)
  /\ (forall k, (predicted (L := Cmath.libm) battery [0] [20; 1]
                   (fst binary64_sweep) (snd binary64_sweep) k <=? 1) = false)
  /\ (exists x',
        Battery.initialize (L := Cmath.libm) battery 6002 (vector 8) [0] [20; 1]
        = Some x'
        /\ derived_from battery 0.4 0.6 x'
        /\ ~ derived_from battery 0.99999999999993394 6.6058269965196814e-14 x')
  /\ ~ (exists L : Libm float,
          (exists k, (predicted (L := L) battery [8] [20; nan]
                        (fst binary64_sweep) (snd binary64_sweep) k <=? nan) = true)
          \/ (exists x',
                Battery.initialize (L := L) battery 6002 (vector 8) [8] [20; nan]
                = Some x'
                /\ derived_from battery 0.99999999999993394
                     6.6058269965196814e-14 x')).
Proof.
  split; [|split; [|split]].
  - destruct (initialize_sweep_binary64 6002 (le_n _)) as (_ & _ & _ & _ & _ & H).
    exact H.
  - exact predicted_above_1V.
  - destruct (initialize_binary64_fallback (L := Cmath.libm) battery 6002
                (vector 8) [0] [20; 1] (le_n _) eq_refl predicted_above_1V)
      as (x' & Hinit & Hderived).
    exists x'. split; [exact Hinit|]. split; [exact Hderived|].
    apply derived_from_first_not_last. exact Hderived.
  - intros [L [[k Hk] | (x' & Hinit & Hderived)]].
    + unfold dleb, float_arith in Hk. rewrite leb_nan_r in Hk. discriminate.
    + destruct (initialize_binary64_fallback (L := L) battery 6002
                  (vector 8) [8] [20; nan] (le_n _) eq_refl)
        as (x'' & Hinit' & Hderived').
      * intros k. apply leb_nan_r.
      * rewrite Hinit in Hinit'. injection Hinit' as <-.
        exact (derived_from_first_not_last x' Hderived' Hderived).
Qed.

(** C1, as amended.  In binary64 the sweep returns (6002 turns of fuel
    are enough) with 6001 candidates [xp]: they start at 0.4 and go up in
    steps of 0.0001 as long as they are [<= 1.0], and [xn] holds the
    complements [1 - xp].  [initialize] returns the state derived from the
    first pair whose predicted voltage (the equilibrium potential
    difference minus the ohmic drop [current * Ro]) is [<=] the observed
    voltage [z[1]]; and when no pair of the sweep passes that test, the
    state derived from the initial values [xpo = 0.4], [xno = 0.6], the
    fully charged end of the sweep. *)
Theorem initialize_accepts_first_candidate {L : Libm float}
    (parameters : Battery.Parameters float) (fuel : nat) (x u z : list float) :
  (6002 <= fuel)%nat ->
  length x = 8%nat ->
  let xp := fst binary64_sweep in
  let xn := snd binary64_sweep in
  Battery.initialize_sweep fuel (of_Q 0.4) [] [] = Some (xp, xn)
  /\ length xp = 6001%nat
  /\ sweep_from (of_Q 0.4) xp
  /\ xn = map (fun xi => (of_Q 1 - xi)%dbl) xp
  /\ (forall k,
        (k < length xp)%nat ->
        (predicted parameters u z xp xn k <=? observed_voltage z) = true ->
        (forall j, (j < k)%nat ->
           (predicted parameters u z xp xn j <=? observed_voltage z) = false) ->
        exists x',
          Battery.initialize parameters fuel x u z = Some x'
          /\ vget x' Battery.indices.states.Tb = observed_Tb z
          /\ vget x' Battery.indices.states.Vo = ohmic_drop parameters u z
          /\ derived_from parameters (vget xp k) (vget xn k) x')
  /\ ((forall k, (k < length xp)%nat ->
         (predicted parameters u z xp xn k <=? observed_voltage z) = false) ->
      exists x',
        Battery.initialize parameters fuel x u z = Some x'
        /\ vget x' Battery.indices.states.Tb = observed_Tb z
        /\ vget x' Battery.indices.states.Vo = ohmic_drop parameters u z
        /\ derived_from parameters (of_Q 0.4) (of_Q 0.6) x').
Proof.
  intros Hfuel Hx.
  destruct (initialize_sweep_binary64 fuel Hfuel) as (Hsweep & Hlen & _).
  destruct binary64_sweep as [xp xn]. cbn [fst snd] in *.
  destruct (initialize_grid_search parameters fuel x u z xp xn Hx Hsweep)
    as (Hfrom & Hxn & Hfirst & Hnone).
  split; [exact Hsweep|]. split; [exact Hlen|]. split; [exact Hfrom|].
  split; [exact Hxn|]. split; [exact Hfirst | exact Hnone].
Qed.

(** C8.  For every observation [initialize] returns, and the state it
    produces has both overpotential lags [Vsn], [Vsp] equal to zero,
    surface charges [qS = qMax * x * VolS / Vol] for the accepted mole
    fractions (a pair of the sweep, or the initial pair 0.4, 0.6), and bulk
    charges [qB = qS * VolB / VolS].  That formula is the equality of the
    concentrations: in real arithmetic, for nonzero volumes, [qB / VolB] is
    [qS / VolS] at both electrodes, and there is no initial gradient. *)
Theorem initialize_no_concentration_gradient :
  (forall (L : Libm float) (parameters : Battery.Parameters float)
          (fuel : nat) (x u z : list float),
     (6002 <= fuel)%nat ->
     length x = 8%nat ->
     exists x' xpo xno,
       Battery.initialize parameters fuel x u z = Some x'
       /\ ((xpo = of_Q 0.4 /\ xno = of_Q 0.6)
           \/ exists k, (k < length (fst binary64_sweep))%nat
                /\ xpo = vget (fst binary64_sweep) k
                /\ xno = vget (snd binary64_sweep) k)
       /\ vget x' Battery.indices.states.Vsn = of_Q 0
       /\ vget x' Battery.indices.states.Vsp = of_Q 0
       /\ vget x' Battery.indices.states.qpS
          = (parameters.(Battery.qMax) * xpo * parameters.(Battery.VolS)
             / parameters.(Battery.Vol))%dbl
       /\ vget x' Battery.indices.states.qnS
          = (parameters.(Battery.qMax) * xno * parameters.(Battery.VolS)
             / parameters.(Battery.Vol))%dbl
       /\ vget x' Battery.indices.states.qpB
          = (vget x' Battery.indices.states.qpS * parameters.(Battery.VolB)
             / parameters.(Battery.VolS))%dbl
       /\ vget x' Battery.indices.states.qnB
          = (vget x' Battery.indices.states.qnS * parameters.(Battery.VolB)
             / parameters.(Battery.VolS))%dbl)
  /\
  (forall (L : Libm R) (parameters : Battery.Parameters R)
          (fuel : nat) (x u z : list R),
     (6002 <= fuel)%nat ->
     length x = 8%nat ->
     parameters.(Battery.VolS) <> 0%R ->
     parameters.(Battery.VolB) <> 0%R ->
     exists x',
       Battery.initialize parameters fuel x u z = Some x'
       /\ (vget x' Battery.indices.states.qpB / parameters.(Battery.VolB)
           = vget x' Battery.indices.states.qpS / parameters.(Battery.VolS))%R
       /\ (vget x' Battery.indices.states.qnB / parameters.(Battery.VolB)
           = vget x' Battery.indices.states.qnS / parameters.(Battery.VolS))%R).
Proof.
  split.
  - intros L parameters fuel x u z Hfuel Hx.
    destruct (initialize_sweep_binary64 fuel Hfuel) as (Hsweep & _).
    destruct binary64_sweep as [xp xn]. cbn [fst snd].
    exact (initialize_derived_state parameters fuel x u z xp xn Hx Hsweep).
  - intros L parameters fuel x u z Hfuel Hx HVolS HVolB.
    destruct (initialize_sweep_real fuel Hfuel) as (xp & xn & Hsweep).
    destruct (initialize_derived_state parameters fuel x u z xp xn Hx Hsweep)
      as (x' & xpo & xno & Hinit & _ & _ & _ & _ & _ & HpB & HnB).
    exists x'. split; [exact Hinit|].
    rewrite HpB, HnB. cbn [dmul ddiv real_arith].
    split; field; auto.
Qed.

(** From the observation of 8 W, 20 degrees Celsius and 3.9 V, with
    [Cmath.libm]: candidate 274 of the sweep, [xp = 0.4274], is the first
    whose predicted voltage is [<= 3.9]. *)
Lemma initialize_accepts_first_candidate_witness :
  exists x',
    Battery.initialize (L := Cmath.libm) battery 6002 (vector 8) [8] [20; 3.9]
    = Some x'
    /\ vget x' Battery.indices.states.Tb = observed_Tb [20; 3.9]
    /\ vget x' Battery.indices.states.Vo = ohmic_drop battery [8] [20; 3.9]
    /\ derived_from battery (vget (fst binary64_sweep) 274)
         (vget (snd binary64_sweep) 274) x'.
Proof.
  destruct (initialize_accepts_first_candidate (L := Cmath.libm) battery 6002
              (vector 8) [8] [20; 3.9] (le_n _) eq_refl)
    as (_ & _ & _ & _ & Hfirst & _).
  apply (Hfirst 274%nat).
  - apply PeanoNat.Nat.ltb_lt. vm_compute. reflexivity.
  - vm_compute. reflexivity.
  - intros j Hj. apply negb_true_iff.
    apply (all_below_spec
             (fun j => negb (predicted (L := Cmath.libm) battery [8] [20; 3.9]
                               (fst binary64_sweep) (snd binary64_sweep) j
                             <=? observed_voltage [20; 3.9]))
             274); [vm_compute; reflexivity | exact Hj].
Defined.

Lemma initialize_no_concentration_gradient_witness :
  (exists x' xpo xno,
     Battery.initialize (L := Cmath.libm) battery 6002 (vector 8) [8] [20; 3.9]
     = Some x'
     /\ ((xpo = of_Q 0.4 /\ xno = of_Q 0.6)
         \/ exists k, (k < length (fst binary64_sweep))%nat
              /\ xpo = vget (fst binary64_sweep) k
              /\ xno = vget (snd binary64_sweep) k)
     /\ vget x' Battery.indices.states.Vsn = of_Q 0
     /\ vget x' Battery.indices.states.Vsp = of_Q 0
     /\ vget x' Battery.indices.states.qpS
        = (battery.(Battery.qMax) * xpo * battery.(Battery.VolS)
           / battery.(Battery.Vol))%dbl
     /\ vget x' Battery.indices.states.qnS
        = (battery.(Battery.qMax) * xno * battery.(Battery.VolS)
           / battery.(Battery.Vol))%dbl
     /\ vget x' Battery.indices.states.qpB
        = (vget x' Battery.indices.states.qpS * battery.(Battery.VolB)
           / battery.(Battery.VolS))%dbl
     /\ vget x' Battery.indices.states.qnB
        = (vget x' Battery.indices.states.qnS * battery.(Battery.VolB)
           / battery.(Battery.VolS))%dbl)
  /\ (let parameters := Battery.setParameters (D := R) 7600%R in
      exists x',
        Battery.initialize (L := real_libm) parameters 6002 (vector 8)
          [8%R] [20%R; 3.9%R] = Some x'
        /\ (vget x' Battery.indices.states.qpB / parameters.(Battery.VolB)
            = vget x' Battery.indices.states.qpS / parameters.(Battery.VolS))%R
        /\ (vget x' Battery.indices.states.qnB / parameters.(Battery.VolB)
            = vget x' Battery.indices.states.qnS / parameters.(Battery.VolS))%R).
Proof.
  split.
  - exact (proj1 initialize_no_concentration_gradient Cmath.libm battery 6002%nat
             (vector 8) [8] [20; 3.9] (le_n _) eq_refl).
  - cbv zeta.
    apply (proj2 initialize_no_concentration_gradient real_libm
             (Battery.setParameters (D := R) 7600%R) 6002%nat (vector 8)
             [8%R] [20%R; 3.9%R] (le_n _) eq_refl).
    + cbn [Battery.VolS Battery.setParameters dmul dsub of_Q real_arith].
      unfold Q2R. simpl. lra.
    + cbn [Battery.VolB Battery.setParameters dmul dsub of_Q real_arith].
      unfold Q2R. simpl. lra.
Defined.

End InitializeBinary64.

(** ** Witnesses *)

Section Witnesses.
Local Open Scope float_scope.

(** One second from [x_example] under 8 W leaves the temperature at
    293.15 K. *)
Lemma stateEqn_keeps_Tb_witness :
  unchanged (vget x_example 0)
    (vget (Battery.stateEqn (L := Cmath.libm) battery 0 x_example [8] (vector 8) 1) 0).
Proof.
  apply (proj2 (stateEqn_keeps_Tb (L := Cmath.libm) battery 0 x_example [8]
                  (vector 8) 1 eq_refl)).
  - reflexivity.
  - reflexivity.
Defined.

(** At [x_example] under 8 W the derivatives are finite, and a step of
    zero duration changes nothing. *)
Lemma stateEqn_zero_dt_identity_witness :
  Forall2 unchanged x_example
    (Battery.stateEqn (L := Cmath.libm) battery 0 x_example [8] (vector 8) 0).
Proof.
  apply (stateEqn_zero_dt_identity (L := Cmath.libm) battery 0 x_example [8]
           (vector 8) 0).
  - reflexivity.
  - reflexivity.
  - intros k. rewrite vget_vector. reflexivity.
  - vm_compute. reflexivity.
Defined.

(** The prognoser that stands at 5 s ignores samples taken at 5 s and at
    4 s, and moves to 6 s with the next one. *)
Lemma step_skips_stale_samples_witness :
  snd (ModelBasedPrognoser.step float_of_Z Example.model Example.observerClass
         Example.predictorClass (Some 0) (Example.comm_at 5000%Z) Example.running)
  = Example.running
  /\ snd (ModelBasedPrognoser.step float_of_Z Example.model Example.observerClass
            Example.predictorClass (Some 0) (Example.comm_at 4000%Z) Example.running)
     = Example.running
  /\ nondecreasing
       (ModelBasedPrognoser.lastTime Example.running
        :: map ModelBasedPrognoser.lastTime
             (ModelBasedPrognoser.steps float_of_Z Example.model
                Example.observerClass Example.predictorClass (Some 0)
                [Example.comm_at 5000%Z; Example.comm_at 4000%Z; Example.comm_at 6000%Z]
                Example.running)).
Proof.
  destruct (step_skips_stale_samples float_of_Z Example.model
              Example.observerClass Example.predictorClass (Some 0)
              Example.running eq_refl) as (Hstale & _ & Hmonotone).
  split; [|split].
  - apply Hstale. vm_compute. reflexivity.
  - apply Hstale. vm_compute. reflexivity.
  - apply Hmonotone.
    + vm_compute. reflexivity.
    + vm_compute. repeat constructor.
Defined.

(** The first call on the prognoser as constructed. *)
Lemma step_first_call_only_initializes_witness :
  let p := Example.constructed in
  let comm := Example.comm_at 1000%Z in
  let t := ModelBasedPrognoser.newT float_of_Z None comm p in
  let u := ModelBasedPrognoser.fill comm (ModelBasedPrognoser.inputs p)
             (ModelBasedPrognoser.getNumInputs Example.model) 0
             (vector (ModelBasedPrognoser.getNumInputs Example.model)) in
  let z := ModelBasedPrognoser.fill comm (ModelBasedPrognoser.outputs p)
             (ModelBasedPrognoser.getNumOutputs Example.model) 0
             (vector (ModelBasedPrognoser.getNumOutputs Example.model)) in
  let x0 := ModelBasedPrognoser.model_initialize Example.model
              (vector (ModelBasedPrognoser.getNumStates Example.model)) u z in
  let p' := snd (ModelBasedPrognoser.step float_of_Z Example.model
                   Example.observerClass Example.predictorClass None comm p) in
  ModelBasedPrognoser.initialized p' = true
  /\ ModelBasedPrognoser.lastTime p' = t
  /\ ModelBasedPrognoser.history p'
     = ModelBasedPrognoser.history p
       ++ [ModelBasedPrognoser.call_model_initialize u z;
           ModelBasedPrognoser.call_observer_initialize t x0 u]
  /\ existsb ModelBasedPrognoser.estimates_or_predicts
       (skipn (length (ModelBasedPrognoser.history p))
          (ModelBasedPrognoser.history p')) = false
  /\ ModelBasedPrognoser.observer p'
     = ModelBasedPrognoser.observer_initialize Example.observerClass t x0 u
         (ModelBasedPrognoser.observer p)
  /\ ModelBasedPrognoser.predictor p' = ModelBasedPrognoser.predictor p
  /\ ModelBasedPrognoser.results p' = ModelBasedPrognoser.results p.
Proof.
  cbv zeta.
  assert (H := step_first_call_only_initializes float_of_Z Example.model
                 Example.observerClass Example.predictorClass None
                 (Example.comm_at 1000%Z) Example.constructed eq_refl).
  cbv zeta in H. exact H.
Defined.

End Witnesses.

Section RealWitness.
Local Open Scope R_scope.

(** One second from the state of [x_example], in real arithmetic. *)
Lemma stateEqn_conserves_charge_witness :
  let x := [293.15; 0; 0; 0; 6000; 700; 5000; 600] in
  let n := [0; 0; 0; 0; 0; 0; 0; 0] in
  let parameters := Battery.setParameters (D := R) 7600 in
  let c := Battery.constraints (L := real_libm) parameters x [8] in
  let x' := Battery.stateEqn (L := real_libm) parameters 0 x [8] n 1 in
  Battery.qnBdot c + Battery.qnSdot c = - Battery.c_i c
  /\ Battery.qpBdot c + Battery.qpSdot c = Battery.c_i c
  /\ vget x' 4 + vget x' 5 + vget x' 6 + vget x' 7
     = vget x 4 + vget x 5 + vget x 6 + vget x 7.
Proof.
  cbv zeta.
  assert (H := stateEqn_conserves_charge (L := real_libm)
                 (Battery.setParameters (D := R) 7600) 0
                 [293.15; 0; 0; 0; 6000; 700; 5000; 600] [8]
                 [0; 0; 0; 0; 0; 0; 0; 0] 1
                 eq_refl eq_refl eq_refl eq_refl eq_refl).
  cbv zeta in H. exact H.
Defined.

End RealWitness.

(* ================================================================== *)
(** * [Battery::inputEqn]: the load it selects *)

Section InputEqnProfile.
Context {D : Type} {A : Arith D}.
Local Open Scope dbl_scope.

(** On a well-formed list shorter than 2^32 the call returns, with [u[0]]
    set to what [select] picks from the whole list. *)
Lemma inputEqn_returns_select (fuel : nat) (t : D) (inputParameters u : list D) :
  (2 <= length inputParameters)%nat ->
  Nat.even (length inputParameters) = true ->
  (N.of_nat (length inputParameters) < Battery.UINT_MODULUS)%N ->
  (length inputParameters < 2 * fuel)%nat ->
  Battery.inputEqn fuel t inputParameters u
  = inr (Some (vset u 0 (select t #0 inputParameters
                           (vget inputParameters (length inputParameters - 2))))).
Proof.
  intros Hlen Hev Hsize Hfuel.
  rewrite inputEqn_valid_length by assumption. f_equal.
  apply (inputEqn_loop_select t inputParameters u Hsize fuel inputParameters []);
    auto.
Qed.

(** What [select] picks is the fallback or stands at an even index. *)
Lemma select_among (t : D) (rest : list D) : forall elapsed otherwise,
  select t elapsed rest otherwise = otherwise
  \/ exists j, (2 * j < length rest)%nat
       /\ select t elapsed rest otherwise = vget rest (2 * j).
Proof.
  induction rest as [|magnitude|magnitude duration rest' IH] using list_pair_ind;
    intros elapsed otherwise; cbn [select]; auto.
  destruct (t <=? elapsed + duration).
  - right. exists 0%nat. split; [simpl; lia | reflexivity].
  - destruct (IH (elapsed + duration) otherwise) as [Hother | (j & Hj & Hpick)];
      [left; exact Hother|].
    right. exists (S j). split; [simpl; lia|].
    rewrite Hpick. replace (2 * S j)%nat with (S (S (2 * j))) by lia.
    reflexivity.
Qed.

Lemma pairs_app (l more : list D) :
  Nat.even (length l) = true -> pairs (l ++ more) = pairs l ++ pairs more.
Proof.
  induction l as [|a|a b l' IH] using list_pair_ind; simpl; intros Hev;
    try discriminate; auto.
  rewrite IH by exact Hev. reflexivity.
Qed.

Lemma cumulative_app (segments more : list (D * D)) : forall elapsed,
  exists elapsed',
    cumulative elapsed (segments ++ more)
    = cumulative elapsed segments ++ cumulative elapsed' more.
Proof.
  induction segments as [|[magnitude duration] segments IH]; intros elapsed; simpl.
  - exists elapsed. reflexivity.
  - destruct (IH (elapsed + duration)) as (elapsed' & Happ).
    exists elapsed'. rewrite Happ. reflexivity.
Qed.

Lemma find_app_some {X : Type} (f : X -> bool) (l more : list X) (a : X) :
  find f l = Some a -> find f (l ++ more) = Some a.
Proof.
  induction l as [|b l IH]; simpl; [discriminate|].
  destruct (f b); auto.
Qed.

(** Past the segments [t] does not reach, [select] goes on with the rest
    of the profile. *)
Lemma select_app_unreached (t : D) (before rest : list D) :
  Nat.even (length before) = true ->
  forall elapsed otherwise,
  find (fun segment => t <=? snd segment) (cumulative elapsed (pairs before)) = None ->
  exists elapsed',
    select t elapsed (before ++ rest) otherwise = select t elapsed' rest otherwise.
Proof.
  induction before as [|a|a b before' IH] using list_pair_ind; simpl;
    intros Hev elapsed otherwise Hreached; try discriminate.
  - exists elapsed. reflexivity.
  - destruct (t <=? elapsed + b); [discriminate|].
    apply IH; assumption.
Qed.

(** X1.  The load is always one of the magnitudes of the profile, and it is
    all the call writes. *)
Theorem inputEqn_load_is_a_magnitude (fuel : nat) (t : D)
    (inputParameters u : list D) :
  (2 <= length inputParameters)%nat ->
  Nat.even (length inputParameters) = true ->
  (N.of_nat (length inputParameters) < Battery.UINT_MODULUS)%N ->
  (length inputParameters < 2 * fuel)%nat ->
  exists u' j,
    Battery.inputEqn fuel t inputParameters u = inr (Some u')
    /\ (2 * j < length inputParameters)%nat
    /\ u' = vset u 0 (vget inputParameters (2 * j))
    /\ length u' = length u
    /\ (forall k, (1 <= k)%nat -> vget u' k = vget u k).
Proof.
  intros Hlen Hev Hsize Hfuel.
  rewrite inputEqn_returns_select by assumption.
  assert (Hpick : exists j, (2 * j < length inputParameters)%nat
            /\ select t #0 inputParameters
                 (vget inputParameters (length inputParameters - 2))
               = vget inputParameters (2 * j)).
  { destruct (select_among t inputParameters #0
                (vget inputParameters (length inputParameters - 2)))
      as [Hother | Hfound]; [|exact Hfound].
    exists (Nat.div2 (length inputParameters) - 1)%nat.
    assert (Hdouble : length inputParameters
                      = (2 * Nat.div2 (length inputParameters))%nat).
    { rewrite (PeanoNat.Nat.div2_odd (length inputParameters)) at 1.
      rewrite <- PeanoNat.Nat.negb_even, Hev. simpl. lia. }
    split; [lia|].
    rewrite Hother. f_equal. lia. }
  destruct Hpick as (j & Hj & Hpick).
  exists (vset u 0 (vget inputParameters (2 * j))), j.
  rewrite Hpick. split; [reflexivity|]. split; [exact Hj|].
  split; [reflexivity|]. split; [apply vset_length|].
  intros k Hk. apply vget_vset_other. lia.
Qed.

(** X2.  Pairs added after a profile do not change the load at the times
    the profile reaches: once a segment of the profile is the first that
    [t] reaches, the call returns its magnitude whatever pairs follow. *)
Theorem inputEqn_extension_keeps_reached (fuel : nat) (t : D)
    (profile more u : list D) (magnitude reached : D) :
  (2 <= length profile)%nat ->
  Nat.even (length profile) = true ->
  Nat.even (length more) = true ->
  (N.of_nat (length (profile ++ more)) < Battery.UINT_MODULUS)%N ->
  (length (profile ++ more) < 2 * fuel)%nat ->
  first_reached t profile = Some (magnitude, reached) ->
  Battery.inputEqn fuel t (profile ++ more) u = inr (Some (vset u 0 magnitude))
  /\ Battery.inputEqn fuel t profile u = inr (Some (vset u 0 magnitude)).
Proof.
  intros Hlen Hev Hmore Hsize Hfuel Hreached.
  assert (Hlength : length (profile ++ more) = (length profile + length more)%nat)
    by apply length_app.
  unfold first_reached in Hreached.
  split.
  - rewrite inputEqn_returns_select; try assumption; try lia.
    + rewrite select_find, pairs_app by exact Hev.
      destruct (cumulative_app (pairs profile) (pairs more) #0) as (elapsed' & Happ).
      rewrite Happ, (find_app_some _ _ _ _ Hreached). reflexivity.
    + rewrite Hlength, PeanoNat.Nat.even_add, Hev, Hmore. reflexivity.
  - rewrite inputEqn_returns_select; try assumption; try lia.
    rewrite select_find, Hreached. reflexivity.
Qed.

End InputEqnProfile.

(* ================================================================== *)
(** * [Battery::outputEqn]: what it reads and what it writes *)

Section OutputEqn.
Context {D : Type} {A : Arith D} {L : Libm D}.
Variable parameters : Battery.Parameters D.
Local Open Scope dbl_scope.

(** X4.  [outputEqn] writes the two outputs and nothing else: the
    temperature in degrees Celsius plus its noise, and the terminal
    voltage that [stateEqn] computes for the same state, plus its noise. *)
Theorem outputEqn_writes_temperature_and_voltage (t : D) (x u u' n z : list D) :
  (2 <= length z)%nat ->
  Battery.outputEqn parameters t x u n z
  = (vget x Battery.indices.states.Tb - #273.15 + vget n 0)
    :: (Battery.c_V (Battery.constraints parameters x u') + vget n 1)
    :: skipn 2 z.
Proof.
  intros Hz. destruct z as [|z0 [|z1 z]]; simpl in Hz; try lia.
  reflexivity.
Qed.

(** X5.  The outputs, and with them the threshold test, depend on the state
    through the temperature, the three voltage drops and the two surface
    charges only: not on the bulk charges, the input or the time. *)
Theorem outputEqn_ignores_bulk_charges (t t' : D) (x x' u u' n z : list D) :
  vget x' Battery.indices.states.Tb = vget x Battery.indices.states.Tb ->
  vget x' Battery.indices.states.Vo = vget x Battery.indices.states.Vo ->
  vget x' Battery.indices.states.Vsn = vget x Battery.indices.states.Vsn ->
  vget x' Battery.indices.states.Vsp = vget x Battery.indices.states.Vsp ->
  vget x' Battery.indices.states.qnS = vget x Battery.indices.states.qnS ->
  vget x' Battery.indices.states.qpS = vget x Battery.indices.states.qpS ->
  Battery.outputEqn parameters t' x' u' n z = Battery.outputEqn parameters t x u n z
  /\ Battery.thresholdEqn parameters t' x' u' = Battery.thresholdEqn parameters t x u.
Proof.
  unfold Battery.indices.states.Tb, Battery.indices.states.Vo,
    Battery.indices.states.Vsn, Battery.indices.states.Vsp,
    Battery.indices.states.qnS, Battery.indices.states.qpS.
  intros HTb HVo HVsn HVsp HqnS HqpS.
  assert (Hsame : forall n z,
            Battery.outputEqn parameters t' x' u' n z
            = Battery.outputEqn parameters t x u n z).
  { intros n0 z0. unfold Battery.outputEqn.
    rewrite HTb, HVo, HVsn, HVsp, HqnS, HqpS. reflexivity. }
  split; [apply Hsame|].
  unfold Battery.thresholdEqn. rewrite Hsame. reflexivity.
Qed.

End OutputEqn.

(* ================================================================== *)
(** * Binary64: NaN in the battery model *)

Section Binary64NaN.
Local Open Scope float_scope.

(** NaN compares with nothing, and every operation on it gives NaN. *)
Lemma leb_nan_l (a : float) : (nan <=? a) = false.
Proof.
  rewrite leb_spec. change (Prim2SF nan) with S754_nan. reflexivity.
Qed.

Lemma add_nan_l (a : float) : nan + a = nan.
Proof.
  apply Prim2SF_inj. rewrite add_spec. change (Prim2SF nan) with S754_nan.
  reflexivity.
Qed.

Lemma add_nan_r (a : float) : a + nan = nan.
Proof.
  apply Prim2SF_inj. rewrite add_spec. change (Prim2SF nan) with S754_nan.
  destruct (Prim2SF a) as [[|]|[|]| |[|] m e]; reflexivity.
Qed.

Lemma sub_nan_l (a : float) : nan - a = nan.
Proof.
  apply Prim2SF_inj. rewrite sub_spec. change (Prim2SF nan) with S754_nan.
  reflexivity.
Qed.

Lemma sub_nan_r (a : float) : a - nan = nan.
Proof.
  apply Prim2SF_inj. rewrite sub_spec. change (Prim2SF nan) with S754_nan.
  destruct (Prim2SF a) as [[|]|[|]| |[|] m e]; reflexivity.
Qed.

Lemma mul_nan_l (a : float) : nan * a = nan.
Proof.
  apply Prim2SF_inj. rewrite mul_spec. change (Prim2SF nan) with S754_nan.
  reflexivity.
Qed.

Lemma mul_nan_r (a : float) : a * nan = nan.
Proof.
  apply Prim2SF_inj. rewrite mul_spec. change (Prim2SF nan) with S754_nan.
  destruct (Prim2SF a) as [[|]|[|]| |[|] m e]; reflexivity.
Qed.

Lemma div_nan_l (a : float) : nan / a = nan.
Proof.
  apply Prim2SF_inj. rewrite div_spec. change (Prim2SF nan) with S754_nan.
  reflexivity.
Qed.

Lemma opp_nan : - nan = nan.
Proof. reflexivity. Qed.

End Binary64NaN.

(** NaN spreads through an expression. *)
Ltac nan_propagates :=
  repeat first [ rewrite add_nan_l | rewrite add_nan_r | rewrite sub_nan_l
               | rewrite sub_nan_r | rewrite mul_nan_l | rewrite mul_nan_r
               | rewrite div_nan_l | rewrite opp_nan ].

Section ThresholdEqnNaN.
Context {L : Libm float}.
Variable parameters : Battery.Parameters float.
Local Open Scope float_scope.

(** The terminal voltage is NaN as soon as one of the six state components
    it is computed from is. *)
Lemma voltage_nan (x u : list float) (k : nat) :
  In k [Battery.indices.states.Tb; Battery.indices.states.Vo;
        Battery.indices.states.Vsn; Battery.indices.states.Vsp;
        Battery.indices.states.qnS; Battery.indices.states.qpS] ->
  vget x k = nan ->
  Battery.c_V (Battery.constraints parameters x u) = nan.
Proof.
  intros Hk Hnan. unfold Battery.constraints. cbv zeta. cbn [Battery.c_V].
  cbn [dadd dsub dmul ddiv dopp float_arith].
  simpl in Hk.
  destruct Hk as [<- | [<- | [<- | [<- | [<- | [<- | []]]]]]];
    unfold Battery.indices.states.Tb, Battery.indices.states.Vo,
      Battery.indices.states.Vsn, Battery.indices.states.Vsp,
      Battery.indices.states.qnS, Battery.indices.states.qpS in Hnan;
    rewrite Hnan; nan_propagates; reflexivity.
Qed.

(** A NaN terminal voltage never passes the threshold test. *)
Lemma thresholdEqn_nan_voltage (t : float) (x u : list float) :
  Battery.c_V (Battery.constraints parameters x u) = nan ->
  Battery.thresholdEqn parameters t x u = false.
Proof.
  intros Hnan. unfold Battery.thresholdEqn. cbv zeta.
  rewrite (outputEqn_Vm parameters t x u u) by (rewrite vector_length; lia).
  rewrite Hnan. cbn [dadd dleb float_arith]. rewrite add_nan_l. apply leb_nan_l.
Qed.

(** X6.  A NaN in a state component the output is computed from, or a NaN
    threshold, never gives "end of discharge": [thresholdEqn] is false. *)
Theorem thresholdEqn_false_on_nan (t : float) (x u : list float) :
  (exists k,
     In k [Battery.indices.states.Tb; Battery.indices.states.Vo;
           Battery.indices.states.Vsn; Battery.indices.states.Vsp;
           Battery.indices.states.qnS; Battery.indices.states.qpS]
     /\ vget x k = nan)
  \/ parameters.(Battery.VEOD) = nan ->
  Battery.thresholdEqn parameters t x u = false.
Proof.
  intros [(k & Hk & Hnan) | HVEOD].
  - apply thresholdEqn_nan_voltage. exact (voltage_nan x u k Hk Hnan).
  - unfold Battery.thresholdEqn. cbv zeta. rewrite HVEOD. apply leb_nan_r.
Qed.

End ThresholdEqnNaN.

Section InputEqnNaN.
Local Open Scope float_scope.

Lemma select_nan_time (rest : list float) : forall elapsed otherwise,
  select nan elapsed rest otherwise = otherwise.
Proof.
  induction rest as [|magnitude|magnitude duration rest' IH] using list_pair_ind;
    intros elapsed otherwise; cbn [select]; auto.
  cbn [dleb float_arith]. rewrite leb_nan_l. apply IH.
Qed.

Lemma select_nan_elapsed (t : float) (rest : list float) : forall otherwise,
  select t nan rest otherwise = otherwise.
Proof.
  induction rest as [|magnitude|magnitude duration rest' IH] using list_pair_ind;
    intros otherwise; cbn [select]; auto.
  cbn [dleb dadd float_arith]. rewrite add_nan_l, leb_nan_r. apply IH.
Qed.

(** X3.  At a NaN time no segment is reached and the load is the last
    magnitude; a NaN duration makes its own segment and every later one
    unreachable, so a time the earlier segments do not reach gets the last
    magnitude too. *)
Theorem inputEqn_nan_selects_last (fuel : nat) (t : float)
    (inputParameters u : list float) :
  (2 <= length inputParameters)%nat ->
  Nat.even (length inputParameters) = true ->
  (N.of_nat (length inputParameters) < Battery.UINT_MODULUS)%N ->
  (length inputParameters < 2 * fuel)%nat ->
  Battery.inputEqn fuel nan inputParameters u
  = inr (Some (vset u 0 (last_magnitude inputParameters)))
  /\ (forall before magnitude after,
        inputParameters = before ++ magnitude :: nan :: after ->
        Nat.even (length before) = true ->
        first_reached t before = None ->
        Battery.inputEqn fuel t inputParameters u
        = inr (Some (vset u 0 (last_magnitude inputParameters)))).
Proof.
  intros Hlen Hev Hsize Hfuel.
  split; [|intros before magnitude after Hip Hbefore Hreached];
    rewrite inputEqn_returns_select by assumption;
    rewrite last_magnitude_index by assumption.
  - rewrite select_nan_time. reflexivity.
  - do 3 f_equal.
    generalize (last_magnitude inputParameters). intros otherwise.
    rewrite Hip.
    destruct (select_app_unreached t before (magnitude :: nan :: after)
                Hbefore (of_Q 0) otherwise Hreached) as (elapsed' & Hselect).
    rewrite Hselect. cbn [select]. cbn [dleb dadd float_arith].
    rewrite add_nan_r, leb_nan_r. apply select_nan_elapsed.
Qed.

End InputEqnNaN.

(* ================================================================== *)
(** * [ModelBasedPrognoser::step]: runs *)

Section PrognoserRuns.
Import ModelBasedPrognoser.
Context {D : Type} {A : Arith D}.
Context {Time UDataVector ProgData Observer Predictor : Type}.
Variable time_to_double : Time -> D.
Local Open Scope dbl_scope.

Variable model : @PrognosticsModel D.
Variable observerClass : @ObserverClass D UDataVector Observer.
Variable predictorClass : @PredictorClass D UDataVector ProgData Predictor.

Local Abbreviation prognoser :=
  (@ModelBasedPrognoser.prognoser D UDataVector ProgData Observer Predictor).
Local Abbreviation CommManager := (@ModelBasedPrognoser.CommManager D Time).
Local Abbreviation seconds :=
  (@ModelBasedPrognoser.seconds D A Time UDataVector ProgData Observer Predictor
     time_to_double).
Local Abbreviation newT :=
  (@ModelBasedPrognoser.newT D A Time UDataVector ProgData Observer Predictor
     time_to_double).
Local Abbreviation step :=
  (ModelBasedPrognoser.step time_to_double model observerClass predictorClass).
Local Abbreviation newTs :=
  (ModelBasedPrognoser.newTs time_to_double model observerClass predictorClass).
Local Abbreviation run_from :=
  (run time_to_double model observerClass predictorClass).

(** The vectors [step] fills from the bus. *)
Local Abbreviation inputs_of comm p :=
  (fill comm (inputs p) (getNumInputs model) 0 (vector (getNumInputs model))).
Local Abbreviation outputs_of comm p :=
  (fill comm (outputs p) (getNumOutputs model) 0 (vector (getNumOutputs model))).

(** ** The loops that fill [u] and [z] *)

Lemma fill_length (comm : CommManager) (names : list string) (count : nat) :
  forall i v, length (fill comm names count i v) = length v.
Proof.
  induction count as [|count IH]; intros i v; cbn [fill]; auto.
  rewrite IH. apply vset_length.
Qed.

Lemma fill_vget (comm : CommManager) (names : list string) (count : nat) :
  forall i v k,
  (i + count <= length v)%nat ->
  vget (fill comm names count i v) k
  = if ((i <=? k) && (k <? i + count))%nat
    then (comm (nth k names ""%string)).(value)
    else vget v k.
Proof.
  induction count as [|count IH]; intros i v k Hlen; cbn [fill].
  - replace ((i <=? k) && (k <? i + 0))%nat with false; auto.
    destruct (PeanoNat.Nat.leb_spec i k), (PeanoNat.Nat.ltb_spec k (i + 0));
      simpl; auto; lia.
  - rewrite IH by (rewrite vset_length; lia).
    destruct (PeanoNat.Nat.eq_dec k i) as [->|Hne].
    + replace ((S i <=? i) && (i <? S i + count))%nat with false
        by (symmetry; apply andb_false_iff; left; apply PeanoNat.Nat.leb_gt; lia).
      replace ((i <=? i) && (i <? i + S count))%nat with true
        by (symmetry; apply andb_true_iff; split;
            [apply PeanoNat.Nat.leb_le | apply PeanoNat.Nat.ltb_lt]; lia).
      apply vget_vset_same. lia.
    + rewrite vget_vset_other by lia.
      replace (S i <=? k)%nat with (i <=? k)%nat
        by (destruct (PeanoNat.Nat.leb_spec i k), (PeanoNat.Nat.leb_spec (S i) k);
            auto; lia).
      replace (S i + count)%nat with (i + S count)%nat by lia.
      reflexivity.
Qed.

(** X7.  The vector [step] hands to the model and the observer has the
    model's size, and its entry [i] is the value the bus holds under the
    name [i]. *)
Theorem fill_reads_named_values (comm : CommManager) (names : list string)
    (n : nat) :
  (n <= length names)%nat ->
  length (fill comm names n 0 (vector n)) = n
  /\ forall i, (i < n)%nat ->
       vget (fill comm names n 0 (vector n)) i = (comm (nth i names ""%string)).(value).
Proof.
  intros _. split.
  - rewrite fill_length. apply vector_length.
  - intros i Hi. rewrite fill_vget by (rewrite vector_length; lia).
    replace ((0 <=? i) && (i <? 0 + n))%nat with true; auto.
    destruct (PeanoNat.Nat.ltb_spec i (0 + n)); simpl; auto; lia.
Qed.

(** ** One call *)

Lemma step_initialTime (initialTime : option D) (comm : CommManager) (p : prognoser) :
  fst (step initialTime comm p)
  = Some (initialTime_after time_to_double initialTime comm p).
Proof.
  unfold ModelBasedPrognoser.step.
  destruct (negb (initialized p)); [reflexivity|].
  destruct (_ <=? lastTime p); [reflexivity|].
  destruct (predictor_predict predictorClass _ _ _ _). reflexivity.
Qed.

Lemma step_configuration (initialTime : option D) (comm : CommManager) (p : prognoser) :
  inputs (snd (step initialTime comm p)) = inputs p
  /\ outputs (snd (step initialTime comm p)) = outputs p.
Proof.
  unfold ModelBasedPrognoser.step.
  destruct (negb (initialized p)); [split; reflexivity|].
  destruct (_ <=? lastTime p); [split; reflexivity|].
  destruct (predictor_predict predictorClass _ _ _ _). split; reflexivity.
Qed.

(** The first call, as C6 describes it. *)
Lemma step_uninitialized (initialTime : option D) (comm : CommManager) (p : prognoser) :
  initialized p = false ->
  let t := newT initialTime comm p in
  let u := inputs_of comm p in
  let z := outputs_of comm p in
  let x0 := model_initialize model (vector (getNumStates model)) u z in
  let p' := snd (step initialTime comm p) in
  initialized p' = true
  /\ lastTime p' = t
  /\ history p' = history p ++ [call_model_initialize u z;
                                call_observer_initialize t x0 u].
Proof.
  intros Hfirst. unfold ModelBasedPrognoser.step. rewrite Hfirst.
  cbn. auto.
Qed.

(** A later call is skipped, or it is one round. *)
Lemma step_initialized (initialTime : option D) (comm : CommManager) (p : prognoser) :
  initialized p = true ->
  let t := newT initialTime comm p in
  let p' := snd (step initialTime comm p) in
  ((t <=? lastTime p) = true /\ p' = p)
  \/ ((t <=? lastTime p) = false
      /\ initialized p' = true
      /\ lastTime p' = t
      /\ exists stateEst,
           history p' = history p ++ [call_observer_step t (inputs_of comm p)
                                        (outputs_of comm p);
                                      call_observer_getStateEstimate;
                                      call_predictor_predict t stateEst]).
Proof.
  intros Hinit t p'. unfold p', ModelBasedPrognoser.step. rewrite Hinit. cbn [negb].
  change (ModelBasedPrognoser.seconds time_to_double comm p
          - initialTime_after time_to_double initialTime comm p) with t.
  destruct (t <=? lastTime p) eqn:Hcmp; [left; auto|].
  right. destruct (predictor_predict predictorClass _ _ _ _) as [predictor' results'] eqn:Hpredict.
  cbn. split; [reflexivity|]. split; [reflexivity|]. split; [reflexivity|].
  eexists. reflexivity.
Qed.

(** ** Sequences of calls *)

Lemma last_cons {X : Type} (l : list X) : forall a d, last (a :: l) d = last l a.
Proof.
  induction l as [|b l IH]; intros a d; [reflexivity|].
  change (last (a :: b :: l) d) with (last (b :: l) d).
  rewrite !IH. reflexivity.
Qed.

Lemma run_initialized (comms : list CommManager) :
  forall (initialTime : option D) (p : prognoser),
  initialized p = true ->
  let p' := snd (run_from initialTime comms p) in
  initialized p' = true
  /\ exists tail,
       history p' = history p ++ tail
       /\ rounds tail
       /\ (length tail <= 3 * length comms)%nat
       /\ advancing (lastTime p :: observer_times tail)
       /\ lastTime p' = last (observer_times tail) (lastTime p).
Proof.
  induction comms as [|comm comms IH]; intros initialTime p Hinit; cbn [run].
  - cbn [snd]. split; [exact Hinit|]. exists []. rewrite app_nil_r.
    repeat split; simpl; auto.
  - destruct (step initialTime comm p) as [initialTime' p1] eqn:Hstep.
    destruct (step_initialized initialTime comm p Hinit)
      as [[Hstale Hsame] | (Hnew & Hinit1 & Hlast1 & stateEst & Hhistory)];
      rewrite Hstep in *; cbn [snd] in *.
    + subst p1. destruct (IH initialTime' p Hinit)
        as (Hinit' & tail & Hhist & Hrounds & Hlength & Hadvancing & Hlast).
      split; [exact Hinit'|]. exists tail.
      repeat split; auto. simpl. lia.
    + destruct (IH initialTime' p1 Hinit1)
        as (Hinit' & tail & Hhist & Hrounds & Hlength & Hadvancing & Hlast).
      split; [exact Hinit'|].
      eexists (_ :: _ :: _ :: tail).
      rewrite Hhist, Hhistory, <- app_assoc. split; [reflexivity|].
      split; [simpl; auto|]. split; [simpl; lia|].
      rewrite Hlast1 in Hadvancing, Hlast.
      split; [simpl; split; [exact Hnew | exact Hadvancing]|].
      rewrite Hlast. cbn [app observer_times]. rewrite last_cons. reflexivity.
Qed.

(** X8.  The calls a prognoser makes over its life.  The first call of
    [step] initializes the model and then the observer; after it the
    history grows by whole rounds only (an observer step, the state
    estimate, a prediction at the same time), at most one round per
    sample: nothing is initialized twice and nothing is predicted without
    an estimate. *)
Theorem run_initializes_once_then_rounds (initialTime : option D)
    (comm : CommManager) (comms : list CommManager) (p : prognoser) :
  initialized p = false ->
  let t := newT initialTime comm p in
  let u := inputs_of comm p in
  let z := outputs_of comm p in
  let x0 := model_initialize model (vector (getNumStates model)) u z in
  let p' := snd (run_from initialTime (comm :: comms) p) in
  initialized p' = true
  /\ exists tail,
       history p' = history p ++ [call_model_initialize u z;
                                  call_observer_initialize t x0 u] ++ tail
       /\ rounds tail
       /\ (length tail <= 3 * length comms)%nat.
Proof.
  intros Hfirst t u z x0. cbn [run].
  destruct (step initialTime comm p) as [initialTime' p1] eqn:Hstep.
  destruct (step_uninitialized initialTime comm p Hfirst) as (Hinit1 & _ & Hhistory).
  rewrite Hstep in *; cbn [snd] in *.
  destruct (run_initialized comms initialTime' p1 Hinit1)
    as (Hinit' & tail & Hhist & Hrounds & Hlength & _).
  split; [exact Hinit'|]. exists tail.
  rewrite Hhist, Hhistory, <- app_assoc. auto.
Qed.

(** X9.  The times the observer is given advance: over the life of a
    prognoser each call on the observer comes with a time that is not [<=]
    the time of the call before, and [lastTime] is the time of the last
    one. *)
Theorem run_observer_times_advance (initialTime : option D)
    (comm : CommManager) (comms : list CommManager) (p : prognoser) :
  initialized p = false ->
  let p' := snd (run_from initialTime (comm :: comms) p) in
  let times := observer_times (skipn (length (history p)) (history p')) in
  advancing times
  /\ hd_error times = Some (newT initialTime comm p)
  /\ lastTime p' = last times (newT initialTime comm p).
Proof.
  intros Hfirst. cbn [run].
  destruct (step initialTime comm p) as [initialTime' p1] eqn:Hstep.
  destruct (step_uninitialized initialTime comm p Hfirst) as (Hinit1 & Hlast1 & Hhistory).
  rewrite Hstep in *; cbn [snd] in *.
  destruct (run_initialized comms initialTime' p1 Hinit1)
    as (_ & tail & Hhist & _ & _ & Hadvancing & Hlast).
  rewrite Hhist, Hhistory, <- app_assoc, skipn_app, skipn_all,
    PeanoNat.Nat.sub_diag.
  cbn [app skipn observer_times]. rewrite Hlast1 in Hadvancing, Hlast.
  split; [exact Hadvancing|]. split; [reflexivity|].
  rewrite Hlast, last_cons. reflexivity.
Qed.

(** ** The static [initialTime] *)

Lemma run_configuration (comms : list CommManager) :
  forall (initialTime : option D) (p : prognoser),
  inputs (snd (run_from initialTime comms p)) = inputs p
  /\ outputs (snd (run_from initialTime comms p)) = outputs p.
Proof.
  induction comms as [|comm comms IH]; intros initialTime p; cbn [run].
  - split; reflexivity.
  - destruct (step initialTime comm p) as [initialTime' p1] eqn:Hstep.
    destruct (step_configuration initialTime comm p) as [Hin Hout].
    rewrite Hstep in *; cbn [snd] in *.
    destruct (IH initialTime' p1) as [Hin' Hout'].
    rewrite Hin', Hout'. auto.
Qed.

Lemma seconds_outputs (comm : CommManager) (p p' : prognoser) :
  outputs p' = outputs p -> seconds comm p' = seconds comm p.
Proof.
  intros Hout. unfold ModelBasedPrognoser.seconds. rewrite Hout. reflexivity.
Qed.

Lemma newTs_from (comms : list CommManager) :
  forall (t0 : D) (p q : prognoser),
  outputs p = outputs q ->
  newTs (Some t0) comms p = map (fun comm => seconds comm q - t0) comms
  /\ fst (run_from (Some t0) comms p) = Some t0.
Proof.
  induction comms as [|comm comms IH]; intros t0 p q Hout;
    cbn [ModelBasedPrognoser.newTs run map].
  - split; reflexivity.
  - destruct (step (Some t0) comm p) as [initialTime' p1] eqn:Hstep.
    assert (Htime := step_initialTime (Some t0) comm p).
    destruct (step_configuration (Some t0) comm p) as [_ Hout1].
    rewrite Hstep in *; cbn [fst snd] in *. cbn in Htime. subst initialTime'.
    destruct (IH t0 p1 q) as [Hts Hrun]; [congruence|].
    rewrite Hts, Hrun. split; [|reflexivity].
    f_equal. unfold ModelBasedPrognoser.newT. cbn.
    rewrite (seconds_outputs comm q p) by congruence. reflexivity.
Qed.

(** X10.  Every relative time is measured from the static [initialTime]: once
    set it stays, and the first call of [step] in the process sets it to
    the time of its own sample, for every prognoser that steps after it. *)
Theorem newTs_measured_from_initialTime (comms : list CommManager) (p : prognoser) :
  (forall t0,
     newTs (Some t0) comms p = map (fun comm => seconds comm p - t0) comms
     /\ fst (run_from (Some t0) comms p) = Some t0)
  /\ (forall comm0,
        newTs None (comm0 :: comms) p
        = map (fun comm => seconds comm p - seconds comm0 p) (comm0 :: comms)
        /\ fst (run_from None (comm0 :: comms) p) = Some (seconds comm0 p)).
Proof.
  split.
  - intros t0. apply newTs_from. reflexivity.
  - intros comm0. cbn [ModelBasedPrognoser.newTs run map].
    destruct (step None comm0 p) as [initialTime' p1] eqn:Hstep.
    assert (Htime := step_initialTime None comm0 p).
    destruct (step_configuration None comm0 p) as [_ Hout1].
    rewrite Hstep in *; cbn [fst snd] in *. cbn in Htime. subst initialTime'.
    destruct (newTs_from comms (seconds comm0 p) p1 p Hout1) as [Hts Hrun].
    rewrite Hts, Hrun. split; reflexivity.
Qed.

End PrognoserRuns.

(* ================================================================== *)
(** * Binary64: the first sample of a process *)

Section FirstSample.
Import ModelBasedPrognoser.
Context {Time UDataVector ProgData Observer Predictor : Type}.
Variable time_to_double : Time -> float.
Variable model : @PrognosticsModel float.
Variable observerClass : @ObserverClass float UDataVector Observer.
Variable predictorClass : @PredictorClass float UDataVector ProgData Predictor.
Local Open Scope float_scope.

Local Abbreviation prognoser :=
  (@ModelBasedPrognoser.prognoser float UDataVector ProgData Observer Predictor).
Local Abbreviation CommManager := (@ModelBasedPrognoser.CommManager float Time).
Local Abbreviation seconds :=
  (@ModelBasedPrognoser.seconds float float_arith Time UDataVector ProgData
     Observer Predictor time_to_double).
Local Abbreviation step :=
  (ModelBasedPrognoser.step time_to_double model observerClass predictorClass).

(** A finite [double] minus itself is [+0]. *)
Lemma sub_diag_finite (a : float) : is_finite a = true -> a - a = 0.
Proof.
  intros Hfinite. apply Prim2SF_inj. rewrite sub_spec.
  change (Prim2SF 0) with (S754_zero false).
  destruct (is_finite_spec a Hfinite) as [[s Hs] | (s & m & e & Hs)]; rewrite Hs.
  - destruct s; reflexivity.
  - unfold SF64sub, SFsub. rewrite Z.sub_diag. reflexivity.
Qed.

(** X11.  The first sample of a process is time zero.  When its time stamp is
    a finite number of seconds, the first call of [step] records
    [lastTime = 0], and a sample that carries the same time stamp again is
    skipped. *)
Theorem first_sample_is_time_zero (comm : CommManager) (p : prognoser) :
  is_finite (seconds comm p) = true ->
  initialized p = false ->
  let initialTime' := fst (step None comm p) in
  let p' := snd (step None comm p) in
  initialTime' = Some (seconds comm p)
  /\ lastTime p' = 0
  /\ forall comm' : CommManager,
       (comm' (nth 0 (outputs p) ""%string)).(getTime)
       = (comm (nth 0 (outputs p) ""%string)).(getTime) ->
       snd (step initialTime' comm' p') = p'.
Proof.
  intros Hfinite Hfirst.
  assert (Hstep : step None comm p
          = (Some (seconds comm p),
             {| inputs := inputs p; outputs := outputs p; initialized := true;
                lastTime := seconds comm p - seconds comm p;
                observer := observer (snd (step None comm p));
                predictor := predictor p; results := results p;
                history := history (snd (step None comm p)) |})).
  { unfold ModelBasedPrognoser.step. rewrite Hfirst. reflexivity. }
  assert (Hzero := sub_diag_finite _ Hfinite).
  rewrite Hstep. clear Hstep.
  generalize (observer (snd (step None comm p))) (history (snd (step None comm p))).
  intros o h. cbn [fst snd lastTime]. rewrite Hzero.
  split; [reflexivity|]. split; [reflexivity|].
  intros comm' Hsame.
  unfold ModelBasedPrognoser.step. cbn [initialized negb lastTime outputs].
  unfold initialTime_after, ModelBasedPrognoser.seconds. cbn [outputs].
  rewrite Hsame.
  fold (seconds comm p). cbn [dsub dleb float_arith]. rewrite Hzero.
  reflexivity.
Qed.

End FirstSample.

(* ================================================================== *)
(** * [Battery::Battery]: construction from a configuration *)

Section BatteryConstruction.
Context {D : Type} {A : Arith D}.
Variable qMobile_default : D.
Variable stod : string -> Battery.exception + D.
Local Open Scope dbl_scope.

Local Abbreviation Battery_ConfigMap := (Battery.Battery_ConfigMap qMobile_default stod).
Local Abbreviation setting := (configured stod).

(** [setParameters] sets [Ro] and [VEOD] to their defaults. *)
Lemma setParameters_defaults (qMobile : D) :
  Battery.set_VEOD (Battery.set_Ro (Battery.setParameters qMobile) #0.117215) #3.2
  = Battery.setParameters qMobile.
Proof. reflexivity. Qed.

(** X12.  The constructor succeeds exactly when every key that is present
    reads as a number; the battery is then the one [setParameters] makes
    for the configured mobile charge, with the configured [Ro] and [VEOD]
    in place of the defaults 0.117215 and 3.2.  The three keys are
    independent: a configured [Ro] or [VEOD] is not reset by a configured
    [qMobile]. *)
Theorem Battery_ConfigMap_returns (configMap : Battery.ConfigMap)
    (this : @Battery.Members D) :
  Battery_ConfigMap configMap = inr this
  <-> exists qMobile Ro VEOD,
        setting configMap Battery.QMOBILE_KEY qMobile_default = inr qMobile
        /\ setting configMap Battery.RO_KEY #0.117215 = inr Ro
        /\ setting configMap Battery.VEOD_KEY #3.2 = inr VEOD
        /\ this = Battery.mkMembers 8 1 2 2 1 #1
                    (Battery.set_VEOD
                       (Battery.set_Ro (Battery.setParameters qMobile) Ro) VEOD).
Proof.
  unfold Battery.Battery_ConfigMap, Battery.stod_at, Battery.ConfigMap_at,
    Battery.includes, Battery.bind, configured.
  destruct (configMap Battery.QMOBILE_KEY) as [qs|];
    [destruct (stod (nth 0 qs ""%string)) as [eq|q]|];
    (destruct (configMap Battery.RO_KEY) as [rs|];
     [destruct (stod (nth 0 rs ""%string)) as [er|r]|]);
    (destruct (configMap Battery.VEOD_KEY) as [vs|];
     [destruct (stod (nth 0 vs ""%string)) as [ev|v]|]);
    (split;
     [ intros Hthis; try discriminate Hthis; injection Hthis as <-;
       do 3 eexists; repeat split; reflexivity
     | intros (qMobile & Ro & VEOD & Hq & Hr & Hv & ->);
       try discriminate Hq; try discriminate Hr; try discriminate Hv;
       repeat match goal with H : inr _ = inr _ |- _ => injection H as <- end;
       reflexivity ]).
Qed.

(** X13.  The constructor throws exactly the exception of the first key, in
    the order [qMobile], [Ro], [VEOD], whose string does not read as a
    number; a key that is absent throws nothing. *)
Theorem Battery_ConfigMap_throws (configMap : Battery.ConfigMap)
    (e : Battery.exception) :
  Battery_ConfigMap configMap = inl e
  <-> setting configMap Battery.QMOBILE_KEY qMobile_default = inl e
      \/ (exists qMobile,
            setting configMap Battery.QMOBILE_KEY qMobile_default = inr qMobile)
         /\ (setting configMap Battery.RO_KEY #0.117215 = inl e
             \/ (exists Ro, setting configMap Battery.RO_KEY #0.117215 = inr Ro)
                /\ setting configMap Battery.VEOD_KEY #3.2 = inl e).
Proof.
  unfold Battery.Battery_ConfigMap, Battery.stod_at, Battery.ConfigMap_at,
    Battery.includes, Battery.bind, configured.
  destruct (configMap Battery.QMOBILE_KEY) as [qs|];
    [destruct (stod (nth 0 qs ""%string)) as [eq|q]|];
    (destruct (configMap Battery.RO_KEY) as [rs|];
     [destruct (stod (nth 0 rs ""%string)) as [er|r]|]);
    (destruct (configMap Battery.VEOD_KEY) as [vs|];
     [destruct (stod (nth 0 vs ""%string)) as [ev|v]|]);
    (split;
     [ intros Hthrown; try discriminate Hthrown;
       try (injection Hthrown as <-); eauto 8
     | intros [Hq | [[qMobile Hq] [Hr | [[Ro Hr] Hv]]]];
       try discriminate Hq; try discriminate Hr; try discriminate Hv;
       congruence ]).
Qed.

End BatteryConstruction.

(* ================================================================== *)
(** * [Battery::initialize]: the state it finds *)

Section InitializeState.
Context {D : Type} {A : Arith D} {L : Libm D}.
Variable parameters : Battery.Parameters D.
Local Open Scope dbl_scope.

(** The pair the search returns is the initial one, every candidate
    having failed the test, or a candidate that passes it. *)
Lemma initialize_search_accepts (Tb Vo voltage : D) (xp xn : list D) (xpo xno : D) :
  forall count i,
  (Battery.initialize_search parameters count Tb Vo voltage xp xn i xpo xno
   = (xpo, xno)
   /\ forall j, (i <= j < i + count)%nat ->
        (Battery.initialize_V parameters Tb Vo (vget xp j) (vget xn j) <=? voltage)
        = false)
  \/ exists k, (i <= k < i + count)%nat
       /\ (Battery.initialize_V parameters Tb Vo (vget xp k) (vget xn k) <=? voltage)
          = true
       /\ Battery.initialize_search parameters count Tb Vo voltage xp xn i xpo xno
          = (vget xp k, vget xn k).
Proof.
  induction count as [|count IH]; intros i.
  - left. split; [reflexivity|]. intros j Hj. lia.
  - cbn [Battery.initialize_search]. cbv zeta.
    destruct (Battery.initialize_V parameters Tb Vo (vget xp i) (vget xn i) <=? voltage)
      eqn:Htest.
    + right. exists i. split; [lia|]. split; [exact Htest | reflexivity].
    + destruct (IH (S i)) as [[Hdefault Hnone] | (k & Hk & Hpass & Hfound)].
      * left. split; [exact Hdefault|]. intros j Hj.
        destruct (PeanoNat.Nat.eq_dec j i) as [->|Hne]; [exact Htest|].
        apply Hnone. lia.
      * right. exists k. split; [lia|]. split; [exact Hpass | exact Hfound].
Qed.

(** X14.  [initialize] overwrites all eight components: the state it returns
    is decided by the input power and the two observed outputs, and does
    not depend on what [x] held before the call. *)
Theorem initialize_overwrites_state (fuel : nat) (x x' u u' z z' : list D) :
  length x = 8%nat ->
  length x' = 8%nat ->
  vget u' Battery.indices.inputs.P = vget u Battery.indices.inputs.P ->
  vget z' Battery.indices.outputs.Tbm = vget z Battery.indices.outputs.Tbm ->
  vget z' Battery.indices.outputs.Vm = vget z Battery.indices.outputs.Vm ->
  Battery.initialize parameters fuel x' u' z' = Battery.initialize parameters fuel x u z.
Proof.
  intros Hx Hx' Hu HTbm HVm. unfold Battery.initialize.
  destruct (Battery.initialize_sweep fuel #0.4 [] []) as [[xp xn]|]; [|reflexivity].
  rewrite Hu, HTbm, HVm.
  destruct (Battery.initialize_search _ _ _ _ _ _ _ _ _ _) as [xpo xno].
  eight_components x Hx. eight_components x' Hx'.
  reflexivity.
Qed.

End InitializeState.

(* ================================================================== *)
(** * The model in real arithmetic *)

Section StateEqnVoltages.
Context {D : Type} {A : Arith D} {L : Libm D}.
Variable parameters : Battery.Parameters D.
Local Open Scope dbl_scope.

(** The three voltage derivatives: each drop relaxes to its nominal value,
    [Ro * i] for the ohmic drop and the Butler-Volmer overpotential of
    the current density [i / S] for the two surface drops. *)
Lemma constraints_voltages (x u : list D) :
  let c := Battery.constraints parameters x u in
  exists Jn0 Jp0,
    Battery.Vodot c
    = (- vget x 1 + parameters.(Battery.Ro) * Battery.c_i c) / parameters.(Battery.to)
    /\ Battery.Vsndot c
       = (- vget x 2
          + narrow (ldiv (lmul (widen (parameters.(Battery.R) * vget x 0))
                            (asinh (ldiv (lmul (ldiv (ld_of_Q 1.0) (ld_of_Q 2.0))
                                            (widen (Battery.c_i c
                                                    / parameters.(Battery.Sn))))
                                      (widen Jn0))))
                      (widen (parameters.(Battery.F) * parameters.(Battery.alpha)))))
         / parameters.(Battery.tsn)
    /\ Battery.Vspdot c
       = (- vget x 3
          + narrow (ldiv (lmul (widen (parameters.(Battery.R) * vget x 0))
                            (asinh (ldiv (lmul (ldiv (ld_of_Q 1.0) (ld_of_Q 2.0))
                                            (widen (Battery.c_i c
                                                    / parameters.(Battery.Sp))))
                                      (widen Jp0))))
                      (widen (parameters.(Battery.F) * parameters.(Battery.alpha)))))
         / parameters.(Battery.tsp).
Proof. do 2 eexists. repeat split. Qed.

End StateEqnVoltages.

Section EquilibriumReal.
Variable parameters : Battery.Parameters R.
Local Open Scope R_scope.

(** In real arithmetic, with the real [asinh]: a state with no voltage
    drops and equal bulk and surface concentrations, under no load and no
    noise, has all eight derivatives zero. *)
Lemma stateEqn_equilibrium (t dt : R) (x u n : list R) :
  length x = 8%nat ->
  vget u 0 = 0 ->
  vget x 1 = 0 -> vget x 2 = 0 -> vget x 3 = 0 ->
  vget x 4 / parameters.(Battery.VolB) = vget x 5 / parameters.(Battery.VolS) ->
  vget x 6 / parameters.(Battery.VolB) = vget x 7 / parameters.(Battery.VolS) ->
  (forall k, vget n k = 0) ->
  Battery.stateEqn (L := real_libm) parameters t x u n dt = x.
Proof.
  intros Hx HP HVo HVsn HVsp Hn Hp Hnoise.
  rewrite (stateEqn_update parameters t x u n dt Hx).
  destruct (constraints_charges parameters x u) as (Hi & HnB & HnS & HpB & HpS).
  destruct (constraints_voltages parameters x u) as (Jn0 & Jp0 & HVodot & HVsndot & HVspdot).
  cbv zeta in *.
  assert (Hzero : Battery.c_i (Battery.constraints parameters x u) = 0).
  { rewrite Hi, HP. cbn [ddiv real_arith]. unfold Rdiv. apply Rmult_0_l. }
  rewrite constraints_Tbdot, HVodot, HVsndot, HVspdot, HnB, HnS, HpB, HpS.
  rewrite Hzero, !Hnoise, HVo, HVsn, HVsp.
  cbn [dadd dsub dmul ddiv dopp real_arith of_Q
       widen narrow ldiv lmul ld_of_Q asinh real_libm].
  rewrite Hn, Hp.
  replace (Q2R 1.0 / Q2R 2.0 * (0 / Battery.Sn parameters) / Jn0) with 0
    by (unfold Rdiv; ring).
  replace (Q2R 1.0 / Q2R 2.0 * (0 / Battery.Sp parameters) / Jp0) with 0
    by (unfold Rdiv; ring).
  rewrite arcsinh_0.
  replace (Q2R 0) with 0 by (unfold Q2R; simpl; lra).
  eight_components x Hx. cbn [vget nth] in *. subst.
  unfold Rdiv, Rminus. repeat f_equal; ring.
Qed.

(** X15.  A battery at rest stays at rest.  In real arithmetic, with the real
    [asinh], a state with no voltage drops and equal bulk and surface
    concentrations is a fixed point of [stateEqn] under zero power and
    zero noise, for every time step; the state [initialize] finds for an
    observation at zero power is such a state. *)
Theorem stateEqn_rest_is_a_fixed_point :
  (forall (t dt : R) (x u n : list R),
     length x = 8%nat ->
     vget u 0 = 0 ->
     vget x 1 = 0 -> vget x 2 = 0 -> vget x 3 = 0 ->
     vget x 4 / parameters.(Battery.VolB) = vget x 5 / parameters.(Battery.VolS) ->
     vget x 6 / parameters.(Battery.VolB) = vget x 7 / parameters.(Battery.VolS) ->
     (forall k, vget n k = 0) ->
     Battery.stateEqn (L := real_libm) parameters t x u n dt = x)
  /\ (forall (fuel : nat) (t dt : R) (x u z n : list R),
        (6002 <= fuel)%nat ->
        length x = 8%nat ->
        parameters.(Battery.VolS) <> 0 ->
        parameters.(Battery.VolB) <> 0 ->
        vget u 0 = 0 ->
        (forall k, vget n k = 0) ->
        exists x0,
          Battery.initialize (L := real_libm) parameters fuel x u z = Some x0
          /\ Battery.stateEqn (L := real_libm) parameters t x0 u n dt = x0).
Proof.
  split; [exact stateEqn_equilibrium|].
  intros fuel t dt x u z n Hfuel Hx HVolS HVolB HP Hnoise.
  destruct (initialize_sweep_real fuel Hfuel) as (xp & xn & Hsweep).
  destruct (Battery.initialize_search (L := real_libm) parameters (length xp)
              (observed_Tb z) (ohmic_drop parameters u z) (observed_voltage z)
              xp xn 0 (of_Q 0.4) (of_Q 0.6)) as [xpo xno] eqn:Hsearch.
  destruct (initialize_returns parameters fuel x u z xp xn Hsweep Hx xpo xno Hsearch)
    as (x0 & Hinit & Hlength & _ & HVo & HVsn & HVsp & HpS & HnS & HpB & HnB).
  exists x0. split; [exact Hinit|].
  unfold Battery.indices.states.Vo, Battery.indices.states.Vsn,
    Battery.indices.states.Vsp, Battery.indices.states.qpS,
    Battery.indices.states.qnS, Battery.indices.states.qpB,
    Battery.indices.states.qnB in *.
  apply stateEqn_equilibrium; auto.
  - rewrite HVo. unfold ohmic_drop, Battery.indices.inputs.P. rewrite HP.
    cbn [ddiv dmul real_arith]. unfold Rdiv. ring.
  - rewrite HVsn. unfold Q2R; simpl; lra.
  - rewrite HVsp. unfold Q2R; simpl; lra.
  - rewrite HnB. cbn [ddiv dmul real_arith]. field. auto.
  - rewrite HpB. cbn [ddiv dmul real_arith]. field. auto.
Qed.

End EquilibriumReal.

Section SetParametersReal.
Local Open Scope R_scope.

(** X16.  In real arithmetic the parameters [setParameters] derives from the
    mobile charge add up: the surface and the bulk volume make the
    electrode's volume, every charge bound splits between surface and bulk
    in the ratio of the volumes, the negative electrode holds between
    nothing and the mobile charge, and the positive electrode takes the
    mobile charge on top of its minimum. *)
Theorem setParameters_splits_charge (qMobile : R) :
  let p := Battery.setParameters (A := real_arith) qMobile in
  p.(Battery.VolS) + p.(Battery.VolB) = p.(Battery.Vol)
  /\ p.(Battery.qSMax) + p.(Battery.qBMax) = p.(Battery.qMax)
  /\ p.(Battery.qnSMax) + p.(Battery.qnBMax) = p.(Battery.qnMax)
  /\ p.(Battery.qnSMin) + p.(Battery.qnBMin) = p.(Battery.qnMin)
  /\ p.(Battery.qpSMax) + p.(Battery.qpBMax) = p.(Battery.qpMax)
  /\ p.(Battery.qpSMin) + p.(Battery.qpBMin) = p.(Battery.qpMin)
  /\ p.(Battery.qnMin) = 0
  /\ p.(Battery.qnMax) = qMobile
  /\ p.(Battery.qpMax) = p.(Battery.qMax)
  /\ p.(Battery.qpMin) + qMobile = p.(Battery.qpMax)
  /\ p.(Battery.qnMax) + p.(Battery.qpMin) = p.(Battery.qMax).
Proof.
  cbv zeta. unfold Battery.setParameters.
  cbn [Battery.VolS Battery.VolB Battery.Vol Battery.qSMax Battery.qBMax
       Battery.qMax Battery.qnSMax Battery.qnBMax Battery.qnMax Battery.qnSMin
       Battery.qnBMin Battery.qnMin Battery.qpSMax Battery.qpBMax Battery.qpMax
       Battery.qpSMin Battery.qpBMin Battery.qpMin
       dadd dsub dmul ddiv of_Q real_arith].
  unfold Q2R. simpl. repeat split; field.
Qed.

End SetParametersReal.

(* ================================================================== *)
(** * [Battery::initialize] in real arithmetic: what the state predicts *)

Section OutputEqnTemperature.
Context {D : Type} {A : Arith D} {L : Libm D}.
Variable parameters : Battery.Parameters D.
Local Open Scope dbl_scope.

(** The temperature [outputEqn] reports is the bulk temperature in degrees
    Celsius, plus the noise. *)
Lemma outputEqn_Tbm (t : D) (x u n z : list D) :
  (1 <= length z)%nat ->
  vget (Battery.outputEqn parameters t x u n z) Battery.indices.outputs.Tbm
  = vget x Battery.indices.states.Tb - #273.15 + vget n 0.
Proof.
  intros Hz. destruct z as [|z0 [|z1 z]]; simpl in Hz; try lia; reflexivity.
Qed.

End OutputEqnTemperature.

Section InitializeOutputsReal.
Context {L : Libm R}.
Local Open Scope R_scope.

Lemma Rleb_true (a b : R) : Rleb a b = true <-> a <= b.
Proof. unfold Rleb. destruct (Rle_dec a b); split; auto; discriminate. Qed.

Lemma Rleb_false (a b : R) : Rleb a b = false <-> b < a.
Proof.
  unfold Rleb. destruct (Rle_dec a b); split; auto; try discriminate; lra.
Qed.

(** The candidates of the sweep, one by one. *)
Lemma real_candidates_nth (n : nat) : forall xi k,
  (k < n)%nat -> nth k (real_candidates n xi) (of_Q 0) = xi + INR k * 0.0001.
Proof.
  induction n as [|n IH]; intros xi k Hk; [lia|].
  destruct k as [|k]; cbn [real_candidates nth].
  - simpl. lra.
  - rewrite IH by lia. rewrite S_INR. lra.
Qed.

(** The vectors the sweep fills in real arithmetic. *)
Lemma initialize_sweep_real_candidates (fuel : nat) :
  (6002 <= fuel)%nat ->
  Battery.initialize_sweep (A := real_arith) fuel (of_Q 0.4) [] []
  = Some (real_candidates 6001 (of_Q 0.4),
          map (fun xi => (of_Q 1 - xi)%dbl) (real_candidates 6001 (of_Q 0.4))).
Proof.
  intros Hfuel.
  assert (Hfrom : sweep_from (of_Q 0.4) (real_candidates 6001 (of_Q 0.4))).
  { apply real_candidates_sweep; rewrite INR_IZR_INZ;
      change (Z.of_nat 6001) with 6001%Z;
      cbn [of_Q real_arith]; unfold Q2R; simpl; lra. }
  assert (Hsucc : S 6001 = 6002%nat) by reflexivity.
  replace fuel
    with (S (length (real_candidates 6001 (of_Q 0.4))) + (fuel - 6002))%nat
    by (rewrite real_candidates_length; lia).
  apply initialize_sweep_fuel.
  exact (initialize_sweep_complete (real_candidates 6001 (of_Q 0.4)) _ [] [] Hfrom).
Qed.

(** The negative mole fraction [initialize] settles on lies between 0 and
    0.6. *)
Lemma initialize_search_real_range (parameters : Battery.Parameters R)
    (Tb Vo voltage xpo xno : R) :
  let xp := real_candidates 6001 (of_Q 0.4) in
  let xn := map (fun xi => (of_Q 1 - xi)%dbl) xp in
  Battery.initialize_search parameters (length xp) Tb Vo voltage xp xn 0
    (of_Q 0.4) (of_Q 0.6) = (xpo, xno) ->
  0 <= xno <= 0.6.
Proof.
  intros xp xn Hsearch.
  destruct (initialize_search_range parameters Tb Vo voltage xp xn (of_Q 0.4)
              (of_Q 0.6) (length xp) 0) as [Hdefault | (k & Hk & Hfound)].
  - rewrite Hsearch in Hdefault. injection Hdefault as _ ->.
    cbn [of_Q real_arith]. unfold Q2R. simpl. lra.
  - rewrite Hsearch in Hfound. injection Hfound as _ ->.
    unfold xp in Hk. rewrite real_candidates_length in Hk.
    unfold xn, vget.
    rewrite (nth_indep _ (of_Q 0) ((fun xi => (of_Q 1 - xi)%dbl) (of_Q 0)))
      by (unfold xp; rewrite length_map, real_candidates_length; lia).
    rewrite map_nth. unfold xp.
    rewrite real_candidates_nth by exact (proj2 Hk).
    assert (Hlow := pos_INR k).
    assert (Hle : (k <= 6000)%nat)
      by (apply PeanoNat.Nat.lt_succ_r; exact (proj2 Hk)).
    assert (Hhigh : INR k <= 6000).
    { replace 6000 with (INR 6000)
        by (rewrite INR_IZR_INZ; change (Z.of_nat 6000) with 6000%Z; reflexivity).
      apply le_INR. exact Hle. }
    cbn [of_Q dsub real_arith]. unfold Q2R. simpl. lra.
Qed.

(** The terminal voltage of a state derived from a pair of mole fractions
    is the voltage [initialize] predicts for the pair. *)
Lemma voltage_of_derived_state (parameters : Battery.Parameters R)
    (x u : list R) (Tb Vo xpo xno : R) :
  parameters.(Battery.qSMax)
  = parameters.(Battery.qMax) * parameters.(Battery.VolS) / parameters.(Battery.Vol) ->
  parameters.(Battery.qSMax) <> 0 ->
  vget x Battery.indices.states.Tb = Tb ->
  vget x Battery.indices.states.Vo = Vo ->
  derived_from parameters xpo xno x ->
  Battery.c_V (Battery.constraints parameters x u)
  = Battery.initialize_V parameters Tb Vo xpo xno.
Proof.
  intros HqSMax Hnonzero HTb HVo (HVsn & HVsp & HpS & HnS & _ & _).
  unfold Battery.indices.states.Tb, Battery.indices.states.Vo,
    Battery.indices.states.Vsn, Battery.indices.states.Vsp,
    Battery.indices.states.qpS, Battery.indices.states.qnS in *.
  rewrite HqSMax in *.
  assert (HVol : Battery.Vol parameters <> 0).
  { intros Hzero. apply Hnonzero. rewrite Hzero. unfold Rdiv.
    rewrite Rinv_0. ring. }
  assert (HVolS : Battery.VolS parameters <> 0).
  { intros Hzero. apply Hnonzero. rewrite Hzero. unfold Rdiv. ring. }
  assert (HqMax : Battery.qMax parameters <> 0).
  { intros Hzero. apply Hnonzero. rewrite Hzero. unfold Rdiv. ring. }
  assert (HxnS : vget x 5
                 / (Battery.qMax parameters * Battery.VolS parameters
                    / Battery.Vol parameters) = xno).
  { rewrite HnS. cbn [dmul ddiv real_arith]. field. auto. }
  assert (HxpS : vget x 7
                 / (Battery.qMax parameters * Battery.VolS parameters
                    / Battery.Vol parameters) = xpo).
  { rewrite HpS. cbn [dmul ddiv real_arith]. field. auto. }
  unfold Battery.constraints, Battery.initialize_V. cbv zeta. cbn [Battery.c_V].
  cbn [dadd dsub dmul ddiv dopp real_arith] in *.
  rewrite HqSMax, HxnS, HxpS, HTb, HVo, HVsn, HVsp.
  replace (of_Q 0) with 0 by (cbn [of_Q real_arith]; unfold Q2R; simpl; lra).
  ring.
Qed.

(** X17.  [initialize] inverts [outputEqn] up to the grid.  In real
    arithmetic, for parameters with [qSMax = qMax * VolS / Vol] nonzero (as
    [setParameters] makes them), the state [initialize] returns gives back
    the observed temperature exactly, and a voltage that is [<=] the
    observed one, unless it is the fully charged state the search falls
    back to, whose voltage is then above the observed one. *)
Theorem initialize_inverts_outputEqn (parameters : Battery.Parameters R)
    (fuel : nat) (t : R) (x u u' z n z0 : list R) :
  (6002 <= fuel)%nat ->
  length x = 8%nat ->
  (2 <= length z0)%nat ->
  parameters.(Battery.qSMax)
  = parameters.(Battery.qMax) * parameters.(Battery.VolS) / parameters.(Battery.Vol) ->
  parameters.(Battery.qSMax) <> 0 ->
  vget n 0 = 0 -> vget n 1 = 0 ->
  exists x',
    Battery.initialize parameters fuel x u z = Some x'
    /\ vget (Battery.outputEqn parameters t x' u' n z0) Battery.indices.outputs.Tbm
       = vget z Battery.indices.outputs.Tbm
    /\ (vget (Battery.outputEqn parameters t x' u' n z0) Battery.indices.outputs.Vm
        <= vget z Battery.indices.outputs.Vm
        \/ (derived_from parameters (of_Q 0.4) (of_Q 0.6) x'
            /\ vget z Battery.indices.outputs.Vm
               < vget (Battery.outputEqn parameters t x' u' n z0)
                      Battery.indices.outputs.Vm)).
Proof.
  intros Hfuel Hx Hz0 HqSMax Hnonzero Hn0 Hn1.
  assert (Hsweep := initialize_sweep_real_candidates fuel Hfuel).
  set (xp := real_candidates 6001 (of_Q 0.4)) in *.
  set (xn := map (fun xi => (of_Q 1 - xi)%dbl) xp) in *.
  destruct (Battery.initialize_search parameters (length xp)
              (observed_Tb z) (ohmic_drop parameters u z) (observed_voltage z)
              xp xn 0 (of_Q 0.4) (of_Q 0.6)) as [xpo xno] eqn:Hsearch.
  destruct (initialize_returns parameters fuel x u z xp xn Hsweep Hx xpo xno Hsearch)
    as (x' & Hinit & Hlength & HTb & HVo & Hderived).
  exists x'. split; [exact Hinit|].
  rewrite (outputEqn_Tbm parameters t x' u' n z0) by lia.
  rewrite (outputEqn_Vm parameters t x' u' u' n z0 Hz0).
  rewrite Hn0, Hn1.
  rewrite (voltage_of_derived_state parameters x' u' _ _ xpo xno
             HqSMax Hnonzero HTb HVo Hderived).
  split.
  - rewrite HTb. unfold observed_Tb.
    cbn [dadd dsub real_arith]. lra.
  - destruct (initialize_search_accepts parameters (observed_Tb z)
                (ohmic_drop parameters u z) (observed_voltage z) xp xn
                (of_Q 0.4) (of_Q 0.6) (length xp) 0)
      as [[Hdefault Hnone] | (k & Hk & Hpass & Hfound)].
    + rewrite Hsearch in Hdefault. injection Hdefault as -> ->.
      right. split; [exact Hderived|].
      assert (Hfirst := Hnone 0%nat).
      unfold xp at 1 in Hfirst. rewrite real_candidates_length in Hfirst.
      specialize (Hfirst (conj (le_n 0) (PeanoNat.Nat.lt_0_succ 6000))).
      change (vget xp 0) with (of_Q (D := R) 0.4) in Hfirst.
      change (vget xn 0) with ((of_Q 1 - of_Q 0.4)%dbl : R) in Hfirst.
      replace ((of_Q 1 - of_Q 0.4)%dbl : R) with (of_Q (D := R) 0.6) in Hfirst
        by (cbn [of_Q dsub real_arith]; unfold Q2R; simpl; lra).
      apply Rleb_false in Hfirst. unfold observed_voltage in Hfirst.
      cbn [dadd of_Q real_arith] in *. lra.
    + rewrite Hsearch in Hfound. injection Hfound as -> ->.
      left. apply Rleb_true in Hpass. unfold observed_voltage in Hpass.
      cbn [dadd of_Q real_arith] in *. lra.
Qed.

(** X18.  The state of charge of an initialized battery.  In real arithmetic,
    for the parameters [setParameters] makes of a nonzero mobile charge,
    the state of charge [predictedOutputEqn] reports for the state
    [initialize] returns lies between 0 and 1, whatever was observed. *)
Theorem initialize_state_of_charge_in_range (qMobile : R)
    (fuel : nat) (t : R) (x u u' z z0 : list R) :
  (6002 <= fuel)%nat ->
  length x = 8%nat ->
  (1 <= length z0)%nat ->
  qMobile <> 0 ->
  let parameters := Battery.setParameters (A := real_arith) qMobile in
  exists x',
    Battery.initialize parameters fuel x u z = Some x'
    /\ 0 <= vget (Battery.predictedOutputEqn parameters t x' u' z0) 0 <= 1.
Proof.
  intros Hfuel Hx Hz0 Hq parameters.
  assert (Hsweep := initialize_sweep_real_candidates fuel Hfuel).
  set (xp := real_candidates 6001 (of_Q 0.4)) in *.
  set (xn := map (fun xi => (of_Q 1 - xi)%dbl) xp) in *.
  destruct (Battery.initialize_search parameters (length xp)
              (observed_Tb z) (ohmic_drop parameters u z) (observed_voltage z)
              xp xn 0 (of_Q 0.4) (of_Q 0.6)) as [xpo xno] eqn:Hsearch.
  destruct (initialize_returns parameters fuel x u z xp xn Hsweep Hx xpo xno Hsearch)
    as (x' & Hinit & Hlength & _ & _ & _ & _ & _ & HnS & _ & HnB).
  assert (Hrange := initialize_search_real_range parameters _ _ _ _ _ Hsearch).
  exists x'. split; [exact Hinit|].
  unfold Battery.predictedOutputEqn. cbv zeta.
  rewrite vget_vset_same by lia.
  rewrite HnB, HnS.
  replace ((Battery.qMax parameters * xno * Battery.VolS parameters
            / Battery.Vol parameters
            + Battery.qMax parameters * xno * Battery.VolS parameters
              / Battery.Vol parameters * Battery.VolB parameters
              / Battery.VolS parameters) / Battery.qnMax parameters)%dbl
    with (xno / 0.6).
  - lra.
  - unfold parameters, Battery.setParameters.
    cbn [Battery.VolS Battery.VolB Battery.Vol Battery.qMax Battery.qnMax
         dadd dsub dmul ddiv of_Q real_arith].
    unfold Q2R. simpl. field. lra.
Qed.

End InitializeOutputsReal.

(* ================================================================== *)
(** * [Battery::initialize]: the sweep in binary64 and in real arithmetic *)

Section SweepBounds.
Local Open Scope float_scope.

Lemma strictly_increasing_spec (l : list float) : forall k,
  strictly_increasing l = true ->
  (S k < length l)%nat ->
  (nth k l 0 <? nth (S k) l 0) = true.
Proof.
  induction l as [|a l IH]; intros k Hincr Hk; [simpl in Hk; lia|].
  destruct l as [|b l]; [simpl in Hk; lia|].
  cbn [strictly_increasing] in Hincr. apply andb_prop in Hincr as [Hab Hrest].
  destruct k as [|k]; [exact Hab|].
  change (nth (S k) (a :: b :: l) 0) with (nth k (b :: l) 0).
  change (nth (S (S k)) (a :: b :: l) 0) with (nth (S k) (b :: l) 0).
  apply IH; [exact Hrest | simpl in *; lia].
Qed.

Lemma forallb_nth (f : float -> bool) (l : list float) (k : nat) :
  forallb f l = true -> (k < length l)%nat -> f (nth k l 0) = true.
Proof.
  intros Hall Hk. rewrite forallb_forall in Hall. apply Hall, nth_In, Hk.
Qed.

(** X19.  The candidates of the sweep.  In binary64 the loop adds the rounded
    step 6000 times and stops below 1.0: the 6001 candidates grow
    strictly, every [xp] is in [0.4, 1) and every [xn = 1 - xp] in
    (0, 0.6], so no candidate has a mole fraction of 0 or 1, where the
    logarithms of the predicted voltage are not defined.  In real
    arithmetic the last candidate is exactly [xp = 1], [xn = 0]. *)
Theorem initialize_sweep_candidates :
  (forall fuel : nat,
     (6002 <= fuel)%nat ->
     exists xp xn,
       Battery.initialize_sweep (A := float_arith) fuel (of_Q 0.4) [] [] = Some (xp, xn)
       /\ length xp = 6001%nat
       /\ length xn = 6001%nat
       /\ forall k, (k < 6001)%nat ->
            (0.4 <=? vget xp k) = true
            /\ (vget xp k <? 1) = true
            /\ vget xn k = 1 - vget xp k
            /\ (0 <? vget xn k) = true
            /\ (vget xn k <=? 0.6) = true
            /\ ((S k < 6001)%nat -> (vget xp k <? vget xp (S k)) = true))
  /\ (forall fuel : nat,
        (6002 <= fuel)%nat ->
        exists xp xn,
          Battery.initialize_sweep (A := real_arith) fuel (of_Q 0.4) [] [] = Some (xp, xn)
          /\ length xp = 6001%nat
          /\ length xn = 6001%nat
          /\ vget xp 6000 = 1%R
          /\ vget xn 6000 = 0%R).
Proof.
  split; intros fuel Hfuel.
  - destruct (initialize_sweep_binary64 fuel Hfuel) as (Hsweep & Hxp & Hxn & _).
    exists (fst binary64_sweep), (snd binary64_sweep).
    split; [rewrite Hsweep; destruct binary64_sweep; reflexivity|].
    split; [exact Hxp|]. split; [exact Hxn|].
    assert (Hinside : forallb (fun xp => (0.4 <=? xp) && (xp <? 1))
                        (fst binary64_sweep) = true)
      by (vm_compute; reflexivity).
    assert (Hcomplement : forallb (fun xn => (0 <? xn) && (xn <=? 0.6))
                            (snd binary64_sweep) = true)
      by (vm_compute; reflexivity).
    assert (Hincreasing : strictly_increasing (fst binary64_sweep) = true)
      by (vm_compute; reflexivity).
    assert (Hmap : snd binary64_sweep
                   = map (fun xi => 1 - xi) (fst binary64_sweep))
      by (vm_compute; reflexivity).
    intros k Hk. unfold vget. change (of_Q 0) with 0.
    assert (Hkp : (k < length (fst binary64_sweep))%nat) by (rewrite Hxp; exact Hk).
    assert (Hkn : (k < length (snd binary64_sweep))%nat) by (rewrite Hxn; exact Hk).
    assert (Hp := forallb_nth _ _ k Hinside Hkp).
    assert (Hn := forallb_nth _ _ k Hcomplement Hkn).
    apply andb_prop in Hp as [Hlow Hhigh]. apply andb_prop in Hn as [Hpos Hmost].
    split; [exact Hlow|]. split; [exact Hhigh|].
    split; [|split; [exact Hpos|split; [exact Hmost|]]].
    + rewrite Hmap.
      rewrite (nth_indep _ 0 ((fun xi => 1 - xi) 0))
        by (rewrite length_map; exact Hkp).
      apply map_nth.
    + intros HSk. apply strictly_increasing_spec; [exact Hincreasing|].
      rewrite Hxp. exact HSk.
  - exists (real_candidates 6001 (of_Q 0.4)),
           (map (fun xi => (of_Q 1 - xi)%dbl) (real_candidates 6001 (of_Q 0.4))).
    split; [apply initialize_sweep_real_candidates; exact Hfuel|].
    split; [apply real_candidates_length|].
    split; [rewrite length_map; apply real_candidates_length|].
    assert (Hlast : nth 6000 (real_candidates 6001 (of_Q 0.4)) (of_Q 0) = 1%R).
    { rewrite real_candidates_nth by apply PeanoNat.Nat.lt_succ_diag_r.
      rewrite INR_IZR_INZ. change (Z.of_nat 6000) with 6000%Z.
      cbn [of_Q real_arith]. unfold Q2R. simpl. lra. }
    split; [exact Hlast|].
    unfold vget.
    rewrite (nth_indep _ (of_Q 0) ((fun xi => (of_Q 1 - xi)%dbl) (of_Q 0)))
      by (rewrite length_map, real_candidates_length;
          apply PeanoNat.Nat.lt_succ_diag_r).
    rewrite map_nth, Hlast. cbn [of_Q dsub real_arith]. unfold Q2R. simpl. lra.
Qed.

(** X20.  The state of charge of an initialized battery, in binary64.  For
    the battery of 7600 C, whatever is observed and whatever the library,
    the state of charge [predictedOutputEqn] reports for the state
    [initialize] returns is above 0 and below 1: the fully charged state
    itself reports 0.99999999999999989. *)
Theorem initialize_state_of_charge_binary64 {L : Libm float}
    (fuel : nat) (t : float) (x u u' z z0 : list float) :
  (6002 <= fuel)%nat ->
  length x = 8%nat ->
  (1 <= length z0)%nat ->
  exists x',
    Battery.initialize battery fuel x u z = Some x'
    /\ (0 <? vget (Battery.predictedOutputEqn battery t x' u' z0) 0) = true
    /\ (vget (Battery.predictedOutputEqn battery t x' u' z0) 0 <? 1) = true
    /\ derived_SOC battery 0.6 = 0.99999999999999989.
Proof.
  intros Hfuel Hx Hz0.
  destruct (initialize_sweep_binary64 fuel Hfuel) as (Hsweep & Hxp & Hxn & _).
  assert (Hall : forallb (fun xno => (0 <? derived_SOC battery xno)
                                     && (derived_SOC battery xno <? 1))
                   (0.6 :: snd binary64_sweep) = true)
    by (vm_compute; reflexivity).
  destruct binary64_sweep as [xp xn] eqn:Hvectors. cbn [fst snd] in *.
  destruct (initialize_derived_state battery fuel x u z xp xn Hx Hsweep)
    as (x' & xpo & xno & Hinit & Hpair & _ & _ & _ & HnS & _ & HnB).
  exists x'. split; [exact Hinit|].
  assert (HSOC : vget (Battery.predictedOutputEqn battery t x' u' z0) 0
                 = derived_SOC battery xno).
  { unfold Battery.predictedOutputEqn. cbv zeta.
    rewrite vget_vset_same by lia. rewrite HnB, HnS. reflexivity. }
  rewrite HSOC.
  assert (Hin : In xno (0.6 :: xn)).
  { destruct Hpair as [[_ ->] | (k & Hk & _ & ->)]; [left; reflexivity|].
    right. apply nth_In. rewrite Hxn. rewrite Hxp in Hk. exact Hk. }
  rewrite forallb_forall in Hall. apply Hall in Hin.
  apply andb_prop in Hin as [Hlow Hhigh].
  split; [exact Hlow|]. split; [exact Hhigh|].
  vm_compute. reflexivity.
Qed.

End SweepBounds.

(* ================================================================== *)
(** * Examples *)

Section MoreWitnesses.
Local Open Scope float_scope.

(** At [t = 7] in the profile 1 W for 10 s, then 2 W for 5 s. *)
Lemma inputEqn_load_is_a_magnitude_witness :
  exists u' j,
    Battery.inputEqn 3 7 [1; 10; 2; 5] [0] = inr (Some u')
    /\ (2 * j < length [1; 10; 2; 5])%nat
    /\ u' = vset [0] 0 (vget [1; 10; 2; 5] (2 * j))
    /\ length u' = length [0]
    /\ (forall k, (1 <= k)%nat -> vget u' k = vget [0] k).
Proof.
  refine (inputEqn_load_is_a_magnitude 3 7 [1; 10; 2; 5] [0] _ _ _ _).
  - simpl; lia.
  - reflexivity.
  - reflexivity.
  - simpl; lia.
Defined.

(** The same profile with 3 W for 4 s added. *)
Lemma inputEqn_extension_keeps_reached_witness :
  Battery.inputEqn 4 7 ([1; 10; 2; 5] ++ [3; 4]) [0] = inr (Some (vset [0] 0 1))
  /\ Battery.inputEqn 4 7 [1; 10; 2; 5] [0] = inr (Some (vset [0] 0 1)).
Proof.
  refine (inputEqn_extension_keeps_reached 4 7 [1; 10; 2; 5] [3; 4] [0] 1 10
            _ _ _ _ _ _).
  - simpl; lia.
  - reflexivity.
  - reflexivity.
  - reflexivity.
  - simpl; lia.
  - vm_compute. reflexivity.
Defined.

(** A profile whose first duration is NaN. *)
Lemma inputEqn_nan_selects_last_witness :
  Battery.inputEqn 3 nan [1; nan; 2; 5] [0]
  = inr (Some (vset [0] 0 (last_magnitude [1; nan; 2; 5])))
  /\ Battery.inputEqn 3 12 [1; nan; 2; 5] [0]
     = inr (Some (vset [0] 0 (last_magnitude [1; nan; 2; 5]))).
Proof.
  destruct (inputEqn_nan_selects_last 3 12 [1; nan; 2; 5] [0])
    as [Htime Hduration].
  - simpl; lia.
  - reflexivity.
  - reflexivity.
  - simpl; lia.
  - split; [exact Htime|].
    apply (Hduration [] 1 [2; 5]); reflexivity.
Defined.

(** The outputs of the state [x_example]. *)
Lemma outputEqn_writes_temperature_and_voltage_witness :
  Battery.outputEqn (L := Cmath.libm) battery 0 x_example [8] (vector 8) (vector 2)
  = (vget x_example Battery.indices.states.Tb - of_Q 273.15 + vget (vector 8) 0)%dbl
    :: (Battery.c_V (Battery.constraints (L := Cmath.libm) battery x_example [8])
        + vget (vector 8) 1)%dbl
    :: skipn 2 (vector 2).
Proof.
  refine (outputEqn_writes_temperature_and_voltage (L := Cmath.libm) battery 0
            x_example [8] [8] (vector 8) (vector 2) _).
  simpl; lia.
Defined.

(** [x_example] with other bulk charges, at another time and input. *)
Lemma outputEqn_ignores_bulk_charges_witness :
  Battery.outputEqn (L := Cmath.libm) battery 5
    [293.15; 0; 0; 0; 1; 700; 2; 600] [3] (vector 8) (vector 2)
  = Battery.outputEqn (L := Cmath.libm) battery 0 x_example [8] (vector 8) (vector 2)
  /\ Battery.thresholdEqn (L := Cmath.libm) battery 5
       [293.15; 0; 0; 0; 1; 700; 2; 600] [3]
     = Battery.thresholdEqn (L := Cmath.libm) battery 0 x_example [8].
Proof.
  refine (outputEqn_ignores_bulk_charges (L := Cmath.libm) battery 0 5 x_example
            [293.15; 0; 0; 0; 1; 700; 2; 600] [8] [3] (vector 8) (vector 2)
            _ _ _ _ _ _); reflexivity.
Defined.

(** [x_example] with a NaN ohmic drop. *)
Lemma thresholdEqn_false_on_nan_witness :
  Battery.thresholdEqn (L := Cmath.libm) battery 0
    [293.15; nan; 0; 0; 6000; 700; 5000; 600] [8] = false.
Proof.
  apply (thresholdEqn_false_on_nan (L := Cmath.libm) battery).
  left. exists Battery.indices.states.Vo. split.
  - simpl. right. left. reflexivity.
  - reflexivity.
Defined.

(** The two outputs read from the bus of the example. *)
Lemma fill_reads_named_values_witness :
  length (ModelBasedPrognoser.fill (Example.comm_at 1000%Z)
            ["temperature"%string; "voltage"%string] 2 0 (vector 2)) = 2%nat
  /\ forall i, (i < 2)%nat ->
       vget (ModelBasedPrognoser.fill (Example.comm_at 1000%Z)
               ["temperature"%string; "voltage"%string] 2 0 (vector 2)) i
       = ModelBasedPrognoser.value
           (Example.comm_at 1000%Z
              (nth i ["temperature"%string; "voltage"%string] ""%string)).
Proof.
  refine (fill_reads_named_values (Example.comm_at 1000%Z)
            ["temperature"%string; "voltage"%string] 2 _).
  simpl; lia.
Defined.

(** A state with other contents, and vectors with more entries. *)
Lemma initialize_overwrites_state_witness :
  Battery.initialize (L := Cmath.libm) battery 6002 x_example [8; 1] [20; 3.9; 7]
  = Battery.initialize (L := Cmath.libm) battery 6002 (vector 8) [8] [20; 3.9].
Proof.
  refine (initialize_overwrites_state (L := Cmath.libm) battery 6002 (vector 8)
            x_example [8] [8; 1] [20; 3.9] [20; 3.9; 7] _ _ _ _ _); reflexivity.
Defined.

(** From the observation of 8 W, 20 degrees Celsius and 3.9 V. *)
Lemma initialize_state_of_charge_binary64_witness :
  exists x',
    Battery.initialize (L := Cmath.libm) battery 6002 (vector 8) [8] [20; 3.9] = Some x'
    /\ (0 <? vget (Battery.predictedOutputEqn battery 0 x' [8] [0]) 0) = true
    /\ (vget (Battery.predictedOutputEqn battery 0 x' [8] [0]) 0 <? 1) = true
    /\ derived_SOC battery 0.6 = 0.99999999999999989.
Proof.
  refine (initialize_state_of_charge_binary64 (L := Cmath.libm) 6002 0 (vector 8)
            [8] [8] [20; 3.9] [0] (le_n _) _ _).
  - reflexivity.
  - simpl; lia.
Defined.

(** The sweep with fuel for 6002 turns. *)
Lemma initialize_sweep_candidates_witness :
  (exists xp xn,
     Battery.initialize_sweep (A := float_arith) 6002 (of_Q 0.4) [] [] = Some (xp, xn)
     /\ length xp = 6001%nat
     /\ length xn = 6001%nat
     /\ forall k, (k < 6001)%nat ->
          (0.4 <=? vget xp k) = true
          /\ (vget xp k <? 1) = true
          /\ vget xn k = 1 - vget xp k
          /\ (0 <? vget xn k) = true
          /\ (vget xn k <=? 0.6) = true
          /\ ((S k < 6001)%nat -> (vget xp k <? vget xp (S k)) = true))
  /\ (exists xp xn,
        Battery.initialize_sweep (A := real_arith) 6002 (of_Q 0.4) [] [] = Some (xp, xn)
        /\ length xp = 6001%nat
        /\ length xn = 6001%nat
        /\ vget xp 6000 = 1%R
        /\ vget xn 6000 = 0%R).
Proof.
  split.
  - exact (proj1 initialize_sweep_candidates 6002%nat (le_n _)).
  - exact (proj2 initialize_sweep_candidates 6002%nat (le_n _)).
Defined.

End MoreWitnesses.

Section RunWitnesses.
Import ModelBasedPrognoser.
Local Open Scope float_scope.

(** The prognoser of the example over four samples, the third a
    duplicate of the second. *)
Lemma run_initializes_once_then_rounds_witness :
  let p := Example.constructed in
  let comm := Example.comm_at 1000%Z in
  let comms := [Example.comm_at 2000%Z; Example.comm_at 2000%Z;
                Example.comm_at 3000%Z] in
  let t := newT float_of_Z None comm p in
  let u := fill comm (inputs p) (getNumInputs Example.model) 0
             (vector (getNumInputs Example.model)) in
  let z := fill comm (outputs p) (getNumOutputs Example.model) 0
             (vector (getNumOutputs Example.model)) in
  let x0 := model_initialize Example.model
              (vector (getNumStates Example.model)) u z in
  let p' := snd (run float_of_Z Example.model Example.observerClass
                   Example.predictorClass None (comm :: comms) p) in
  initialized p' = true
  /\ exists tail,
       history p' = history p ++ [call_model_initialize u z;
                                  call_observer_initialize t x0 u] ++ tail
       /\ rounds tail
       /\ (length tail <= 3 * length comms)%nat.
Proof.
  cbv zeta.
  assert (H := run_initializes_once_then_rounds float_of_Z Example.model
                 Example.observerClass Example.predictorClass None
                 (Example.comm_at 1000%Z)
                 [Example.comm_at 2000%Z; Example.comm_at 2000%Z;
                  Example.comm_at 3000%Z]
                 Example.constructed eq_refl).
  cbv zeta in H. exact H.
Defined.

Lemma run_observer_times_advance_witness :
  let p := Example.constructed in
  let comm := Example.comm_at 1000%Z in
  let comms := [Example.comm_at 2000%Z; Example.comm_at 2000%Z;
                Example.comm_at 3000%Z] in
  let p' := snd (run float_of_Z Example.model Example.observerClass
                   Example.predictorClass None (comm :: comms) p) in
  let times := observer_times (skipn (length (history p)) (history p')) in
  advancing times
  /\ hd_error times = Some (newT float_of_Z None comm p)
  /\ lastTime p' = last times (newT float_of_Z None comm p).
Proof.
  cbv zeta.
  assert (H := run_observer_times_advance float_of_Z Example.model
                 Example.observerClass Example.predictorClass None
                 (Example.comm_at 1000%Z)
                 [Example.comm_at 2000%Z; Example.comm_at 2000%Z;
                  Example.comm_at 3000%Z]
                 Example.constructed eq_refl).
  cbv zeta in H. exact H.
Defined.

(** The first sample of the example, stamped 1000 ms. *)
Lemma first_sample_is_time_zero_witness :
  let p := Example.constructed in
  let comm := Example.comm_at 1000%Z in
  let initialTime' := fst (step float_of_Z Example.model Example.observerClass
                             Example.predictorClass None comm p) in
  let p' := snd (step float_of_Z Example.model Example.observerClass
                   Example.predictorClass None comm p) in
  initialTime' = Some (seconds float_of_Z comm p)
  /\ lastTime p' = 0
  /\ forall comm' : @CommManager float Example.Time,
       (comm' (nth 0 (outputs p) ""%string)).(getTime)
       = (comm (nth 0 (outputs p) ""%string)).(getTime) ->
       snd (step float_of_Z Example.model Example.observerClass
              Example.predictorClass initialTime' comm' p') = p'.
Proof.
  cbv zeta.
  assert (H := first_sample_is_time_zero float_of_Z Example.model
                 Example.observerClass Example.predictorClass
                 (Example.comm_at 1000%Z) Example.constructed
                 ltac:(vm_compute; reflexivity) eq_refl).
  cbv zeta in H. exact H.
Defined.

End RunWitnesses.

Section RealWitnesses.
Local Open Scope R_scope.

Lemma setParameters_volumes :
  let p := Battery.setParameters (A := real_arith) 7600 in
  p.(Battery.VolS) = 0.000002 /\ p.(Battery.VolB) = 0.000018
  /\ p.(Battery.Vol) = 0.00002 /\ p.(Battery.qMax) = 7600 / 0.6.
Proof.
  cbv zeta. unfold Battery.setParameters.
  cbn [Battery.VolS Battery.VolB Battery.Vol Battery.qMax
       dadd dsub dmul ddiv of_Q real_arith].
  unfold Q2R. simpl. repeat split; lra.
Qed.

(** A battery of 7600 C at rest at 20 degrees Celsius, and the state
    found for 0 W, 20 degrees Celsius and 4 V. *)
Lemma stateEqn_rest_is_a_fixed_point_witness :
  Battery.stateEqn (L := real_libm) (Battery.setParameters (A := real_arith) 7600)
    0 [293.15; 0; 0; 0; 9; 1; 18; 2] [0] [] 1
  = [293.15; 0; 0; 0; 9; 1; 18; 2]
  /\ exists x0,
       Battery.initialize (L := real_libm) (Battery.setParameters (A := real_arith) 7600)
         6002 (vector 8) [0] [20; 4] = Some x0
       /\ Battery.stateEqn (L := real_libm)
            (Battery.setParameters (A := real_arith) 7600) 0 x0 [0] [] 1 = x0.
Proof.
  destruct setParameters_volumes as (HVolS & HVolB & _).
  cbv zeta in *.
  assert (Hnoise : forall k, vget (A := real_arith) [] k = 0).
  { intros [|k]; unfold vget; simpl; unfold Q2R; simpl; lra. }
  split.
  - apply (proj1 (stateEqn_rest_is_a_fixed_point
                    (Battery.setParameters (A := real_arith) 7600)));
      try reflexivity; try exact Hnoise.
    + rewrite HVolS, HVolB. unfold vget. simpl. lra.
    + rewrite HVolS, HVolB. unfold vget. simpl. lra.
  - refine (proj2 (stateEqn_rest_is_a_fixed_point
                     (Battery.setParameters (A := real_arith) 7600))
              6002%nat 0 1 (vector 8) [0] [20; 4] [] (le_n _) eq_refl _ _ eq_refl
              Hnoise).
    + rewrite HVolS. lra.
    + rewrite HVolB. lra.
Defined.

(** The battery of 7600 C and the observation of 8 W, 20 degrees Celsius
    and 3.9 V. *)
Lemma initialize_inverts_outputEqn_witness :
  exists x',
    Battery.initialize (L := real_libm) (Battery.setParameters (A := real_arith) 7600)
      6002 (vector 8) [8] [20; 3.9] = Some x'
    /\ vget (Battery.outputEqn (L := real_libm)
               (Battery.setParameters (A := real_arith) 7600) 0 x' [8] [0; 0] [0; 0])
            Battery.indices.outputs.Tbm
       = vget [20; 3.9] Battery.indices.outputs.Tbm
    /\ (vget (Battery.outputEqn (L := real_libm)
                (Battery.setParameters (A := real_arith) 7600) 0 x' [8] [0; 0] [0; 0])
             Battery.indices.outputs.Vm
        <= vget [20; 3.9] Battery.indices.outputs.Vm
        \/ (derived_from (Battery.setParameters (A := real_arith) 7600)
              (of_Q 0.4) (of_Q 0.6) x'
            /\ vget [20; 3.9] Battery.indices.outputs.Vm
               < vget (Battery.outputEqn (L := real_libm)
                         (Battery.setParameters (A := real_arith) 7600) 0 x' [8]
                         [0; 0] [0; 0])
                      Battery.indices.outputs.Vm)).
Proof.
  destruct setParameters_volumes as (HVolS & HVolB & HVol & HqMax).
  cbv zeta in *.
  refine (initialize_inverts_outputEqn (L := real_libm)
            (Battery.setParameters (A := real_arith) 7600) 6002 0 (vector 8)
            [8] [8] [20; 3.9] [0; 0] [0; 0] (le_n _) eq_refl (le_n _) eq_refl _
            eq_refl eq_refl).
  change (Battery.qSMax (Battery.setParameters (A := real_arith) 7600))
    with (Battery.qMax (Battery.setParameters (A := real_arith) 7600)
          * Battery.VolS (Battery.setParameters (A := real_arith) 7600)
          / Battery.Vol (Battery.setParameters (A := real_arith) 7600)).
  rewrite HVolS, HVol, HqMax. lra.
Defined.

Lemma initialize_state_of_charge_in_range_witness :
  exists x',
    Battery.initialize (L := real_libm) (Battery.setParameters (A := real_arith) 7600)
      6002 (vector 8) [8] [20; 3.9] = Some x'
    /\ 0 <= vget (Battery.predictedOutputEqn
                    (Battery.setParameters (A := real_arith) 7600) 0 x' [8] [0]) 0
       <= 1.
Proof.
  refine (initialize_state_of_charge_in_range (L := real_libm) 7600 6002 0 (vector 8)
            [8] [8] [20; 3.9] [0] (le_n _) eq_refl (le_n _) _).
  lra.
Defined.

End RealWitnesses.

(* ================================================================== *)
(** * Binary64: a NaN input power *)

Section NaNPower.
Context {L : Libm float}.
Variable parameters : Battery.Parameters float.
Local Open Scope float_scope.

(** X21.  A NaN input power poisons the state in one step: whatever the
    state, the time step and the noise, after [stateEqn] the ohmic drop
    [x[1]] and the two surface charges [x[5]], [x[7]] are NaN, and from
    then on [thresholdEqn] answers false: the end of discharge is never
    reported. *)
Theorem stateEqn_nan_power_poisons_state (t dt : float) (x u n : list float) :
  length x = 8%nat ->
  vget u Battery.indices.inputs.P = nan ->
  let x' := Battery.stateEqn parameters t x u n dt in
  vget x' Battery.indices.states.Vo = nan
  /\ vget x' Battery.indices.states.qnS = nan
  /\ vget x' Battery.indices.states.qpS = nan
  /\ forall t' u', Battery.thresholdEqn parameters t' x' u' = false.
Proof.
  intros Hx HP x'.
  assert (Hx' : x' = Battery.stateEqn parameters t x u n dt) by reflexivity.
  rewrite (stateEqn_update parameters t x u n dt Hx) in Hx'.
  destruct (constraints_charges parameters x u) as (Hi & _ & HnS & _ & HpS).
  destruct (constraints_voltages parameters x u) as (Jn0 & Jp0 & HVodot & _ & _).
  cbv zeta in *.
  assert (Hcurrent : Battery.c_i (Battery.constraints parameters x u) = nan).
  { rewrite Hi. unfold Battery.indices.inputs.P in HP. rewrite HP.
    cbn [ddiv float_arith]. apply div_nan_l. }
  rewrite HVodot, HnS, HpS, Hcurrent in Hx'.
  cbn [dadd dsub dmul ddiv dopp float_arith] in Hx'.
  assert (HVo : vget x' Battery.indices.states.Vo = nan)
    by (rewrite Hx'; cbn [vget nth Battery.indices.states.Vo];
        nan_propagates; reflexivity).
  split; [exact HVo|].
  split; [rewrite Hx'; cbn [vget nth Battery.indices.states.qnS];
          nan_propagates; reflexivity|].
  split; [rewrite Hx'; cbn [vget nth Battery.indices.states.qpS];
          nan_propagates; reflexivity|].
  intros t' u'. apply thresholdEqn_nan_voltage.
  apply (voltage_nan parameters x' u' Battery.indices.states.Vo);
    [simpl; auto | exact HVo].
Qed.

End NaNPower.

(* ================================================================== *)
(** * A prognoser over the battery model *)

Section BatteryPrognoser.
Import ModelBasedPrognoser.
Context {L : Libm float}.
Context {Time UDataVector ProgData Observer Predictor : Type}.
Variable time_to_double : Time -> float.
Variable observerClass : @ObserverClass float UDataVector Observer.
Variable predictorClass : @PredictorClass float UDataVector ProgData Predictor.
Variable qMobile_default : float.
Variable stod : string -> Battery.exception + float.
Local Open Scope float_scope.

(** Every battery the constructor returns has the cardinalities 8, 1
    and 2. *)
Lemma Battery_ConfigMap_cardinalities (configMap : Battery.ConfigMap)
    (this : @Battery.Members float) :
  Battery.Battery_ConfigMap qMobile_default stod configMap = inr this ->
  this.(Battery.m_numStates) = 8%nat
  /\ this.(Battery.m_numInputs) = 1%nat
  /\ this.(Battery.m_numOutputs) = 2%nat.
Proof.
  unfold Battery.Battery_ConfigMap, Battery.stod_at, Battery.ConfigMap_at,
    Battery.includes, Battery.bind.
  destruct (configMap Battery.QMOBILE_KEY) as [qs|];
    [destruct (stod (nth 0 qs ""%string)) as [eq|q]|];
    (destruct (configMap Battery.RO_KEY) as [rs|];
     [destruct (stod (nth 0 rs ""%string)) as [er|r]|]);
    (destruct (configMap Battery.VEOD_KEY) as [vs|];
     [destruct (stod (nth 0 vs ""%string)) as [ev|v]|]);
    intros Hthis; try discriminate Hthis; injection Hthis as <-;
    repeat split.
Qed.

(** X22.  A prognoser whose model is a battery built from a configuration
    initializes it within bounds: on the first call of [step] the vectors
    handed to [Battery::initialize] have the sizes 8, 1 and 2 its indices
    need ([x[0..7]], [u[0]], [z[0..1]]), the sweep returns, and the state
    of eight components it writes is the one the observer is initialized
    with. *)
Theorem step_initializes_battery_in_bounds (configMap : Battery.ConfigMap)
    (this : @Battery.Members float) (fuel : nat) (initialTime : option float)
    (comm : @CommManager float Time)
    (p : @prognoser float UDataVector ProgData Observer Predictor) :
  Battery.Battery_ConfigMap qMobile_default stod configMap = inr this ->
  (6002 <= fuel)%nat ->
  initialized p = false ->
  let model := Battery_model this fuel in
  let t := newT time_to_double initialTime comm p in
  let u := fill comm (inputs p) (getNumInputs model) 0 (vector (getNumInputs model)) in
  let z := fill comm (outputs p) (getNumOutputs model) 0 (vector (getNumOutputs model)) in
  let p' := snd (step time_to_double model observerClass predictorClass
                   initialTime comm p) in
  length (vector (A := float_arith) (getNumStates model)) = 8%nat
  /\ length u = 1%nat
  /\ length z = 2%nat
  /\ exists x0,
       Battery.initialize this.(Battery.m_parameters) fuel
         (vector (getNumStates model)) u z = Some x0
       /\ length x0 = 8%nat
       /\ history p' = history p ++ [call_model_initialize u z;
                                     call_observer_initialize t x0 u].
Proof.
  intros Hthis Hfuel Hfirst model t u z p'.
  destruct (Battery_ConfigMap_cardinalities configMap this Hthis)
    as (Hstates & Hinputs & Houtputs).
  assert (Hx : length (vector (A := float_arith) (getNumStates model)) = 8%nat)
    by (rewrite vector_length; exact Hstates).
  split; [exact Hx|].
  split; [unfold u; rewrite fill_length, vector_length; exact Hinputs|].
  split; [unfold z; rewrite fill_length, vector_length; exact Houtputs|].
  destruct (initialize_binary64_returns this.(Battery.m_parameters) fuel
              (vector (getNumStates model)) u z Hfuel Hx) as (x0 & Hinit & Hlength).
  exists x0. split; [exact Hinit|]. split; [exact Hlength|].
  destruct (step_uninitialized time_to_double model observerClass predictorClass
              initialTime comm p Hfirst) as (_ & _ & Hhistory).
  fold p' in Hhistory. rewrite Hhistory.
  fold u z t. do 3 f_equal.
  change (model_initialize model (vector (getNumStates model)) u z)
    with (match Battery.initialize this.(Battery.m_parameters) fuel
                  (vector (getNumStates model)) u z with
          | Some x' => x'
          | None => vector (getNumStates model)
          end).
  rewrite Hinit. reflexivity.
Qed.

End BatteryPrognoser.

Section BatteryPrognoserWitnesses.
Import ModelBasedPrognoser.
Local Open Scope float_scope.

(** [x_example] under a NaN power. *)
Lemma stateEqn_nan_power_poisons_state_witness :
  let x' := Battery.stateEqn (L := Cmath.libm) battery 0 x_example [nan] (vector 8) 1 in
  vget x' Battery.indices.states.Vo = nan
  /\ vget x' Battery.indices.states.qnS = nan
  /\ vget x' Battery.indices.states.qpS = nan
  /\ forall t' u', Battery.thresholdEqn (L := Cmath.libm) battery t' x' u' = false.
Proof.
  cbv zeta.
  assert (H := stateEqn_nan_power_poisons_state (L := Cmath.libm) battery 0 1
                 x_example [nan] (vector 8) eq_refl eq_refl).
  cbv zeta in H. exact H.
Defined.

(** A configuration that sets the ohmic resistance only, read by a
    [stod] that knows one string; the example's bus and prognoser. *)
Lemma step_initializes_battery_in_bounds_witness :
  let stod := fun s : string =>
                if String.eqb s "0.1" then inr 0.1
                else inl Battery.invalid_argument in
  let configMap := fun key : string =>
                     if String.eqb key Battery.RO_KEY then Some ["0.1"%string]
                     else None in
  let this := Battery.mkMembers 8 1 2 2 1 1
                (Battery.set_VEOD
                   (Battery.set_Ro (Battery.setParameters 7600) 0.1) 3.2) in
  let p := Example.constructed in
  let comm := Example.comm_at 1000%Z in
  let model := Battery_model (L := Cmath.libm) this 6002 in
  let t := newT float_of_Z None comm p in
  let u := fill comm (inputs p) (getNumInputs model) 0 (vector (getNumInputs model)) in
  let z := fill comm (outputs p) (getNumOutputs model) 0 (vector (getNumOutputs model)) in
  let p' := snd (step float_of_Z model Example.observerClass Example.predictorClass
                   None comm p) in
  length (vector (A := float_arith) (getNumStates model)) = 8%nat
  /\ length u = 1%nat
  /\ length z = 2%nat
  /\ exists x0,
       Battery.initialize (L := Cmath.libm) this.(Battery.m_parameters) 6002
         (vector (getNumStates model)) u z = Some x0
       /\ length x0 = 8%nat
       /\ history p' = history p ++ [call_model_initialize u z;
                                     call_observer_initialize t x0 u].
Proof.
  cbv zeta.
  assert (Hthis :
            Battery.Battery_ConfigMap 7600
              (fun s : string =>
                 if String.eqb s "0.1" then inr 0.1
                 else inl Battery.invalid_argument)
              (fun key : string =>
                 if String.eqb key Battery.RO_KEY then Some ["0.1"%string]
                 else None)
            = inr (Battery.mkMembers 8 1 2 2 1 1
                     (Battery.set_VEOD
                        (Battery.set_Ro (Battery.setParameters 7600) 0.1) 3.2)))
    by (vm_compute; reflexivity).
  assert (H := step_initializes_battery_in_bounds (L := Cmath.libm) float_of_Z
                 Example.observerClass Example.predictorClass 7600 _ _ _
                 6002 None (Example.comm_at 1000%Z) Example.constructed
                 Hthis (le_n _) eq_refl).
  cbv zeta in H. exact H.
Defined.

End BatteryPrognoserWitnesses.

(* ================================================================== *)
(** * [Battery::stateEqn] and [Battery::outputEqn]: the energy drawn *)

Section EnergyBalanceReal.
Context {L : Libm R}.
Variable parameters : Battery.Parameters R.
Local Open Scope R_scope.

(** X23.  The charge moved is the energy drawn.  In real arithmetic, with
    no noise on the charges and on the voltage, one step of [stateEqn]
    takes from the negative electrode, and gives to the positive one, a
    charge that multiplied by the voltage [outputEqn] reports for the
    state before the step (when it is not zero) is the input power times
    the time step. *)
Theorem stateEqn_moves_the_charge_drawn (t dt : R) (x u n z : list R) :
  length x = 8%nat ->
  (2 <= length z)%nat ->
  vget n 1 = 0 ->
  vget n 4 = 0 -> vget n 5 = 0 -> vget n 6 = 0 -> vget n 7 = 0 ->
  let V := vget (Battery.outputEqn parameters t x u n z) Battery.indices.outputs.Vm in
  let x' := Battery.stateEqn parameters t x u n dt in
  V <> 0 ->
  ((vget x 4 + vget x 5) - (vget x' 4 + vget x' 5)) * V = vget u 0 * dt
  /\ ((vget x' 6 + vget x' 7) - (vget x 6 + vget x 7)) * V = vget u 0 * dt.
Proof.
  intros Hx Hz Hn1 Hn4 Hn5 Hn6 Hn7 V x'.
  unfold V, x'. rewrite (outputEqn_Vm parameters t x u u n z Hz), Hn1.
  rewrite (stateEqn_update parameters t x u n dt Hx).
  destruct (constraints_charges parameters x u) as (Hi & HnB & HnS & HpB & HpS).
  cbv zeta in *. cbn [vget nth].
  change (nth 4 n (of_Q 0)) with (vget n 4).
  change (nth 5 n (of_Q 0)) with (vget n 5).
  change (nth 6 n (of_Q 0)) with (vget n 6).
  change (nth 7 n (of_Q 0)) with (vget n 7).
  rewrite Hn4, Hn5, Hn6, Hn7, HnB, HnS, HpB, HpS.
  cbn [dadd dsub dmul ddiv dopp real_arith] in *.
  intros HV. rewrite Rplus_0_r in HV.
  change (nth 0 u (of_Q 0)) with (vget u 0).
  assert (Hpower : Battery.c_i (Battery.constraints parameters x u)
                   * Battery.c_V (Battery.constraints parameters x u) = vget u 0)
    by (rewrite Hi; field; exact HV).
  rewrite <- Hpower. unfold Rdiv. split; ring.
Qed.

End EnergyBalanceReal.

Section EnergyBalanceWitness.
Local Open Scope R_scope.

(** The voltage of the battery of 7600 C with empty surfaces, when the
    terms in [pow] and [log] are left out. *)
Lemma empty_surface_voltage :
  vget (Battery.outputEqn
          (L := Build_Libm R (fun _ _ => 0) (fun _ => 0) R (fun a => a) (fun a => a)
                  Q2R Rmult Rdiv (fun a => a))
          (Battery.setParameters (A := real_arith) 7600) 0
          [293.15; 0; 0; 0; 9; 0; 18; 0] [8] [] [0; 0])
       Battery.indices.outputs.Vm <> 0.
Proof.
  unfold Battery.outputEqn, Battery.setParameters. cbv zeta.
  cbn [vget nth vset Battery.indices.outputs.Vm pow log
       Battery.qSMax Battery.F Battery.R Battery.U0p Battery.U0n
       Battery.Ap0 Battery.Ap1 Battery.Ap2 Battery.Ap3 Battery.Ap4 Battery.Ap5
       Battery.Ap6 Battery.Ap7 Battery.Ap8 Battery.Ap9 Battery.Ap10 Battery.Ap11
       Battery.Ap12 Battery.An0 Battery.An1 Battery.An2 Battery.An3 Battery.An4
       Battery.An5 Battery.An6 Battery.An7 Battery.An8 Battery.An9 Battery.An10
       Battery.An11 Battery.An12
       dadd dsub dmul ddiv dopp of_Q real_arith].
  unfold Q2R, Rdiv. simpl. rewrite !Rmult_0_l, !Rmult_0_r. lra.
Qed.

(** That battery under 8 W for 1 s. *)
Lemma stateEqn_moves_the_charge_drawn_witness :
  let L := Build_Libm R (fun _ _ => 0) (fun _ => 0) R (fun a => a) (fun a => a)
             Q2R Rmult Rdiv (fun a => a) in
  let parameters := Battery.setParameters (A := real_arith) 7600 in
  let x := [293.15; 0; 0; 0; 9; 0; 18; 0] in
  let V := vget (Battery.outputEqn (L := L) parameters 0 x [8] [] [0; 0])
                Battery.indices.outputs.Vm in
  let x' := Battery.stateEqn (L := L) parameters 0 x [8] [] 1 in
  ((vget x 4 + vget x 5) - (vget x' 4 + vget x' 5)) * V = vget [8] 0 * 1
  /\ ((vget x' 6 + vget x' 7) - (vget x 6 + vget x 7)) * V = vget [8] 0 * 1.
Proof.
  cbv zeta.
  assert (Hnoise : forall k, vget (A := real_arith) [] k = 0).
  { intros [|k]; unfold vget; simpl; unfold Q2R; simpl; lra. }
  assert (H := stateEqn_moves_the_charge_drawn
                 (L := Build_Libm R (fun _ _ => 0) (fun _ => 0) R (fun a => a)
                         (fun a => a) Q2R Rmult Rdiv (fun a => a))
                 (Battery.setParameters (A := real_arith) 7600)
                 0 1 [293.15; 0; 0; 0; 9; 0; 18; 0] [8] [] [0; 0]
                 eq_refl (le_n _) (Hnoise 1%nat) (Hnoise 4%nat) (Hnoise 5%nat)
                 (Hnoise 6%nat) (Hnoise 7%nat) empty_surface_voltage).
  cbv zeta in H. exact H.
Defined.

End EnergyBalanceWitness.
